(** * plotting.py: axis stacks, combined legends and mouse-tracking lines

    A shallow embedding of the stateful core of [plotting.py]:
    - [axes]: builds the stack of left/right y-axes around a host Axes;
    - [legend]: one combined legend for several Axes;
    - [add_mouse_tracking_vertical_line] with its closures [remove_lines],
      [on_mouse_move] and [on_close], on top of [register_event] and
      [unregister_event];
    - [figure] and [get_window_title]: figures made or reused, their
      titles and the module counter;
    - [subplots]: a grid of Axes on a figure;
    - [save_png]: where and at which size a figure is saved.

    Python objects are identified by natural numbers (their identity);
    the spine offsets [axes] computes are binary64 floats, as in Python;
    the numbers the code only passes on or compares (pointer coordinates,
    layout rectangles, sizes) are modelled by rationals.
    Mutable state is threaded explicitly: a computation takes the state and
    returns the new state together with its outcome, so that the mutations
    made before an exception is raised stay visible, as in Python. *)

From Stdlib Require Import QArith Qround Floats.
From stdpp Require Import gmap strings pretty list fin_maps functions
  relations.

(** ** Outcomes and the state/exception monad *)

Inductive Exception : Type :=
  | KeyError
  | IndexError
  | AttributeError
  | ValueError
  | UserError (msg : string).

Inductive Result (A : Type) : Type :=
  | Ok (a : A)
  | Raise (e : Exception).
Arguments Ok {A} a.
Arguments Raise {A} e.

Definition M (S A : Type) : Type := S -> S * Result A.

Definition ret {S A} (a : A) : M S A := fun s => (s, Ok a).
Definition raise {S A} (e : Exception) : M S A := fun s => (s, Raise e).
Definition bind {S A B} (m : M S A) (k : A -> M S B) : M S B :=
  fun s => match m s with
           | (s', Ok a) => k a s'
           | (s', Raise e) => (s', Raise e)
           end.
Definition gets {S A} (f : S -> A) : M S A := fun s => (s, Ok (f s)).
Definition modify {S} (f : S -> S) : M S unit := fun s => (f s, Ok tt).

Notation "x <- m ;; k" := (bind m (fun x => k))
  (at level 100, m at next level, right associativity, only parsing).
Notation "m ;;; k" := (bind m (fun _ => k))
  (at level 100, right associativity, only parsing).

(** ** Python dictionaries

    A [dict] keeps its keys unique and in insertion order: assigning to a
    key that is present keeps its place, assigning to a new key appends it,
    [del] drops the key. *)

Section Dict.
Context {K V : Type} `{EqDecision K}.

Fixpoint dict_get (d : list (K * V)) (k : K) : option V :=
  match d with
  | [] => None
  | (k', v) :: d' => if decide (k = k') then Some v else dict_get d' k
  end.

Fixpoint dict_set (d : list (K * V)) (k : K) (v : V) : list (K * V) :=
  match d with
  | [] => [(k, v)]
  | (k', v') :: d' =>
      if decide (k = k') then (k, v) :: d' else (k', v') :: dict_set d' k v
  end.

Fixpoint dict_del (d : list (K * V)) (k : K) : list (K * V) :=
  match d with
  | [] => []
  | (k', v) :: d' =>
      if decide (k = k') then dict_del d' k else (k', v) :: dict_del d' k
  end.

Definition dict_keys (d : list (K * V)) : list K := d.*1.
End Dict.

(** ** Matplotlib objects used by the mouse-tracking controller *)

(** Identities of [FigureCanvas], [Axes] and [Line2D] objects and callback
    ids are natural numbers. *)
Abbreviation Canvas := nat (only parsing).
Abbreviation Axes := nat (only parsing).
Abbreviation LineId := nat (only parsing).
Abbreviation Cid := nat (only parsing).

(** Keyword arguments for the lines: names of [Line2D] properties with
    their values. *)
Definition Kwargs : Type := list (string * string).

(** A [Figure] owns its canvas. *)
Record Figure := mkFigure { canvas : Canvas }.

(** [class Event(enum.Enum)] and its values. *)
Inductive Event : Type :=
  | MOUSE_BUTTON_PRESS
  | MOUSE_BUTTON_RELEASE
  | KEY_PRESS
  | KEY_RELEASE
  | MOUSE_MOVE
  | CLOSE.

Definition Event_value (e : Event) : string :=
  match e with
  | MOUSE_BUTTON_PRESS => "button_press_event"
  | MOUSE_BUTTON_RELEASE => "button_release_event"
  | KEY_PRESS => "key_press_event"
  | KEY_RELEASE => "key_release_event"
  | MOUSE_MOVE => "motion_notify_event"
  | CLOSE => "close_event"
  end.

(** Events delivered by the canvas: only a mouse event carries [xdata],
    which is [None] while the pointer is outside every Axes. *)
Inductive MplEvent : Type :=
  | MouseEvent (ev_canvas : Canvas) (xdata : option Q)
  | CloseEvent (ev_canvas : Canvas).

Definition event_canvas (ev : MplEvent) : Canvas :=
  match ev with
  | MouseEvent c _ => c
  | CloseEvent c => c
  end.

(** The two closures that [add_mouse_tracking_vertical_line] registers.
    [on_mouse_move] captures [x_converter] and [line_kwargs]; [on_close]
    captures nothing. A converter is a Python callable and may raise. *)
Inductive Callback : Type :=
  | on_mouse_move_closure (x_converter : option (Q -> Result Q))
                          (line_kwargs : Kwargs)
  | on_close_closure.

(** An entry of a canvas' callback registry. *)
Record Subscription := mkSub {
  sub_canvas : Canvas;
  sub_cid : Cid;
  sub_signal : string;
  sub_func : Callback
}.

(** A vertical line drawn by [Axes.axvline]. *)
Record Line2D := mkLine {
  line_axes : Axes;
  line_x : Q;
  line_props : Kwargs
}.

(** The state the controller lives in: the canvases' callback registries,
    the line artists currently attached to their Axes, the two module-level
    dictionaries, and the pending [draw_idle] requests. *)
Record World := mkWorld {
  callbacks : list Subscription;
  next_cid : Cid;
  artists : gmap LineId Line2D;
  next_line : LineId;
  _mouse_tracking_vertical_lines_cid : gmap Canvas (Cid * Cid);
  _mouse_tracking_vertical_lines : gmap Canvas (list (Axes * option LineId));
  redraws : list Canvas
}.

Definition empty_world : World :=
  mkWorld [] 0 ∅ 0 ∅ ∅ [].

Definition set_callbacks (f : list Subscription -> list Subscription)
    (w : World) : World :=
  mkWorld (f (callbacks w)) (next_cid w) (artists w) (next_line w)
          (_mouse_tracking_vertical_lines_cid w)
          (_mouse_tracking_vertical_lines w) (redraws w).

Definition set_next_cid (n : Cid) (w : World) : World :=
  mkWorld (callbacks w) n (artists w) (next_line w)
          (_mouse_tracking_vertical_lines_cid w)
          (_mouse_tracking_vertical_lines w) (redraws w).

Definition set_artists (f : gmap LineId Line2D -> gmap LineId Line2D)
    (w : World) : World :=
  mkWorld (callbacks w) (next_cid w) (f (artists w)) (next_line w)
          (_mouse_tracking_vertical_lines_cid w)
          (_mouse_tracking_vertical_lines w) (redraws w).

Definition set_next_line (n : LineId) (w : World) : World :=
  mkWorld (callbacks w) (next_cid w) (artists w) n
          (_mouse_tracking_vertical_lines_cid w)
          (_mouse_tracking_vertical_lines w) (redraws w).

Definition set_cid_dict
    (f : gmap Canvas (Cid * Cid) -> gmap Canvas (Cid * Cid))
    (w : World) : World :=
  mkWorld (callbacks w) (next_cid w) (artists w) (next_line w)
          (f (_mouse_tracking_vertical_lines_cid w))
          (_mouse_tracking_vertical_lines w) (redraws w).

Definition set_lines_dict
    (f : gmap Canvas (list (Axes * option LineId)) ->
         gmap Canvas (list (Axes * option LineId)))
    (w : World) : World :=
  mkWorld (callbacks w) (next_cid w) (artists w) (next_line w)
          (_mouse_tracking_vertical_lines_cid w)
          (f (_mouse_tracking_vertical_lines w)) (redraws w).

Definition set_redraws (f : list Canvas -> list Canvas) (w : World) : World :=
  mkWorld (callbacks w) (next_cid w) (artists w) (next_line w)
          (_mouse_tracking_vertical_lines_cid w)
          (_mouse_tracking_vertical_lines w) (f (redraws w)).

(** *** The canvas and artist services (matplotlib) *)

(** [canvas.mpl_connect(s, func)] for a function object that is not
    connected to the signal [s] of the canvas yet: a fresh callback id.
    (For a function that is connected already the library returns the id
    it has.) The closures [add_mouse_tracking_vertical_line] connects are
    new function objects at each call. *)
Definition mpl_connect (c : Canvas) (s : string) (func : Callback)
    : M World Cid :=
  fun w =>
    let cid := next_cid w in
    (set_next_cid (S cid) (set_callbacks (fun l => l ++ [mkSub c cid s func]) w),
     Ok cid).

(** [canvas.mpl_disconnect(cid)]: unknown ids are ignored. *)
Definition mpl_disconnect (c : Canvas) (cid : Cid) : M World unit :=
  modify (set_callbacks
            (filter (fun s => ~ (sub_canvas s = c /\ sub_cid s = cid)))).

(** [ax.axvline(x=x, **kwargs)]: a new line artist attached to [ax]. Of
    the [Line2D] properties ['transform'] is refused with [ValueError]
    before anything is made: [axvline] makes its own transform. *)
Definition axvline (ax : Axes) (x : Q) (kw : Kwargs) : M World LineId :=
  fun w =>
    if bool_decide ("transform" ∈ kw.*1) then (w, Raise ValueError)
    else
      let l := next_line w in
      (set_next_line (S l) (set_artists (insert l (mkLine ax x kw)) w), Ok l).

(** [line.remove()]: detaches the artist from its Axes; an artist that is
    not attached cannot be removed. *)
Definition Line2D_remove (l : LineId) : M World unit :=
  fun w =>
    match artists w !! l with
    | Some _ => (set_artists (delete l) w, Ok tt)
    | None => (w, Raise ValueError)
    end.

(** [canvas.draw_idle()]. *)
Definition draw_idle (c : Canvas) : M World unit :=
  modify (set_redraws (fun l => l ++ [c])).

(** ** Event registration: [register_event], [unregister_event] *)

Definition canvas_of (fig : Figure + Canvas) : Canvas :=
  match fig with
  | inl f => canvas f
  | inr c => c
  end.

Definition register_event (fig : Figure + Canvas) (event : Event)
    (callback : Callback) : M World Cid :=
  mpl_connect (canvas_of fig) (Event_value event) callback.

Definition unregister_event (fig : Figure + Canvas) (cid : Cid)
    : M World unit :=
  mpl_disconnect (canvas_of fig) cid.

(** ** The mouse-tracking controller

    The inner dictionary [_mouse_tracking_vertical_lines[canvas]] is a
    mutable object that the closures reach through the module-level
    dictionary only, so a reference to it is the canvas it is stored under
    and every in-place mutation is a write to that slot. *)

(** [_mouse_tracking_vertical_lines[c]], evaluated for the reference. *)
Definition lines_lookup (c : Canvas) : M World unit :=
  fun w =>
    match _mouse_tracking_vertical_lines w !! c with
    | Some _ => (w, Ok tt)
    | None => (w, Raise KeyError)
    end.

(** [tuple(canvas_axes.keys())] *)
Definition lines_keys (c : Canvas) : M World (list Axes) :=
  fun w =>
    match _mouse_tracking_vertical_lines w !! c with
    | Some d => (w, Ok (dict_keys d))
    | None => (w, Raise KeyError)
    end.

(** [canvas_axes[ax]] *)
Definition lines_getitem (c : Canvas) (ax : Axes) : M World (option LineId) :=
  fun w =>
    match _mouse_tracking_vertical_lines w !! c with
    | Some d =>
        match dict_get d ax with
        | Some v => (w, Ok v)
        | None => (w, Raise KeyError)
        end
    | None => (w, Raise KeyError)
    end.

(** [canvas_axes[ax] = v] *)
Definition lines_setitem (c : Canvas) (ax : Axes) (v : option LineId)
    : M World unit :=
  modify (set_lines_dict (alter (fun d => dict_set d ax v) c)).

(** [del canvas_axes[ax]] *)
Definition lines_delitem (c : Canvas) (ax : Axes) : M World unit :=
  fun w =>
    match _mouse_tracking_vertical_lines w !! c with
    | Some d =>
        match dict_get d ax with
        | Some _ =>
            (set_lines_dict (alter (fun d => dict_del d ax) c) w, Ok tt)
        | None => (w, Raise KeyError)
        end
    | None => (w, Raise KeyError)
    end.

(** The body of the loop of [remove_lines], over the snapshot of the keys. *)
Fixpoint remove_lines_loop (c : Canvas) (keys : list Axes) : M World unit :=
  match keys with
  | [] => ret tt
  | ax :: keys' =>
      v <- lines_getitem c ax ;;
      match v with
      | Some line =>
          Line2D_remove line ;;;
          lines_delitem c ax ;;;
          lines_setitem c ax None ;;;
          remove_lines_loop c keys'
      | None => remove_lines_loop c keys'
      end
  end.

Definition remove_lines (c : Canvas) : M World unit :=
  keys <- lines_keys c ;;
  remove_lines_loop c keys.

(** [event.xdata] *)
Definition event_xdata (ev : MplEvent) : M World (option Q) :=
  match ev with
  | MouseEvent _ x => ret x
  | CloseEvent _ => raise AttributeError
  end.

Definition lift_result {A} (r : Result A) : M World A := fun w => (w, r).

(** [for ax in my_axes: my_axes[ax] = ax.axvline(x=x, **line_kwargs)];
    assigning to a key already present leaves the key order as it is. *)
Fixpoint draw_lines (c : Canvas) (keys : list Axes) (x : Q) (kw : Kwargs)
    : M World unit :=
  match keys with
  | [] => ret tt
  | ax :: keys' =>
      l <- axvline ax x kw ;;
      lines_setitem c ax (Some l) ;;;
      draw_lines c keys' x kw
  end.

Definition on_mouse_move (x_converter : option (Q -> Result Q))
    (line_kwargs : Kwargs) (event : MplEvent) : M World unit :=
  let my_axes := event_canvas event in
  lines_lookup my_axes ;;;
  remove_lines my_axes ;;;
  x <- event_xdata event ;;
  match x with
  | None => ret tt
  | Some x =>
      x <- match x_converter with
           | Some f => lift_result (f x)
           | None => ret x
           end ;;
      keys <- lines_keys my_axes ;;
      draw_lines my_axes keys x line_kwargs ;;;
      draw_idle (event_canvas event)
  end.

Definition on_close (event : MplEvent) : M World unit :=
  let c := event_canvas event in
  cids <- gets (fun w => _mouse_tracking_vertical_lines_cid w !! c) ;;
  match cids with
  | None => ret tt
  | Some (mouse_cid, close_cid) =>
      unregister_event (inr c) mouse_cid ;;;
      unregister_event (inr c) close_cid ;;;
      modify (set_cid_dict (delete c)) ;;;
      lines_lookup c ;;;
      remove_lines c ;;;
      lines_lookup c ;;;
      modify (set_lines_dict (delete c))
  end.

(** [to_axes]: one Axes or an iterable of Axes; falsy members ([None]) of
    the iterable are skipped by the comprehension. *)
Inductive AxesArg : Type :=
  | one_Axes (ax : Axes)
  | iter_Axes (axs : list (option Axes)).

Definition to_tuple (a : AxesArg) : list (option Axes) :=
  match a with
  | one_Axes ax => [Some ax]
  | iter_Axes axs => axs
  end.

(** [{ax: None for ax in to_axes if ax}] *)
Definition fresh_lines_dict (to_axes : list (option Axes))
    : list (Axes * option LineId) :=
  fold_left (fun d ax => dict_set d ax None) (omap id to_axes) [].

Definition add_mouse_tracking_vertical_line (fig : Figure)
    (to_axes : option AxesArg) (x_converter : option (Q -> Result Q))
    (line_kwargs : Kwargs) : M World unit :=
  on_close (CloseEvent (canvas fig)) ;;;
  match to_axes with
  | None => ret tt
  | Some to_axes =>
      let to_axes := to_tuple to_axes in
      modify (set_lines_dict (insert (canvas fig) (fresh_lines_dict to_axes))) ;;;
      mouse_cid <- register_event (inl fig) MOUSE_MOVE
                     (on_mouse_move_closure x_converter line_kwargs) ;;
      close_cid <- register_event (inl fig) CLOSE on_close_closure ;;
      modify (set_cid_dict (insert (canvas fig) (mouse_cid, close_cid)))
  end.

(** *** Event delivery by the canvas

    The canvas calls, in registration order, the callbacks connected to it
    for the signal of the event (a snapshot taken when delivery starts);
    an exception of a callback ends the delivery and reaches the caller of
    the event loop. *)

Definition call (func : Callback) (ev : MplEvent) : M World unit :=
  match func with
  | on_mouse_move_closure x_converter line_kwargs =>
      on_mouse_move x_converter line_kwargs ev
  | on_close_closure => on_close ev
  end.

Fixpoint call_all (funcs : list Callback) (ev : MplEvent) : M World unit :=
  match funcs with
  | [] => ret tt
  | f :: funcs' => call f ev ;;; call_all funcs' ev
  end.

Definition event_signal (ev : MplEvent) : string :=
  match ev with
  | MouseEvent _ _ => Event_value MOUSE_MOVE
  | CloseEvent _ => Event_value CLOSE
  end.

(** The subscriptions of canvas [c] for signal [s]. *)
Definition listeners (c : Canvas) (s : string) (w : World)
    : list Subscription :=
  filter (fun sub => sub_canvas sub = c /\ sub_signal sub = s) (callbacks w).

Definition process (ev : MplEvent) : M World unit :=
  fun w =>
    call_all (map sub_func (listeners (event_canvas ev) (event_signal ev) w))
             ev w.

(** ** Axes and figures as the layout functions see them *)

Inductive Side : Type := side_left | side_right | side_top | side_bottom.

(** The position of a spine: never set, or [("axes", amount)]. *)
Inductive SpinePosition : Type :=
  | position_default
  | position_axes (amount : float).

Record Spine := mkSpine {
  spine_visible : bool;
  spine_position : SpinePosition
}.

Record Legend := mkLegend {
  legend_handles : list nat;
  legend_labels : list string;
  legend_loc : string;
  legend_fancybox : option bool;
  legend_framealpha : option Q
}.

Record AxesObj := mkAxes {
  ax_figure : nat;
  ax_xlabel : string;
  ax_ylabel : string;
  ax_grid : bool;
  ax_frame_on : bool;
  ax_patch_visible : bool;
  ax_spines : Side -> Spine;
  ax_ylabel_position : Side;
  ax_yticks_position : Side;
  ax_useOffset : bool;
  ax_handles_labels : list nat * list string;
  ax_legend : option Legend
}.

Record FigureObj := mkFigureObj {
  fig_suptitle : option string;
  fig_tight_layout : list (option (Q * Q * Q * Q))
}.

(** The object store: every identity denotes an object; identities from
    [next_axes] on are not allocated yet. *)
Record Plot := mkPlot {
  axes_objs : Axes -> AxesObj;
  next_axes : Axes;
  figure_objs : nat -> FigureObj
}.

Definition update_axes (ax : Axes) (f : AxesObj -> AxesObj) : M Plot unit :=
  modify (fun p =>
    mkPlot (alter f ax (axes_objs p)) (next_axes p)
           (figure_objs p)).

Definition with_xlabel (s : string) (a : AxesObj) : AxesObj :=
  mkAxes (ax_figure a) s (ax_ylabel a) (ax_grid a) (ax_frame_on a)
         (ax_patch_visible a) (ax_spines a) (ax_ylabel_position a)
         (ax_yticks_position a) (ax_useOffset a) (ax_handles_labels a)
         (ax_legend a).

Definition with_ylabel (s : string) (a : AxesObj) : AxesObj :=
  mkAxes (ax_figure a) (ax_xlabel a) s (ax_grid a) (ax_frame_on a)
         (ax_patch_visible a) (ax_spines a) (ax_ylabel_position a)
         (ax_yticks_position a) (ax_useOffset a) (ax_handles_labels a)
         (ax_legend a).

Definition with_grid (b : bool) (a : AxesObj) : AxesObj :=
  mkAxes (ax_figure a) (ax_xlabel a) (ax_ylabel a) b (ax_frame_on a)
         (ax_patch_visible a) (ax_spines a) (ax_ylabel_position a)
         (ax_yticks_position a) (ax_useOffset a) (ax_handles_labels a)
         (ax_legend a).

Definition with_frame_on (b : bool) (a : AxesObj) : AxesObj :=
  mkAxes (ax_figure a) (ax_xlabel a) (ax_ylabel a) (ax_grid a) b
         (ax_patch_visible a) (ax_spines a) (ax_ylabel_position a)
         (ax_yticks_position a) (ax_useOffset a) (ax_handles_labels a)
         (ax_legend a).

Definition with_patch_visible (b : bool) (a : AxesObj) : AxesObj :=
  mkAxes (ax_figure a) (ax_xlabel a) (ax_ylabel a) (ax_grid a) (ax_frame_on a)
         b (ax_spines a) (ax_ylabel_position a)
         (ax_yticks_position a) (ax_useOffset a) (ax_handles_labels a)
         (ax_legend a).

Definition with_spines (f : (Side -> Spine) -> Side -> Spine) (a : AxesObj)
    : AxesObj :=
  mkAxes (ax_figure a) (ax_xlabel a) (ax_ylabel a) (ax_grid a) (ax_frame_on a)
         (ax_patch_visible a) (f (ax_spines a)) (ax_ylabel_position a)
         (ax_yticks_position a) (ax_useOffset a) (ax_handles_labels a)
         (ax_legend a).

Definition with_ylabel_position (s : Side) (a : AxesObj) : AxesObj :=
  mkAxes (ax_figure a) (ax_xlabel a) (ax_ylabel a) (ax_grid a) (ax_frame_on a)
         (ax_patch_visible a) (ax_spines a) s
         (ax_yticks_position a) (ax_useOffset a) (ax_handles_labels a)
         (ax_legend a).

Definition with_yticks_position (s : Side) (a : AxesObj) : AxesObj :=
  mkAxes (ax_figure a) (ax_xlabel a) (ax_ylabel a) (ax_grid a) (ax_frame_on a)
         (ax_patch_visible a) (ax_spines a) (ax_ylabel_position a)
         s (ax_useOffset a) (ax_handles_labels a)
         (ax_legend a).

Definition with_useOffset (b : bool) (a : AxesObj) : AxesObj :=
  mkAxes (ax_figure a) (ax_xlabel a) (ax_ylabel a) (ax_grid a) (ax_frame_on a)
         (ax_patch_visible a) (ax_spines a) (ax_ylabel_position a)
         (ax_yticks_position a) b (ax_handles_labels a)
         (ax_legend a).

Definition with_legend (l : option Legend) (a : AxesObj) : AxesObj :=
  mkAxes (ax_figure a) (ax_xlabel a) (ax_ylabel a) (ax_grid a) (ax_frame_on a)
         (ax_patch_visible a) (ax_spines a) (ax_ylabel_position a)
         (ax_yticks_position a) (ax_useOffset a) (ax_handles_labels a)
         l.

Global Instance Side_eq_dec : EqDecision Side.
Proof. solve_decision. Defined.

(** *** The Axes services (matplotlib) *)

Definition set_xlabel (ax : Axes) (s : string) : M Plot unit :=
  update_axes ax (with_xlabel s).

Definition set_ylabel (ax : Axes) (s : string) : M Plot unit :=
  update_axes ax (with_ylabel s).

(** [ax.grid(True, 'both')] *)
Definition grid (ax : Axes) : M Plot unit :=
  update_axes ax (with_grid true).

Definition set_frame_on (ax : Axes) (b : bool) : M Plot unit :=
  update_axes ax (with_frame_on b).

Definition patch_set_visible (ax : Axes) (b : bool) : M Plot unit :=
  update_axes ax (with_patch_visible b).

(** [ax.spines[side].set_visible(b)] *)
Definition spine_set_visible (ax : Axes) (side : Side) (b : bool)
    : M Plot unit :=
  update_axes ax (with_spines (fun sp =>
    <[side := mkSpine b (spine_position (sp side))]> sp)).

(** [ax.spines[side].set_position(("axes", amount))] *)
Definition spine_set_position (ax : Axes) (side : Side) (amount : float)
    : M Plot unit :=
  update_axes ax (with_spines (fun sp =>
    <[side := mkSpine (spine_visible (sp side)) (position_axes amount)]> sp)).

Definition set_label_position (ax : Axes) (side : Side) : M Plot unit :=
  update_axes ax (with_ylabel_position side).

Definition set_ticks_position (ax : Axes) (side : Side) : M Plot unit :=
  update_axes ax (with_yticks_position side).

(** [ax.get_yaxis().get_major_formatter().set_useOffset(b)], for an Axes
    with the default formatter, a [ScalarFormatter] of its own. What the
    call does to other Axes that share the formatter is not recorded. *)
Definition set_useOffset (ax : Axes) (b : bool) : M Plot unit :=
  update_axes ax (with_useOffset b).

Definition default_spines : Side -> Spine :=
  fun _ => mkSpine true position_default.

(** [host.twinx()]: a new Axes on the figure of [host], with its y-axis on
    the right and an invisible patch; the host's ticks go to the left. *)
Definition twinx (host : Axes) : M Plot Axes :=
  fun p =>
    let ax2 := next_axes p in
    let h := axes_objs p host in
    let twin :=
      mkAxes (ax_figure h) "" "" false true false default_spines
             side_right side_right true ([], []) None in
    (mkPlot (<[ax2 := twin]>
               (<[host := with_yticks_position side_left h]> (axes_objs p)))
            (S ax2) (figure_objs p),
     Ok ax2).

Definition get_figure (ax : Axes) : M Plot nat :=
  gets (fun p => ax_figure (axes_objs p ax)).

(** [fig.tight_layout(rect=...)] *)
Definition tight_layout (fig : nat) (rect : option (Q * Q * Q * Q))
    : M Plot unit :=
  modify (fun p =>
    let f := figure_objs p fig in
    mkPlot (axes_objs p) (next_axes p)
           (<[fig := mkFigureObj (fig_suptitle f) (fig_tight_layout f ++ [rect])]>
              (figure_objs p))).

Definition get_legend_handles_labels (ax : Axes)
    : M Plot (list nat * list string) :=
  gets (fun p => ax_handles_labels (axes_objs p ax)).

(** The location strings [Axes.legend] knows. *)
Definition legend_locations : list string :=
  ["best"; "upper right"; "upper left"; "lower left"; "lower right"; "right";
   "center left"; "center right"; "lower center"; "upper center"; "center"].

(** [ax.legend(handles, labels, loc=..., fancybox=..., framealpha=...)]: a
    location string that is not known is refused with [ValueError], and no
    legend is made. *)
Definition Axes_legend (ax : Axes) (handles : list nat) (labels : list string)
    (loc : string) (fancybox : option bool) (framealpha : option Q)
    : M Plot unit :=
  if bool_decide (loc ∈ legend_locations) then
    update_axes ax
      (with_legend (Some (mkLegend handles labels loc fancybox framealpha)))
  else raise ValueError.

(** ** [axes]: the stack of y-axes around a host Axes *)

(** A label argument: one string, or a collection of strings. *)
Inductive Labels : Type :=
  | label_str (s : string)
  | label_coll (ls : list string).

(** Python truthiness of an optional label argument. *)
Definition truthy (l : option Labels) : bool :=
  match l with
  | None => false
  | Some (label_str s) => negb (bool_decide (s = ""))
  | Some (label_coll ls) => negb (bool_decide (ls = []))
  end.

Definition make_patch_spines_invisible (_ax : Axes) : M Plot unit :=
  set_frame_on _ax true ;;;
  patch_set_visible _ax false ;;;
  update_axes _ax (with_spines (fun sp side =>
    mkSpine false (spine_position (sp side)))).

(** [float(z)] for an integer below [2^63] in size, as Python converts the
    integer operand of [int * float]: the nearest binary64 number. The
    integers the loops convert are list indices and lengths. *)
Definition float_of_Z (z : Z) : float :=
  match z with
  | Z0 => 0%float
  | Zpos _ => PrimFloat.of_uint63 (Uint63.of_Z z)
  | Zneg n => PrimFloat.opp (PrimFloat.of_uint63 (Uint63.of_Z (Zpos n)))
  end.

(** The loop over [enumerate(y_label_left)], from index [i] on; [len] is
    [len(y_label_left)]. The offset is a [float], so the position
    [-(len - i - 1) * offset] is a binary64 product. *)
Fixpoint left_axes_loop (host_ax : Axes) (len : Z) (offset : float) (i : nat)
    (y_label_left : list string) (axs_left : list Axes)
    : M Plot (list Axes) :=
  match y_label_left with
  | [] => ret axs_left
  | label :: rest =>
      ax <- (if bool_decide (i = 0) then ret host_ax else twinx host_ax) ;;
      let axs_left := axs_left ++ [ax] in
      spine_set_position ax side_left
        (PrimFloat.mul (float_of_Z (- (len - Z.of_nat i - 1))) offset) ;;;
      (if bool_decide (Z.of_nat i < len - 1)%Z
       then make_patch_spines_invisible ax else ret tt) ;;;
      spine_set_visible ax side_left true ;;;
      set_label_position ax side_left ;;;
      set_ticks_position ax side_left ;;;
      set_ylabel ax label ;;;
      left_axes_loop host_ax len offset (S i) rest axs_left
  end.

(** The loop over [enumerate(y_label_right)], from index [i] on; the
    position [1 + i * offset] is a binary64 product and sum. *)
Fixpoint right_axes_loop (host_ax : Axes) (offset : float) (i : nat)
    (y_label_right : list string) (axs_right : list Axes)
    : M Plot (list Axes) :=
  match y_label_right with
  | [] => ret axs_right
  | label :: rest =>
      ax <- twinx host_ax ;;
      let axs_right := axs_right ++ [ax] in
      spine_set_position ax side_right
        (PrimFloat.add 1 (PrimFloat.mul (float_of_Z (Z.of_nat i)) offset)) ;;;
      (if bool_decide (0 < i)
       then make_patch_spines_invisible ax else ret tt) ;;;
      spine_set_visible ax side_right true ;;;
      set_label_position ax side_right ;;;
      set_ticks_position ax side_right ;;;
      set_ylabel ax label ;;;
      right_axes_loop host_ax offset (S i) rest axs_right
  end.

Fixpoint disable_offset_loop (axs : list Axes) : M Plot unit :=
  match axs with
  | [] => ret tt
  | ax_ :: rest => set_useOffset ax_ false ;;; disable_offset_loop rest
  end.

(** [axes(host_ax, x_label, y_label_left, y_label_right, offset)]; the
    parameter [tight] is not read by the function. *)
Definition axes (host_ax : Axes) (x_label : option string)
    (y_label_left y_label_right : option Labels) (offset : float)
    : M Plot (list Axes) :=
  match x_label with
  | Some s => set_xlabel host_ax s
  | None => ret tt
  end ;;;
  grid host_ax ;;;
  axs_left <-
    match y_label_left with
    | Some (label_str s) => set_ylabel host_ax s ;;; ret [host_ax]
    | Some (label_coll ls) =>
        if truthy y_label_left
        then left_axes_loop host_ax (Z.of_nat (length ls)) offset 0 ls []
        else ret []
    | None => ret []
    end ;;
  axs_right <-
    (if truthy y_label_right
     then
       let y_label_right :=
         match y_label_right with
         | Some (label_str s) => [s]
         | Some (label_coll ls) => ls
         | None => []
         end in
       right_axes_loop host_ax offset 0 y_label_right []
     else ret []) ;;
  let axs := axs_left ++ axs_right in
  disable_offset_loop axs ;;;
  fig <- get_figure host_ax ;;
  suptitle <- gets (fun p => fig_suptitle (figure_objs p fig)) ;;
  match suptitle with
  | Some t =>
      if negb (bool_decide (t = ""))
      then tight_layout fig (Some (0, 3 # 100, 1, 95 # 100)%Q)
      else tight_layout fig None
  | None => tight_layout fig None
  end ;;;
  ret axs.

(** ** [legend]: one combined legend *)

Inductive LegendLocation : Type :=
  | BEST
  | UPPER_RIGHT
  | UPPER_LEFT
  | LOWER_LEFT
  | LOWER_RIGHT
  | RIGHT
  | CENTER_LEFT
  | CENTER_RIGHT
  | LOWER_CENTER
  | UPPER_CENTER
  | CENTER.

Definition LegendLocation_value (l : LegendLocation) : string :=
  match l with
  | BEST => "best"
  | UPPER_RIGHT => "upper right"
  | UPPER_LEFT => "upper left"
  | LOWER_LEFT => "lower left"
  | LOWER_RIGHT => "lower right"
  | RIGHT => "right"
  | CENTER_LEFT => "center left"
  | CENTER_RIGHT => "center right"
  | LOWER_CENTER => "lower center"
  | UPPER_CENTER => "upper center"
  | CENTER => "center"
  end.

(** The loop collecting the handles and labels of every Axes. *)
Fixpoint legend_collect (axes_ : list Axes) (lines : list nat)
    (labels : list string) : M Plot (list nat * list string) :=
  match axes_ with
  | [] => ret (lines, labels)
  | axis :: rest =>
      hl <- get_legend_handles_labels axis ;;
      legend_collect rest (lines ++ hl.1) (labels ++ hl.2)
  end.

(** [legend(axes_, loc, fancybox=..., framealpha=...)]; the extra [*args]
    and [**kwargs] are passed on unchanged and left out here. *)
Definition legend (axes_ : list Axes) (loc : LegendLocation + string)
    (fancybox : option bool) (framealpha : option Q) : M Plot unit :=
  hl <- legend_collect axes_ [] [] ;;
  match axes_ with
  | [] => raise IndexError
  | first :: _ =>
      Axes_legend first hl.1 hl.2
        (match loc with
         | inl l => LegendLocation_value l
         | inr s => s
         end)
        fancybox framealpha
  end.

(** ** Histories of the controller

    What can happen to the controller: a call of
    [add_mouse_tracking_vertical_line], or the delivery of an event by a
    canvas. An exception ends the call or the delivery; the state it leaves
    is the state the next action starts from. *)

Inductive Action : Type :=
  | Enable (fig : Figure) (to_axes : option AxesArg)
           (x_converter : option (Q -> Result Q)) (line_kwargs : Kwargs)
  | Deliver (ev : MplEvent).

Definition perform (a : Action) : M World unit :=
  match a with
  | Enable fig to_axes x_converter line_kwargs =>
      add_mouse_tracking_vertical_line fig to_axes x_converter line_kwargs
  | Deliver ev => process ev
  end.

Definition run (acts : list Action) (w : World) : World :=
  fold_left (fun w a => (perform a w).1) acts w.

(** An action that neither closes nor re-enables the session of [c]. *)
Definition keeps_session (c : Canvas) (a : Action) : bool :=
  match a with
  | Enable fig _ _ _ => negb (bool_decide (canvas fig = c))
  | Deliver (CloseEvent c') => negb (bool_decide (c' = c))
  | Deliver (MouseEvent _ _) => true
  end.

(** *** Observations *)

(** The session entry of a canvas: its artifact map and its token pair. *)
Definition artifact_map (c : Canvas) (w : World)
    : option (list (Axes * option LineId)) :=
  _mouse_tracking_vertical_lines w !! c.

Definition tokens (c : Canvas) (w : World) : option (Cid * Cid) :=
  _mouse_tracking_vertical_lines_cid w !! c.

Definition move_subscriptions (c : Canvas) (w : World) : list Subscription :=
  listeners c (Event_value MOUSE_MOVE) w.

Definition close_subscriptions (c : Canvas) (w : World) : list Subscription :=
  listeners c (Event_value CLOSE) w.

Definition subscriptions_on (c : Canvas) (w : World) : list Subscription :=
  filter (fun sub => sub_canvas sub = c) (callbacks w).

(** [INACTIVE]: no subscription and no session entry for the canvas. *)
Definition inactive (c : Canvas) (w : World) : Prop :=
  move_subscriptions c w = [] /\ close_subscriptions c w = [] /\
  artifact_map c w = None /\ tokens c w = None.

(** [ACTIVE]: the token pair is recorded, both handlers are subscribed under
    these tokens and nothing else is, and the artifact map exists. *)
Definition active (c : Canvas) (w : World) : Prop :=
  exists mouse_cid close_cid x_converter line_kwargs,
    tokens c w = Some (mouse_cid, close_cid) /\
    subscriptions_on c w =
      [mkSub c mouse_cid (Event_value MOUSE_MOVE)
             (on_mouse_move_closure x_converter line_kwargs);
       mkSub c close_cid (Event_value CLOSE) on_close_closure] /\
    is_Some (artifact_map c w).

(** The artifact map draws nothing. *)
Definition all_none (d : list (Axes * option LineId)) : Prop :=
  forall ax v, dict_get d ax = Some v -> v = None.

(** Every artifact recorded in [d] is detached in [w]. *)
Definition all_removed (d : list (Axes * option LineId)) (w : World) : Prop :=
  forall ax l, dict_get d ax = Some (Some l) -> artists w !! l = None.

(** The line artists attached to an Axes. *)
Definition artifacts_on (ax : Axes) (w : World) : list (LineId * Line2D) :=
  filter (fun lL => line_axes lL.2 = ax) (map_to_list (artists w)).

(** *** Invariants *)

(** The artifact map of canvas [c] records line [l] for Axes [ax]. *)
Definition records (w : World) (c : Canvas) (ax : Axes) (l : LineId) : Prop :=
  exists d, artifact_map c w = Some d /\ dict_get d ax = Some (Some l).

(** Artifact maps and attached artists agree: keys are unique, a recorded
    artifact is attached to the Axes of its entry, it is recorded by one
    session only, and every attached artist is recorded. *)
Record lines_wf (w : World) : Prop := mk_lines_wf {
  wf_nodup : forall c d,
    artifact_map c w = Some d -> NoDup (dict_keys d);
  wf_attached : forall c ax l,
    records w c ax l ->
    exists L, artists w !! l = Some L /\ line_axes L = ax;
  wf_owner : forall c1 ax1 c2 ax2 l,
    records w c1 ax1 l -> records w c2 ax2 l -> c1 = c2;
  wf_recorded : forall l L,
    artists w !! l = Some L -> exists c, records w c (line_axes L) l;
  wf_fresh : forall l, is_Some (artists w !! l) -> l < next_line w
}.

(** Subscriptions and token pairs agree. *)
Definition subs_wf (w : World) : Prop :=
  forall c,
    match tokens c w with
    | Some (mouse_cid, close_cid) =>
        exists x_converter line_kwargs,
          subscriptions_on c w =
            [mkSub c mouse_cid (Event_value MOUSE_MOVE)
                   (on_mouse_move_closure x_converter line_kwargs);
             mkSub c close_cid (Event_value CLOSE) on_close_closure]
    | None => subscriptions_on c w = []
    end.

Definition sessions_wf (w : World) : Prop :=
  forall c, is_Some (tokens c w) <-> is_Some (artifact_map c w).

Definition wf (w : World) : Prop :=
  lines_wf w /\ subs_wf w /\ sessions_wf w.

(** What the loops over an artifact map leave alone. *)
Definition same_registry (w w' : World) : Prop :=
  callbacks w' = callbacks w /\ next_cid w' = next_cid w /\
  _mouse_tracking_vertical_lines_cid w' = _mouse_tracking_vertical_lines_cid w.

(** What the loops over an artifact map leave alone besides. *)
Definition same_counters (w w' : World) : Prop :=
  next_line w' = next_line w /\ redraws w' = redraws w.

(** The state after one iteration of [remove_lines] that finds line [l]:
    [line.remove(); del canvas_axes[ax]; canvas_axes[ax] = None]. *)
Definition detached (c : Canvas) (ax : Axes) (l : LineId) (w : World) : World :=
  set_lines_dict (alter (fun d => dict_set d ax None) c)
    (set_lines_dict (alter (fun d => dict_del d ax) c)
       (set_artists (delete l) w)).

(** The state after one iteration of the drawing loop:
    [my_axes[ax] = ax.axvline(x=x, **line_kwargs)]. *)
Definition drawn (c : Canvas) (ax : Axes) (x : Q) (kw : Kwargs) (w : World)
    : World :=
  set_lines_dict (alter (fun d => dict_set d ax (Some (next_line w))) c)
    (set_next_line (S (next_line w))
       (set_artists (insert (next_line w) (mkLine ax x kw)) w)).

(** The states [add_mouse_tracking_vertical_line] goes through when
    [to_axes] is given: after the fake close event, after the new artifact
    map is stored, after each of the two registrations, and after the token
    pair is saved. *)
Definition enable_stages (fig : Figure) (to_axes : AxesArg)
    (x_converter : option (Q -> Result Q)) (line_kwargs : Kwargs) (w : World)
    : list World :=
  let w0 := (on_close (CloseEvent (canvas fig)) w).1 in
  let w1 :=
    set_lines_dict (insert (canvas fig) (fresh_lines_dict (to_tuple to_axes)))
                   w0 in
  let w2 :=
    (register_event (inl fig) MOUSE_MOVE
       (on_mouse_move_closure x_converter line_kwargs) w1).1 in
  let w3 := (register_event (inl fig) CLOSE on_close_closure w2).1 in
  let w4 :=
    set_cid_dict (insert (canvas fig) (next_cid w1, next_cid w2)) w3 in
  [w0; w1; w2; w3; w4].

(** Axes [ax] is tracked by the session of canvas [c] and by no other. *)
Definition tracked_only_by (c : Canvas) (ax : Axes) (w : World) : Prop :=
  forall c' d', artifact_map c' w = Some d' -> ax ∈ dict_keys d' -> c' = c.

(** *** Observations on axis stacks and legends *)

Definition left_offset (p : Plot) (ax : Axes) : SpinePosition :=
  spine_position (ax_spines (axes_objs p ax) side_left).

Definition right_offset (p : Plot) (ax : Axes) : SpinePosition :=
  spine_position (ax_spines (axes_objs p ax) side_right).

(** The labels the right-hand loop of [axes] runs over. *)
Definition right_labels (y_label_right : option Labels) : list string :=
  if truthy y_label_right
  then match y_label_right with
       | Some (label_str s) => [s]
       | Some (label_coll ls) => ls
       | None => []
       end
  else [].

(** A location [legend] can pass on: a member of [LegendLocation], or one
    of the strings [Axes.legend] knows. *)
Definition valid_loc (loc : LegendLocation + string) : Prop :=
  match loc with
  | inl _ => True
  | inr s => s ∈ legend_locations
  end.

(** What [get_legend_handles_labels] returns for every Axes of a list. *)
Definition handles_of (p : Plot) (axes_ : list Axes) : list (list nat) :=
  map (fun ax => (ax_handles_labels (axes_objs p ax)).1) axes_.

Definition labels_of (p : Plot) (axes_ : list Axes) : list (list string) :=
  map (fun ax => (ax_handles_labels (axes_objs p ax)).2) axes_.

(** A store with one figure without title and one Axes, number 0, on it. *)
Definition single_axes_plot : Plot :=
  mkPlot (fun _ => mkAxes 0 "" "" false true true default_spines
                          side_left side_left true ([], []) None)
         1
         (fun _ => mkFigureObj None []).

(** Two Axes with two and one labelled artists. *)
Definition labelled_axes_plot : Plot :=
  mkPlot (fun ax =>
            mkAxes 0 "" "" false true true default_spines
                   side_left side_left true
                   (if bool_decide (ax = 0) then ([10; 11], ["a"; "b"])
                    else if bool_decide (ax = 1) then ([12], ["c"])
                    else ([], []))
                   None)
         2
         (fun _ => mkFigureObj None []).

(** The offsets [axes] computes for the left spine of index [i] out of
    [len], and for the right spine of index [j]. *)
Definition left_spine (len : nat) (offset : float) (i : nat) : float :=
  PrimFloat.mul (float_of_Z (- (Z.of_nat len - Z.of_nat i - 1))) offset.

Definition right_spine (offset : float) (j : nat) : float :=
  PrimFloat.add 1 (PrimFloat.mul (float_of_Z (Z.of_nat j)) offset).

(** No Axes is created and no spine is touched between two stores. *)
Definition same_spines (p p' : Plot) : Prop :=
  next_axes p' = next_axes p /\
  forall ax, ax_spines (axes_objs p' ax) = ax_spines (axes_objs p ax).

(** A spine position is the Axes coordinate [q], by the [==] of floats. *)
Definition offset_is (pos : SpinePosition) (q : float) : Prop :=
  match pos with
  | position_axes amount => PrimFloat.eqb amount q = true
  | position_default => False
  end.

(** *** Sample inputs *)

(** [0.1], the default of [offset], as the binary64 number it denotes. *)
Definition default_offset : float := 0x1.999999999999ap-4.

Definition sample_fig : Figure := mkFigure 0.

(** A converter that rejects negative coordinates. *)
Definition checked_converter (x : Q) : Result Q :=
  if Qle_bool 0 x then Ok x else Raise (UserError "negative coordinate").

(** Tracking of Axes 1 and 2 on canvas 0, then a move at [x = 5]. *)
Definition sample_history : list Action :=
  [Enable sample_fig (Some (iter_Axes [Some 1; Some 2])) None [];
   Deliver (MouseEvent 0 (Some 5%Q))].

(** The same with [checked_converter] and a line style. *)
Definition sample_history_checked : list Action :=
  [Enable sample_fig (Some (iter_Axes [Some 1; Some 2]))
          (Some checked_converter) [("color", "red")];
   Deliver (MouseEvent 0 (Some 5%Q))].


(** Two figures that track the same Axes 1, and a move over each. *)
Definition shared_axis_history : list Action :=
  [Enable (mkFigure 0) (Some (one_Axes 1)) None [];
   Enable (mkFigure 1) (Some (one_Axes 1)) None [];
   Deliver (MouseEvent 0 (Some 5%Q));
   Deliver (MouseEvent 1 (Some 6%Q))].

(** The canvas an action is about. *)
Definition action_canvas (a : Action) : Canvas :=
  match a with
  | Enable fig _ _ _ => canvas fig
  | Deliver ev => event_canvas ev
  end.

(** The value handed to [axvline]: the coordinate, converted if a converter
    was given. *)
Definition converted (x_converter : option (Q -> Result Q)) (x : Q)
    : Result Q :=
  match x_converter with
  | Some f => f x
  | None => Ok x
  end.

(** The subscriptions an enabled session holds on its canvas. *)
Definition session_subscriptions (c : Canvas) (mouse_cid close_cid : Cid)
    (x_converter : option (Q -> Result Q)) (line_kwargs : Kwargs)
    : list Subscription :=
  [mkSub c mouse_cid (Event_value MOUSE_MOVE)
         (on_mouse_move_closure x_converter line_kwargs);
   mkSub c close_cid (Event_value CLOSE) on_close_closure].

(** Callback ids in use are below the next id to be handed out. *)
Definition cids_fresh (w : World) : Prop :=
  Forall (fun s => sub_cid s < next_cid w) (callbacks w).

(** *** Looking at the Axes of a stack *)

(** The object [twinx] creates on figure [fig]. *)
Definition new_twin (fig : nat) : AxesObj :=
  mkAxes fig "" "" false true false default_spines side_right side_right
         true ([], []) None.

(** What one iteration of a loop of [axes] makes of the Axes it works on:
    the spine of [side] is positioned, the frame is redone when [hide] is
    set, the spine of [side] is shown, label and ticks go to [side], and
    the label is set. *)
Definition configured (side : Side) (hide : bool) (amount : float)
    (label : string) (a : AxesObj) : AxesObj :=
  let positioned :=
    with_spines (fun sp =>
      <[side := mkSpine (spine_visible (sp side)) (position_axes amount)]> sp)
      a in
  let framed :=
    if hide
    then with_spines (fun sp s => mkSpine false (spine_position (sp s)))
           (with_patch_visible false (with_frame_on true positioned))
    else positioned in
  with_ylabel label
    (with_yticks_position side
       (with_ylabel_position side
          (with_spines (fun sp =>
             <[side := mkSpine true (spine_position (sp side))]> sp)
             framed))).

(** What [axes] does after the two loops, for the list [axs] it returns. *)
Definition finish_phase (host_ax : Axes) (axs : list Axes)
    : M Plot (list Axes) :=
  disable_offset_loop axs ;;;
  fig <- get_figure host_ax ;;
  suptitle <- gets (fun p => fig_suptitle (figure_objs p fig)) ;;
  match suptitle with
  | Some t =>
      if negb (bool_decide (t = ""))
      then tight_layout fig (Some (0, 3 # 100, 1, 95 # 100)%Q)
      else tight_layout fig None
  | None => tight_layout fig None
  end ;;;
  ret axs.

(** The rectangle [axes] passes to [tight_layout] for a figure title. *)
Definition layout_rect (suptitle : option string) : option (Q * Q * Q * Q) :=
  match suptitle with
  | Some t =>
      if negb (bool_decide (t = ""))
      then Some (0, 3 # 100, 1, 95 # 100)%Q
      else None
  | None => None
  end.

(** An Axes of the stack on [side] with [label]: label and ticks on that
    side, offset notation off, the spine of that side shown; and, when it
    is not the Axes next to the canvas, frame on, patch hidden and the
    three other spines hidden. *)
Definition stack_axis (side : Side) (outer : bool) (label : string)
    (a : AxesObj) : Prop :=
  ax_ylabel a = label /\ ax_ylabel_position a = side /\
  ax_yticks_position a = side /\ ax_useOffset a = false /\
  spine_visible (ax_spines a side) = true /\
  (outer = true ->
   ax_frame_on a = true /\ ax_patch_visible a = false /\
   forall s, s <> side -> spine_visible (ax_spines a s) = false).

(** The number of left Axes [axes] returns for a left label argument. *)
Definition left_count (y_label_left : option Labels) : nat :=
  match y_label_left with
  | Some (label_str _) => 1
  | Some (label_coll ls) => length ls
  | None => 0
  end.

(** ** [figure] and [get_window_title]

    Figures are numbered; [py_plot] holds their titles (and the Axes), the
    rest is what [figure] reads and writes: whether a figure has a canvas,
    whether its window is gone (then [canvas.set_window_title] raises
    [AttributeError]), the window title set on the canvas, the attributes
    [fig.figure_title] and [fig.window_title], and how often the figure was
    cleared. [_figure_count] is the module-level counter. *)

Record FigInfo := mkFigInfo {
  fi_has_canvas : bool;
  fi_closed : bool;
  fi_canvas_title : option string;
  fi_figure_title : option string;
  fi_window_title : option string;
  fi_clears : nat
}.

Record Pyplot := mkPyplot {
  py_plot : Plot;
  py_info : nat -> FigInfo;
  py_next_fig : nat;
  _figure_count : nat;
  py_warnings : list string
}.

Definition set_figure_obj (f : nat) (g : FigureObj -> FigureObj)
    : M Pyplot unit :=
  modify (fun s =>
    mkPyplot (mkPlot (axes_objs (py_plot s)) (next_axes (py_plot s))
                     (alter g f (figure_objs (py_plot s))))
             (py_info s) (py_next_fig s) (_figure_count s) (py_warnings s)).

Definition set_info (f : nat) (g : FigInfo -> FigInfo) : M Pyplot unit :=
  modify (fun s =>
    mkPyplot (py_plot s) (alter g f (py_info s)) (py_next_fig s)
             (_figure_count s) (py_warnings s)).

(** [plt.figure()]: a new figure with a canvas and a window. *)
Definition plt_figure : M Pyplot nat :=
  fun s =>
    let f := py_next_fig s in
    (mkPyplot (mkPlot (axes_objs (py_plot s)) (next_axes (py_plot s))
                      (<[f := mkFigureObj None []]> (figure_objs (py_plot s))))
              (<[f := mkFigInfo true false None None None 0]> (py_info s))
              (S f) (_figure_count s) (py_warnings s),
     Ok f).

(** [fig.clear()]: the title goes with everything else on the figure. The
    Axes of the figure go too: they are cleared and taken off the figure,
    which the store of Axes does not record, so nothing is said here about
    the Axes of a figure that was cleared. *)
Definition fig_clear (f : nat) : M Pyplot unit :=
  set_figure_obj f (fun o => mkFigureObj None (fig_tight_layout o)) ;;;
  set_info f (fun i =>
    mkFigInfo (fi_has_canvas i) (fi_closed i) (fi_canvas_title i)
              (fi_figure_title i) (fi_window_title i) (S (fi_clears i))).

(** [fig.suptitle(t)] *)
Definition fig_suptitle_set (f : nat) (t : string) : M Pyplot unit :=
  set_figure_obj f (fun o => mkFigureObj (Some t) (fig_tight_layout o)).

(** [fig.canvas.set_window_title(t)] *)
Definition canvas_set_window_title (f : nat) (t : string) : M Pyplot unit :=
  fun s =>
    if fi_closed (py_info s f) then (s, Raise AttributeError)
    else
      set_info f (fun i =>
        mkFigInfo (fi_has_canvas i) (fi_closed i) (Some t)
                  (fi_figure_title i) (fi_window_title i) (fi_clears i)) s.

(** [warnings.warn(msg)] *)
Definition warn (msg : string) : M Pyplot unit :=
  modify (fun s =>
    mkPyplot (py_plot s) (py_info s) (py_next_fig s) (_figure_count s)
             (py_warnings s ++ [msg])).

Definition closed_figure_msg : string :=
  "Tried to reuse a Figure which was already closed".

(** [f"Figure {_figure_count - 1}"] *)
Definition default_figure_title (count : nat) : string :=
  "Figure " +:+ pretty (Z.of_nat count - 1)%Z.

(** [figure(figure_title, window_title, fig)]; the function calls itself
    once at most, and [fuel] bounds the depth of the calls. *)
Fixpoint figure (fuel : nat) (figure_title window_title : option string)
    (fig : option nat) : M Pyplot nat :=
  match fuel with
  | 0 => raise (UserError "RecursionError")
  | S fuel =>
      let fig_to_reuse := fig in
      fig <-
        (let create :=
           f <- plt_figure ;;
           modify (fun s =>
             mkPyplot (py_plot s) (py_info s) (py_next_fig s)
                      (S (_figure_count s)) (py_warnings s)) ;;;
           ret f in
         match fig with
         | None => create
         | Some f =>
             has_canvas <- gets (fun s => fi_has_canvas (py_info s f)) ;;
             if has_canvas then fig_clear f ;;; ret f else create
         end) ;;
      count <- gets _figure_count ;;
      let figure_title :=
        match figure_title with
        | Some t => if bool_decide (t = "") then default_figure_title count else t
        | None => default_figure_title count
        end in
      fig_suptitle_set fig figure_title ;;;
      let window_title :=
        match window_title with
        | Some w => w
        | None => figure_title
        end in
      fig <-
        (if bool_decide (window_title = "") then ret fig
         else
           fun s =>
             match canvas_set_window_title fig window_title s with
             | (s', Raise AttributeError) =>
                 match fig_to_reuse with
                 | Some _ =>
                     (warn closed_figure_msg ;;;
                      figure fuel (Some figure_title) (Some window_title) None)
                       s'
                 | None => (s', Raise ValueError)
                 end
             | (s', Raise e) => (s', Raise e)
             | (s', Ok _) => (s', Ok fig)
             end) ;;
      set_info fig (fun i =>
        mkFigInfo (fi_has_canvas i) (fi_closed i) (fi_canvas_title i)
                  (Some figure_title) (Some window_title) (fi_clears i)) ;;;
      ret fig
  end.

(** [get_window_title(fig)] *)
Definition get_window_title (fig : nat) : M Pyplot string :=
  fun s =>
    match fi_window_title (py_info s fig) with
    | Some t => (s, Ok t)
    | None => (s, Raise AttributeError)
    end.

(** What [figure] decides from its arguments and the state it starts in:
    whether the first step makes a new figure, the counter after that
    step, the two titles, and whether the figure given turns out closed. *)
Definition makes_new (fig : option nat) (s : Pyplot) : bool :=
  match fig with
  | None => true
  | Some f => negb (fi_has_canvas (py_info s f))
  end.

Definition count_after (fig : option nat) (s : Pyplot) : nat :=
  if makes_new fig s then S (_figure_count s) else _figure_count s.

Definition title_used (figure_title : option string) (fig : option nat)
    (s : Pyplot) : string :=
  match figure_title with
  | Some t =>
      if bool_decide (t = "") then default_figure_title (count_after fig s)
      else t
  | None => default_figure_title (count_after fig s)
  end.

Definition window_title_used (figure_title window_title : option string)
    (fig : option nat) (s : Pyplot) : string :=
  match window_title with
  | Some w => w
  | None => title_used figure_title fig s
  end.

Definition reuse_fails (figure_title window_title : option string)
    (fig : option nat) (s : Pyplot) : bool :=
  match fig with
  | Some f =>
      fi_has_canvas (py_info s f) && fi_closed (py_info s f) &&
      negb (bool_decide (window_title_used figure_title window_title fig s = ""))
  | None => false
  end.

(** The state [figure] reaches on a figure with a canvas before it tries
    the window title: the figure is cleared and carries the title. *)
Definition retitled (f0 : nat) (t : string) (s : Pyplot) : Pyplot :=
  (fig_suptitle_set f0 t (fig_clear f0 s).1).1.



(** The module when it is loaded: no figure, no Axes, the counter at 0. *)
Definition initial_pyplot : Pyplot :=
  mkPyplot (mkPlot (axes_objs single_axes_plot) 0 (fun _ => mkFigureObj None []))
           (fun _ => mkFigInfo false false None None None 0) 0 0 [].


Definition two_figures_sample : Pyplot :=
  (figure 1 None None None (figure 1 None None None initial_pyplot).1).1.

(** ** [subplots] *)

(** [class ShareAxis(enum.Enum)] and its values. *)
Inductive ShareAxis : Type :=
  | ALL
  | NONE
  | ROW
  | COLUMN.

Definition ShareAxis_value (s : ShareAxis) : string :=
  match s with
  | ALL => "all"
  | NONE => "none"
  | ROW => "row"
  | COLUMN => "col"
  end.

(** What [fig.subplots(..., squeeze=True)] returns: one Axes, a 1D array of
    Axes, or a 2D array of Axes (rows of Axes). *)
Inductive AxesArray : Type :=
  | single_axes (ax : Axes)
  | axes_1d (axs : list Axes)
  | axes_2d (axs : list (list Axes)).

Definition array_axes (arr : AxesArray) : list Axes :=
  match arr with
  | single_axes ax => [ax]
  | axes_1d axs => axs
  | axes_2d axs => concat axs
  end.

(** An Axes as [fig.subplots] makes it. *)
Definition new_subplot (fig : nat) : AxesObj :=
  mkAxes fig "" "" false true true default_spines side_left side_left true
         ([], []) None.

Definition add_subplot (fig : nat) : M Plot Axes :=
  fun p =>
    let ax := next_axes p in
    (mkPlot (<[ax := new_subplot fig]> (axes_objs p)) (S ax) (figure_objs p),
     Ok ax).

Fixpoint add_subplots (fig : nat) (n : nat) : M Plot (list Axes) :=
  match n with
  | 0 => ret []
  | S n =>
      ax <- add_subplot fig ;;
      rest <- add_subplots fig n ;;
      ret (ax :: rest)
  end.

(** The rows of a grid with [cols] columns, filled row by row. *)
Fixpoint grid_rows (rows cols : nat) (axs : list Axes) : list (list Axes) :=
  match rows with
  | 0 => []
  | S rows => take cols axs :: grid_rows rows cols (drop cols axs)
  end.

(** [fig.subplots(rows, cols, sharex=..., sharey=..., squeeze=True,
    gridspec_kw=...)] (matplotlib): the grid needs a positive number of
    rows and of columns, and as many width (height) ratios as columns
    (rows) when ratios are given. The cells are laid out when the first
    Axes is made, each ratio divided by the sum of the ratios: integer
    ratios that add up to 0 fail there with [ZeroDivisionError], before an
    Axes is added. The Axes are made row by row. *)
Definition Figure_subplots (fig : nat) (rows cols : Z) (sharex sharey : string)
    (gridspec_kw : option (list (string * list Z))) : M Plot AxesArray :=
  let ratios key :=
    match gridspec_kw with
    | Some kw => dict_get kw key
    | None => None
    end in
  let fits (r : option (list Z)) (n : Z) :=
    match r with
    | Some l => bool_decide (Z.of_nat (length l) = n)
    | None => true
    end in
  let sum_is_zero (r : option (list Z)) :=
    match r with
    | Some l => bool_decide (foldr Z.add 0%Z l = 0%Z)
    | None => false
    end in
  if bool_decide (rows <= 0)%Z || bool_decide (cols <= 0)%Z then
    raise ValueError
  else if negb (fits (ratios "height_ratios") rows)
          || negb (fits (ratios "width_ratios") cols) then
    raise ValueError
  else if sum_is_zero (ratios "height_ratios")
          || sum_is_zero (ratios "width_ratios") then
    raise (UserError "ZeroDivisionError")
  else
    axs <- add_subplots fig (Z.to_nat rows * Z.to_nat cols) ;;
    if bool_decide (rows = 1)%Z && bool_decide (cols = 1)%Z then
      match axs with
      | ax :: _ => ret (single_axes ax)
      | [] => raise IndexError
      end
    else if bool_decide (rows = 1)%Z || bool_decide (cols = 1)%Z then
      ret (axes_1d axs)
    else ret (axes_2d (grid_rows (Z.to_nat rows) (Z.to_nat cols) axs)).

(** [subplots(fig, rows, cols, sharex, sharey, width_ratios=...,
    height_ratios=...)] *)
Definition subplots (fig : nat) (rows cols : Z) (sharex sharey : ShareAxis)
    (width_ratios height_ratios : option (list Z)) : M Plot AxesArray :=
  let gridspec_kw : list (string * list Z) := [] in
  let gridspec_kw :=
    match width_ratios with
    | Some (x :: l) => dict_set gridspec_kw "width_ratios" (x :: l)
    | _ => gridspec_kw
    end in
  let gridspec_kw :=
    match height_ratios with
    | Some (x :: l) => dict_set gridspec_kw "height_ratios" (x :: l)
    | _ => gridspec_kw
    end in
  let gridspec_kw :=
    if bool_decide (gridspec_kw = []) then None else Some gridspec_kw in
  Figure_subplots fig rows cols (ShareAxis_value sharex)
    (ShareAxis_value sharey) gridspec_kw.

(** The ratios are absent, empty, or as many as the grid has columns
    (rows) with a sum that is not 0. *)
Definition ratios_fit (ratios : option (list Z)) (n : Z) : Prop :=
  match ratios with
  | Some [] | None => True
  | Some l => Z.of_nat (length l) = n /\ foldr Z.add 0%Z l <> 0%Z
  end.

(** The rectangle [axes] hands to [tight_layout] under a figure title. *)
Definition title_rect : Q * Q * Q * Q := (0, 3 # 100, 1, 95 # 100)%Q.

(** ** [save_png] *)

(** The functions of [os.path] the module calls; what they return depends
    on the platform. *)
Class OsPath := mkOsPath {
  os_path_split : string -> string * string;
  os_path_splitext : string -> string * string;
  os_path_join : string -> string -> string;
  os_path_normpath : string -> string
}.

(** What [fig.savefig] writes: the figure at its size in inches and at the
    resolution given. *)
Record Image := mkImage {
  img_fig : nat;
  img_size : Q * Q;
  img_dpi : Q
}.

(** The line [print_info] prints, as the values it formats. *)
Record SaveInfo := mkSaveInfo {
  info_width_px : Z;
  info_height_px : Z;
  info_width_mm : Q;
  info_height_mm : Q;
  info_dpi : Q;
  info_path : string
}.

(** The figures with their size in inches and their resolution, and the
    file system and the output [save_png] writes to. *)
Record Desk := mkDesk {
  dk_pyplot : Pyplot;
  dk_size : nat -> Q * Q;
  dk_dpi : nat -> Q;
  dk_dirs : list string;
  dk_files : list (string * Image);
  dk_stdout : list SaveInfo
}.

(** [os.makedirs(directory, exist_ok=True)]: the empty path names no
    directory. *)
Definition os_makedirs (directory : string) : M Desk unit :=
  if bool_decide (directory = "") then raise (UserError "FileNotFoundError")
  else
    modify (fun s =>
      mkDesk (dk_pyplot s) (dk_size s) (dk_dpi s) (dk_dirs s ++ [directory])
             (dk_files s) (dk_stdout s)).

(** A function of the figures, run on the whole state. *)
Definition on_pyplot {A} (m : M Pyplot A) : M Desk A :=
  fun s =>
    let (py, r) := m (dk_pyplot s) in
    (mkDesk py (dk_size s) (dk_dpi s) (dk_dirs s) (dk_files s) (dk_stdout s),
     r).

(** [fig.set_size_inches(w, h)], for a size the library takes (not
    negative). Sizes are exact numbers here: what binary64 rounds off in
    the divisions of [save_png] is not recorded. *)
Definition set_size_inches (fig : nat) (w h : Q) : M Desk unit :=
  modify (fun s =>
    mkDesk (dk_pyplot s) (<[fig := (w, h)]> (dk_size s)) (dk_dpi s)
           (dk_dirs s) (dk_files s) (dk_stdout s)).

(** [fig.savefig(path, dpi=dpi)], for a figure the backend can render
    (fewer than [2^16] pixels each way). *)
Definition savefig (fig : nat) (path : string) (dpi : Q) : M Desk unit :=
  modify (fun s =>
    mkDesk (dk_pyplot s) (dk_size s) (dk_dpi s) (dk_dirs s)
           (dk_files s ++ [(path, mkImage fig (dk_size s fig) dpi)])
           (dk_stdout s)).

Definition print (line : SaveInfo) : M Desk unit :=
  modify (fun s =>
    mkDesk (dk_pyplot s) (dk_size s) (dk_dpi s) (dk_dirs s) (dk_files s)
           (dk_stdout s ++ [line])).

(** Python truthiness of an optional number, and [x or default]. *)
Definition number_truthy (x : option Q) : bool :=
  match x with
  | Some q => negb (Qeq_bool q 0)
  | None => false
  end.

Definition or_else (x : option Q) (default : Q) : Q :=
  match x with
  | Some q => if Qeq_bool q 0 then default else q
  | None => default
  end.

(** [x /= d] for an optional number: [None] cannot be divided. *)
Definition div_assign {S} (x : option Q) (d : Q) : M S (option Q) :=
  match x with
  | Some q => ret (Some (q / d)%Q)
  | None => raise (UserError "TypeError")
  end.

(** [int(round(x))]: halves go to the even neighbour. *)
Definition py_round (x : Q) : Z :=
  let f := Qfloor x in
  match (x - inject_Z f ?= 1 # 2)%Q with
  | Lt => f
  | Gt => (f + 1)%Z
  | Eq => if Z.even f then f else (f + 1)%Z
  end.

Section SavePng.
Context `{OsPath}.

(** The first block of [save_png]: the path the image is saved to. *)
Definition save_png_path (fig : nat) (path : option string)
    : M Desk (option string) :=
  match path with
  | Some p =>
      if bool_decide (p = "") then ret path
      else
        let (directory, file_name) := os_path_split p in
        os_makedirs directory ;;;
        file_name <-
          (if bool_decide (file_name = "")
           then on_pyplot (get_window_title fig)
           else ret file_name) ;;
        let file_name :=
          if bool_decide ((os_path_splitext file_name).2 = ".png")
          then file_name else file_name +:+ ".png" in
        ret (Some (os_path_join directory file_name))
  | None => ret None
  end.

(** The second block: the figure is resized if a width or a height is
    given. *)
Definition save_png_resize (fig : nat) (width height : option Q)
    (unit : string) (dpi : Q) : M Desk () :=
  if number_truthy width || number_truthy height then
    size <- gets (fun s => dk_size s fig) ;;
    if bool_decide (unit = "px") then
      if Qeq_bool dpi 0 then raise (UserError "ZeroDivisionError")
      else
        set_size_inches fig (or_else width size.1 / dpi)%Q
                            (or_else height size.2 / dpi)%Q
    else if bool_decide (unit ∈ ["mm"; "cm"; "in"; "inch"]) then
      wh <-
        (if bool_decide (unit = "mm") then
           width <- div_assign width (254 # 10) ;;
           height <- div_assign height (254 # 10) ;;
           ret (width, height)
         else if bool_decide (unit = "cm") then
           width <- div_assign width (254 # 100) ;;
           height <- div_assign height (254 # 100) ;;
           ret (width, height)
         else ret (width, height)) ;;
      set_size_inches fig (or_else wh.1 size.1) (or_else wh.2 size.2)
    else raise ValueError
  else ret tt.

(** [save_png(fig, path, width, height, unit, print_info)]: the path of
    the file written, or the image in memory. *)
Definition save_png (fig : nat) (path : option string)
    (width height : option Q) (unit : string) (print_info : bool)
    : M Desk (string + Image) :=
  path <- save_png_path fig path ;;
  dpi <- gets (fun s => dk_dpi s fig) ;;
  save_png_resize fig width height unit dpi ;;;
  size <- gets (fun s => dk_size s fig) ;;
  let width := size.1 in
  let height := size.2 in
  let width_px := py_round (width * dpi) in
  let height_px := py_round (height * dpi) in
  let width_mm := (width * (254 # 10))%Q in
  let height_mm := (height * (254 # 10))%Q in
  match path with
  | Some p =>
      if bool_decide (p = "") then ret (inr (mkImage fig size dpi))
      else
        savefig fig p dpi ;;;
        (if print_info
         then print (mkSaveInfo width_px height_px width_mm height_mm dpi
                                (os_path_normpath p))
         else ret tt) ;;;
        ret (inl p)
  | None => ret (inr (mkImage fig size dpi))
  end.

End SavePng.

(** *** Observations on [save_png] *)

(** Python truthiness of the [path] argument. *)
Definition path_given (path : option string) : bool :=
  match path with
  | Some p => negb (bool_decide (p = ""))
  | None => false
  end.

(** What [save_png] returns and writes for the path [path] it arrives at. *)
Definition save_result (path : option string) (img : Image) : string + Image :=
  match path with
  | Some p => if bool_decide (p = "") then inr img else inl p
  | None => inr img
  end.

(** The file [savefig] adds to the disk, if any. *)
Definition written (path : option string) (img : Image)
    : list (string * Image) :=
  match path with
  | Some p => if bool_decide (p = "") then [] else [(p, img)]
  | None => []
  end.

(** A file name with the extension [save_png] wants. *)
Definition with_png `{OsPath} (file_name : string) : string :=
  if bool_decide ((os_path_splitext file_name).2 = ".png")
  then file_name else file_name +:+ ".png".

(** The state after [os.makedirs] made [directory], and the state after
    [set_size_inches] gave figure [fig] the size [size]. *)
Definition with_dir (directory : string) (s : Desk) : Desk :=
  mkDesk (dk_pyplot s) (dk_size s) (dk_dpi s) (dk_dirs s ++ [directory])
         (dk_files s) (dk_stdout s).

Definition with_size (fig : nat) (size : Q * Q) (s : Desk) : Desk :=
  mkDesk (dk_pyplot s) (<[fig := size]> (dk_size s)) (dk_dpi s)
         (dk_dirs s) (dk_files s) (dk_stdout s).

(** Two states that differ in the directories at most. *)
Definition same_but_dirs (s s1 : Desk) : Prop :=
  dk_pyplot s1 = dk_pyplot s /\ dk_size s1 = dk_size s /\
  dk_dpi s1 = dk_dpi s /\ dk_files s1 = dk_files s /\
  dk_stdout s1 = dk_stdout s.

(** What [print_info] prints when the image went to the file [path]. *)
Definition printed `{OsPath} (path : option string) (print_info : bool)
    (img : Image) : list SaveInfo :=
  match path with
  | Some p =>
      if bool_decide (p = "") then []
      else if print_info then
        [mkSaveInfo (py_round ((img_size img).1 * img_dpi img))
                    (py_round ((img_size img).2 * img_dpi img))
                    ((img_size img).1 * (254 # 10))%Q
                    ((img_size img).2 * (254 # 10))%Q
                    (img_dpi img) (os_path_normpath p)]
      else []
  | None => []
  end.

(** The state after the last block of [save_png]. *)
Definition saved `{OsPath} (path : option string) (print_info : bool)
    (img : Image) (s : Desk) : Desk :=
  mkDesk (dk_pyplot s) (dk_size s) (dk_dpi s) (dk_dirs s)
         (dk_files s ++ written path img)
         (dk_stdout s ++ printed path print_info img).

(** The number a size in the metric unit [unit] is divided by, the units
    [save_png] accepts, and whether a width or a height is given. *)
Definition inches_per (unit : string) : option Q :=
  if bool_decide (unit = "mm") then Some (254 # 10)%Q
  else if bool_decide (unit = "cm") then Some (254 # 100)%Q
  else None.

Definition known_unit (unit : string) : bool :=
  bool_decide (unit ∈ ["px"; "mm"; "cm"; "in"; "inch"]).

Definition size_given (width height : option Q) : bool :=
  number_truthy width || number_truthy height.

(** The state with the figures replaced by [py]. *)
Definition with_pyplot (py : Pyplot) (s : Desk) : Desk :=
  mkDesk py (dk_size s) (dk_dpi s) (dk_dirs s) (dk_files s) (dk_stdout s).

(** A sample of [os.path] for the examples: a path is cut at its last
    slash, a file name at its last dot. *)
Fixpoint cut_at_last (c : Ascii.ascii) (s : string) : option (string * string) :=
  match s with
  | EmptyString => None
  | String a rest =>
      match cut_at_last c rest with
      | Some (h, t) => Some (String a h, t)
      | None => if Ascii.eqb a c then Some (EmptyString, rest) else None
      end
  end.

Definition sample_os : OsPath :=
  mkOsPath
    (fun p => match cut_at_last (Ascii.ascii_of_nat 47) p with
              | Some (h, t) => (h, t)
              | None => ("", p)
              end)
    (fun f => match cut_at_last (Ascii.ascii_of_nat 46) f with
              | Some (h, t) => (h, "." +:+ t)
              | None => (f, "")
              end)
    (fun a b => a +:+ "/" +:+ b)
    (fun p => p).

(** Two figures of 6.4 by 4.8 inches at 100 dots per inch, nothing saved. *)
Definition sample_desk : Desk :=
  mkDesk two_figures_sample (fun _ => (64 # 10, 48 # 10)%Q) (fun _ => 100%Q)
         [] [] [].

(** * Properties *)

(** ** Lists *)

Lemma filter_all {A} (P : A -> Prop) `{!forall x, Decision (P x)} (l : list A) :
  Forall P l -> filter P l = l.
Proof.
  induction 1 as [|x l Hx Hl IH]; [done|].
  rewrite filter_cons_True by done. by rewrite IH.
Qed.

Lemma filter_none {A} (P : A -> Prop) `{!forall x, Decision (P x)} (l : list A) :
  Forall (fun x => ~ P x) l -> filter P l = [].
Proof.
  induction 1 as [|x l Hx Hl IH]; [done|].
  by rewrite filter_cons_False.
Qed.

(** ** Dictionaries *)

Section DictFacts.
Context {K V : Type} `{EqDecision K}.
Implicit Types (d : list (K * V)) (k : K) (v : V).

Lemma dict_get_set d k v k' :
  dict_get (dict_set d k v) k' =
    if decide (k' = k) then Some v else dict_get d k'.
Proof.
  induction d as [|[k0 v0] d IH]; csimpl.
  - by destruct (decide (k' = k)).
  - destruct (decide (k = k0)) as [->|Hne]; csimpl.
    + by destruct (decide (k' = k0)).
    + destruct (decide (k' = k0)) as [->|Hne'].
      * by rewrite decide_False.
      * done.
Qed.

Lemma dict_get_del d k k' :
  dict_get (dict_del d k) k' =
    if decide (k' = k) then None else dict_get d k'.
Proof.
  induction d as [|[k0 v0] d IH]; csimpl.
  - by destruct (decide (k' = k)).
  - destruct (decide (k = k0)) as [->|Hne]; csimpl.
    + rewrite IH. destruct (decide (k' = k0)); done.
    + rewrite IH. destruct (decide (k' = k0)) as [->|Hne'].
      * by rewrite decide_False.
      * done.
Qed.

Lemma elem_of_dict_keys d k : k ∈ dict_keys d <-> is_Some (dict_get d k).
Proof.
  unfold dict_keys. induction d as [|[k0 v0] d IH]; csimpl.
  - split; [by intros ?%elem_of_nil | by intros [? ?]].
  - rewrite elem_of_cons, IH. destruct (decide (k = k0)) as [->|Hne].
    + split; eauto.
    + split; [intros [?|?]; done | by right].
Qed.

Lemma dict_get_None d k : dict_get d k = None <-> k ∉ dict_keys d.
Proof. rewrite elem_of_dict_keys, eq_None_not_Some. done. Qed.

Lemma dict_keys_set_present d k v :
  is_Some (dict_get d k) -> dict_keys (dict_set d k v) = dict_keys d.
Proof.
  unfold dict_keys. induction d as [|[k0 v0] d IH]; csimpl.
  - by intros [? ?].
  - destruct (decide (k = k0)) as [->|Hne]; csimpl; [done|].
    intros Hk. by rewrite IH.
Qed.

Lemma dict_keys_set_absent d k v :
  dict_get d k = None -> dict_keys (dict_set d k v) = dict_keys d ++ [k].
Proof.
  unfold dict_keys. induction d as [|[k0 v0] d IH]; csimpl; [done|].
  destruct (decide (k = k0)) as [->|Hne]; csimpl; [done|].
  intros Hk. by rewrite IH.
Qed.

Lemma dict_keys_del d k :
  dict_keys (dict_del d k) = filter (fun k' => k' <> k) (dict_keys d).
Proof.
  unfold dict_keys. induction d as [|[k0 v0] d IH]; csimpl; [done|].
  destruct (decide (k = k0)) as [->|Hne]; csimpl.
  - rewrite filter_cons_False by (intros ?; done). done.
  - rewrite filter_cons_True by done. by rewrite IH.
Qed.

Lemma dict_keys_del_set d k v :
  NoDup (dict_keys d) -> k ∈ dict_keys d ->
  dict_keys (dict_set (dict_del d k) k v) ≡ₚ dict_keys d.
Proof.
  intros Hnd Hin.
  rewrite dict_keys_set_absent
    by (rewrite dict_get_del; by rewrite decide_True).
  rewrite dict_keys_del. clear v.
  unfold dict_keys in *. induction d as [|[k0 v0] d IH]; csimpl in *.
  - by apply elem_of_nil in Hin.
  - apply NoDup_cons in Hnd as [Hk0 Hnd].
    destruct (decide (k0 = k)) as [->|Hne].
    + rewrite filter_cons_False by (intros ?; done).
      rewrite filter_all.
      * by rewrite Permutation_app_comm.
      * apply Forall_forall. intros x Hx ->. done.
    + rewrite filter_cons_True by done. csimpl. f_equiv.
      apply IH; [done|]. apply elem_of_cons in Hin as [?|?]; done.
Qed.

Lemma dict_keys_fold_set (ks : list K) v d :
  NoDup (dict_keys d) ->
  NoDup (dict_keys (fold_left (fun d k => dict_set d k v) ks d)) /\
  forall k, k ∈ dict_keys (fold_left (fun d k => dict_set d k v) ks d) <->
            k ∈ dict_keys d \/ k ∈ ks.
Proof.
  revert d. induction ks as [|k0 ks IH]; intros d Hnd; csimpl.
  - split; [done|]. intros k. rewrite elem_of_nil. tauto.
  - assert (NoDup (dict_keys (dict_set d k0 v))) as Hnd'.
    { destruct (dict_get d k0) as [v0|] eqn:Hg.
      - by rewrite dict_keys_set_present by eauto.
      - rewrite dict_keys_set_absent by done.
        apply NoDup_app. split_and!; [done| |apply NoDup_singleton].
        intros x Hx ->%list_elem_of_singleton.
        by apply dict_get_None in Hg. }
    destruct (IH _ Hnd') as [Hn Hiff]. split; [done|].
    intros k. rewrite Hiff, elem_of_cons, !elem_of_dict_keys, dict_get_set.
    destruct (decide (k = k0)) as [->|Hne].
    + split; [intros _; right; by left | intros _; left; eauto].
    + split; [intros [?|?]; auto | intros [?|[?|?]]; auto; done].
Qed.

Lemma dict_get_fold_set (ks : list K) v d k :
  dict_get (fold_left (fun d k => dict_set d k v) ks d) k =
    if decide (k ∈ ks) then Some v else dict_get d k.
Proof.
  revert d. induction ks as [|k0 ks IH]; intros d; csimpl.
  - destruct (decide (k ∈ [])) as [Hin|]; [|done].
    by apply elem_of_nil in Hin.
  - rewrite IH, dict_get_set.
    destruct (decide (k ∈ ks)) as [Hin|Hnin];
      destruct (decide (k ∈ k0 :: ks)) as [Hin'|Hnin'];
      destruct (decide (k = k0)) as [->|Hne]; try done.
    all: try (exfalso; apply Hnin'; first [by left | by right]).
    apply elem_of_cons in Hin' as [?|?]; done.
Qed.
End DictFacts.

(** ** The state/exception monad *)

Lemma bind_ok {S A B} (m : M S A) (k : A -> M S B) s s' a :
  m s = (s', Ok a) -> bind m k s = k a s'.
Proof. unfold bind. by intros ->. Qed.

Lemma bind_raise {S A B} (m : M S A) (k : A -> M S B) s s' e :
  m s = (s', Raise e) -> bind m k s = (s', Raise e).
Proof. unfold bind. by intros ->. Qed.

(** ** One iteration of [remove_lines] and of the drawing loop *)

Lemma records_same_owner w c ax1 ax2 l :
  lines_wf w -> records w c ax1 l -> records w c ax2 l -> ax1 = ax2.
Proof.
  intros Hwf H1 H2.
  destruct (wf_attached w Hwf _ _ _ H1) as (L1 & HL1 & <-).
  destruct (wf_attached w Hwf _ _ _ H2) as (L2 & HL2 & <-).
  congruence.
Qed.

Lemma detached_map c ax l w d :
  artifact_map c w = Some d ->
  artifact_map c (detached c ax l w) = Some (dict_set (dict_del d ax) ax None).
Proof.
  unfold artifact_map, detached. simpl. intros Hd.
  rewrite !lookup_alter_eq, Hd. done.
Qed.

Lemma detached_map_ne c ax l w c' :
  c' <> c -> artifact_map c' (detached c ax l w) = artifact_map c' w.
Proof.
  unfold artifact_map, detached. simpl. intros Hne.
  by rewrite !lookup_alter_ne.
Qed.

Lemma detached_records c ax l w c' ax' l' :
  records w c ax l ->
  records (detached c ax l w) c' ax' l' <->
  records w c' ax' l' /\ ~ (c' = c /\ ax' = ax).
Proof.
  intros (d & Hd & Hl). unfold records.
  destruct (decide (c' = c)) as [->|Hne].
  - rewrite (detached_map _ _ _ _ _ Hd). split.
    + intros (d' & [= <-] & Hg). rewrite dict_get_set, dict_get_del in Hg.
      destruct (decide (ax' = ax)) as [->|Hax]; [done|].
      split; [eauto | tauto].
    + intros ((d' & Hd' & Hg) & Hn). exists (dict_set (dict_del d ax) ax None).
      split; [done|]. rewrite dict_get_set, dict_get_del.
      destruct (decide (ax' = ax)) as [->|Hax]; [tauto|]. congruence.
  - rewrite detached_map_ne by done. split; [|tauto].
    intros H. split; [done | tauto].
Qed.

Lemma remove_iteration c ax l w A (k : M World A) :
  lines_wf w -> records w c ax l ->
  (Line2D_remove l ;;; lines_delitem c ax ;;; lines_setitem c ax None ;;; k) w
    = k (detached c ax l w).
Proof.
  intros Hwf Hrec. destruct (wf_attached w Hwf _ _ _ Hrec) as (L & HL & _).
  destruct Hrec as (d & Hd & Hl). unfold artifact_map in Hd.
  unfold bind at 1. unfold Line2D_remove. rewrite HL.
  unfold bind at 1. unfold lines_delitem. simpl. rewrite Hd, Hl.
  unfold bind at 1. unfold lines_setitem, modify. done.
Qed.

Lemma detached_wf c ax l w :
  lines_wf w -> records w c ax l -> lines_wf (detached c ax l w).
Proof.
  intros Hwf Hrec. pose proof Hrec as (d & Hd & Hl). split.
  - intros c' d'. destruct (decide (c' = c)) as [->|Hne].
    + rewrite (detached_map _ _ _ _ _ Hd). intros [= <-].
      rewrite dict_keys_del_set; [by eapply wf_nodup| by eapply wf_nodup|].
      apply elem_of_dict_keys. eauto.
    + rewrite detached_map_ne by done. by apply wf_nodup.
  - intros c' ax' l' [H Hn]%detached_records; [|done].
    destruct (wf_attached w Hwf _ _ _ H) as (L & HL & HLa).
    exists L. split; [|done]. simpl. rewrite lookup_delete_ne; [done|].
    intros ->. assert (c = c') as <- by (by eapply wf_owner).
    apply Hn. split; [done|]. by eapply records_same_owner.
  - intros c1 ax1 c2 ax2 l' [H1 _]%detached_records [H2 _]%detached_records;
      [|done..]. by eapply wf_owner.
  - intros l' L. simpl. intros [Hne HL]%lookup_delete_Some.
    destruct (wf_recorded w Hwf _ _ HL) as (c' & Hc').
    exists c'. apply detached_records; [done|]. split; [done|].
    intros [-> Hax]. rewrite Hax in Hc'.
    destruct Hc' as (d' & Hd' & Hl'). congruence.
  - intros l'. simpl. intros [L [_ HL]%lookup_delete_Some]. by eapply wf_fresh.
Qed.

Lemma detached_frame c ax l w :
  same_registry w (detached c ax l w) /\ same_counters w (detached c ax l w).
Proof. done. Qed.

(** ** [remove_lines] *)

Lemma remove_lines_loop_ok c ks : forall w d,
  lines_wf w -> artifact_map c w = Some d ->
  (forall ax, ax ∈ ks -> ax ∈ dict_keys d) ->
  exists w' d',
    remove_lines_loop c ks w = (w', Ok tt) /\
    lines_wf w' /\ same_registry w w' /\ same_counters w w' /\
    artifact_map c w' = Some d' /\
    (forall c', c' <> c -> artifact_map c' w' = artifact_map c' w) /\
    dict_keys d' ≡ₚ dict_keys d /\
    (forall ax, ax ∈ ks -> dict_get d' ax = Some None) /\
    (forall ax, ax ∉ ks -> dict_get d' ax = dict_get d ax) /\
    (forall c' ax l, records w' c' ax l -> records w c' ax l) /\
    (forall l L, artists w' !! l = Some L -> artists w !! l = Some L).
Proof.
  induction ks as [|ax ks IH]; intros w d Hwf Hd Hks.
  - exists w, d. simpl. split_and!; try done.
    intros ax Hax. by apply elem_of_nil in Hax.
  - assert (is_Some (dict_get d ax)) as [v Hv].
    { apply elem_of_dict_keys, Hks. by left. }
    assert (remove_lines_loop c (ax :: ks) w =
      match v with
      | Some line =>
          (Line2D_remove line ;;; lines_delitem c ax ;;;
           lines_setitem c ax None ;;; remove_lines_loop c ks) w
      | None => remove_lines_loop c ks w
      end) as Hunf.
    { simpl. unfold bind at 1. unfold lines_getitem.
      unfold artifact_map in Hd. rewrite Hd, Hv. by destruct v. }
    rewrite Hunf. clear Hunf. destruct v as [l|].
    + assert (records w c ax l) as Hrec by (by exists d).
      rewrite remove_iteration by done.
      pose proof (detached_wf _ _ _ _ Hwf Hrec) as Hwf1.
      pose proof (detached_map c ax l w d Hd) as Hd1.
      assert (dict_keys (dict_set (dict_del d ax) ax None) ≡ₚ dict_keys d)
        as Hperm.
      { apply dict_keys_del_set; [apply (wf_nodup w Hwf c d Hd)|].
        apply Hks. by left. }
      destruct (IH _ _ Hwf1 Hd1) as
        (w' & d' & Hrun & Hwf' & Hreg & Hcnt & Hd' & Hoth & Hkeys & Hin &
         Hout & Hrecs & Harts).
      { intros ax' Hax'. rewrite Hperm. apply Hks. by right. }
      exists w', d'. split_and!; try done.
      * intros c' Hc'. rewrite Hoth by done. by apply detached_map_ne.
      * by rewrite Hkeys.
      * intros ax' [->|Hax']%elem_of_cons; [|by apply Hin].
        destruct (decide (ax ∈ ks)) as [?|Hn]; [by apply Hin|].
        rewrite Hout by done. rewrite dict_get_set. by rewrite decide_True.
      * intros ax' [Hne Hn]%not_elem_of_cons. rewrite Hout by done.
        rewrite dict_get_set, dict_get_del. by rewrite !decide_False.
      * intros c' ax' l' H%Hrecs. by apply detached_records in H as [? _].
      * intros l' L H%Harts. simpl in H.
        by apply lookup_delete_Some in H as [_ ?].
    + destruct (IH _ _ Hwf Hd) as
        (w' & d' & Hrun & Hwf' & Hreg & Hcnt & Hd' & Hoth & Hkeys & Hin &
         Hout & Hrecs & Harts).
      { intros ax' Hax'. apply Hks. by right. }
      exists w', d'. split_and!; try done.
      * intros ax' [->|Hax']%elem_of_cons; [|by apply Hin].
        destruct (decide (ax ∈ ks)) as [?|Hn]; [by apply Hin|].
        by rewrite Hout.
      * intros ax' [Hne Hn]%not_elem_of_cons. by apply Hout.
Qed.

Lemma remove_lines_ok c w d :
  lines_wf w -> artifact_map c w = Some d ->
  exists w' d',
    remove_lines c w = (w', Ok tt) /\
    lines_wf w' /\ same_registry w w' /\ same_counters w w' /\
    artifact_map c w' = Some d' /\
    (forall c', c' <> c -> artifact_map c' w' = artifact_map c' w) /\
    dict_keys d' ≡ₚ dict_keys d /\
    (forall ax, ax ∈ dict_keys d -> dict_get d' ax = Some None) /\
    all_none d' /\ all_removed d w' /\
    (forall l L, artists w' !! l = Some L -> artists w !! l = Some L).
Proof.
  intros Hwf Hd.
  destruct (remove_lines_loop_ok c (dict_keys d) w d Hwf Hd) as
    (w' & d' & Hrun & Hwf' & Hreg & Hcnt & Hd' & Hoth & Hkeys & Hin &
     Hout & Hrecs & Harts); [done|].
  assert (all_none d') as Hnone.
  { intros ax v Hv. assert (ax ∈ dict_keys d) as Hax.
    { rewrite <- Hkeys. apply elem_of_dict_keys. eauto. }
    apply Hin in Hax. congruence. }
  exists w', d'. split_and!; try done.
  - unfold remove_lines. unfold bind at 1. unfold lines_keys.
    unfold artifact_map in Hd. by rewrite Hd.
  - intros ax l Hl. destruct (artists w' !! l) as [L|] eqn:HL; [|done].
    exfalso. destruct (wf_recorded w' Hwf' _ _ HL) as (c' & Hc').
    pose proof (Hrecs _ _ _ Hc') as Hc. 
    assert (records w c ax l) as Hc0 by (by exists d).
    assert (c' = c) as -> by apply (wf_owner w Hwf _ _ _ _ _ Hc Hc0).
    destruct Hc' as (d'' & Hd'' & Hg). rewrite Hd' in Hd''.
    injection Hd'' as <-. by apply Hnone in Hg.
Qed.

(** ** The drawing loop of [on_mouse_move] *)

Lemma drawn_map c ax x kw w d :
  artifact_map c w = Some d ->
  artifact_map c (drawn c ax x kw w) = Some (dict_set d ax (Some (next_line w))).
Proof.
  unfold artifact_map, drawn. simpl. intros Hd.
  by rewrite lookup_alter_eq, Hd.
Qed.

Lemma drawn_map_ne c ax x kw w c' :
  c' <> c -> artifact_map c' (drawn c ax x kw w) = artifact_map c' w.
Proof.
  unfold artifact_map, drawn. simpl. intros Hne. by rewrite lookup_alter_ne.
Qed.

Lemma drawn_records c ax x kw w d c' ax' l' :
  artifact_map c w = Some d -> dict_get d ax = Some None ->
  records (drawn c ax x kw w) c' ax' l' <->
  records w c' ax' l' \/ (c' = c /\ ax' = ax /\ l' = next_line w).
Proof.
  intros Hd Hax. unfold records.
  destruct (decide (c' = c)) as [->|Hne].
  - rewrite (drawn_map _ _ _ _ _ _ Hd). split.
    + intros (d' & [= <-] & Hg). rewrite dict_get_set in Hg.
      destruct (decide (ax' = ax)) as [->|Hne]; [right|left; eauto].
      split_and!; congruence.
    + intros [(d' & Hd' & Hg)|(_ & -> & ->)]; eexists; (split; [done|]);
        rewrite dict_get_set.
      * destruct (decide (ax' = ax)) as [->|Hne]; congruence.
      * by rewrite decide_True.
  - rewrite drawn_map_ne by done. split; [by left|].
    intros [?|(? & _)]; done.
Qed.

Lemma draw_iteration c ax x kw w A (k : M World A) :
  "transform" ∉ kw.*1 ->
  (l <- axvline ax x kw ;; lines_setitem c ax (Some l) ;;; k) w
    = k (drawn c ax x kw w).
Proof.
  intros Hkw. unfold bind at 1. unfold axvline.
  by rewrite bool_decide_eq_false_2.
Qed.

(** With ['transform'] among the keyword arguments the first call of
    [axvline] raises, and nothing is drawn. *)
Lemma draw_lines_refused c x kw ks w :
  "transform" ∈ kw.*1 ->
  draw_lines c ks x kw w =
    match ks with
    | [] => (w, Ok tt)
    | _ :: _ => (w, Raise ValueError)
    end.
Proof.
  intros Hkw. destruct ks as [|ax ks]; [done|].
  simpl. unfold bind at 1. unfold axvline.
  by rewrite bool_decide_eq_true_2.
Qed.

Lemma drawn_wf c ax x kw w d :
  lines_wf w -> artifact_map c w = Some d -> dict_get d ax = Some None ->
  lines_wf (drawn c ax x kw w).
Proof.
  intros Hwf Hd Hax.
  assert (forall c' ax' l', records w c' ax' l' -> l' <> next_line w) as Hold.
  { intros c' ax' l' (L & HL & _)%(wf_attached w Hwf).
    assert (l' < next_line w) by (apply (wf_fresh w Hwf); eauto). lia. }
  split.
  - intros c' d'. destruct (decide (c' = c)) as [->|Hne].
    + rewrite (drawn_map _ _ _ _ _ _ Hd). intros [= <-].
      rewrite dict_keys_set_present by eauto.
      apply (wf_nodup w Hwf c d Hd).
    + rewrite drawn_map_ne by done. apply (wf_nodup w Hwf).
  - intros c' ax' l' [H|(-> & -> & ->)]%(drawn_records _ _ _ _ _ _ _ _ _ Hd Hax).
    + destruct (wf_attached w Hwf _ _ _ H) as (L & HL & HLa).
      exists L. split; [|done]. simpl. rewrite lookup_insert_ne; [done|].
      intros Heq. by eapply Hold.
    + eexists. simpl. by rewrite lookup_insert_eq.
  - intros c1 ax1 c2 ax2 l
      [H1|(-> & -> & ->)]%(drawn_records _ _ _ _ _ _ _ _ _ Hd Hax)
      [H2|(-> & -> & Hl)]%(drawn_records _ _ _ _ _ _ _ _ _ Hd Hax);
      try done.
    + apply (wf_owner w Hwf _ _ _ _ _ H1 H2).
    + by apply Hold in H1.
    + by apply Hold in H2.
  - intros l L. simpl. intros [[<- <-]|[Hne HL]]%lookup_insert_Some.
    + exists c. apply (drawn_records _ _ _ _ _ _ _ _ _ Hd Hax). by right.
    + destruct (wf_recorded w Hwf _ _ HL) as (c' & Hc'). exists c'.
      apply (drawn_records _ _ _ _ _ _ _ _ _ Hd Hax). by left.
  - intros l. simpl. intros [L [[<- _]|[_ HL]]%lookup_insert_Some]; [lia|].
    assert (l < next_line w) by (apply (wf_fresh w Hwf); eauto). lia.
Qed.

Lemma draw_lines_ok c x kw ks : "transform" ∉ kw.*1 -> forall w d,
  lines_wf w -> artifact_map c w = Some d -> NoDup ks ->
  (forall ax, ax ∈ ks -> dict_get d ax = Some None) ->
  exists w' d',
    draw_lines c ks x kw w = (w', Ok tt) /\
    lines_wf w' /\ same_registry w w' /\ redraws w' = redraws w /\
    artifact_map c w' = Some d' /\
    (forall c', c' <> c -> artifact_map c' w' = artifact_map c' w) /\
    dict_keys d' = dict_keys d /\
    (forall ax, ax ∈ ks ->
       exists l, dict_get d' ax = Some (Some l) /\
                 artists w' !! l = Some (mkLine ax x kw)) /\
    (forall ax, ax ∉ ks -> dict_get d' ax = dict_get d ax) /\
    (forall l L, artists w !! l = Some L -> artists w' !! l = Some L).
Proof.
  intros Hkw. induction ks as [|ax ks IH]; intros w d Hwf Hd Hnd Hks.
  - exists w, d. simpl. split_and!; try done.
    intros ax Hax. by apply elem_of_nil in Hax.
  - apply NoDup_cons in Hnd as [Hax Hnd].
    assert (dict_get d ax = Some None) as Hg by (apply Hks; by left).
    simpl. rewrite draw_iteration by done.
    pose proof (drawn_wf c ax x kw w d Hwf Hd Hg) as Hwf1.
    pose proof (drawn_map c ax x kw w d Hd) as Hd1.
    destruct (IH _ _ Hwf1 Hd1 Hnd) as
      (w' & d' & Hrun & Hwf' & Hreg & Hred & Hd' & Hoth & Hkeys & Hin &
       Hout & Harts).
    { intros ax' Hax'. rewrite dict_get_set.
      rewrite decide_False by (intros ->; done). apply Hks. by right. }
    exists w', d'. split_and!; try done.
    + intros c' Hc'. rewrite Hoth by done. by apply drawn_map_ne.
    + rewrite Hkeys. apply dict_keys_set_present. eauto.
    + intros ax' [->|Hax']%elem_of_cons; [|by apply Hin].
      exists (next_line w). split.
      * rewrite Hout by done. rewrite dict_get_set. by rewrite decide_True.
      * apply Harts. simpl. by rewrite lookup_insert_eq.
    + intros ax' [Hne Hn]%not_elem_of_cons. rewrite Hout by done.
      rewrite dict_get_set. by rewrite decide_False.
    + intros l L HL. apply Harts. simpl. rewrite lookup_insert_ne; [done|].
      intros <-. assert (next_line w < next_line w); [|lia].
      apply (wf_fresh w Hwf). eauto.
Qed.

(** ** [on_mouse_move] *)

Lemma lines_wf_proper w w' :
  _mouse_tracking_vertical_lines w' = _mouse_tracking_vertical_lines w ->
  artists w' = artists w -> next_line w' = next_line w ->
  lines_wf w -> lines_wf w'.
Proof.
  destruct w, w'. simpl. intros -> -> -> [H1 H2 H3 H4 H5].
  split; done.
Qed.

(** Without a session entry the handler fails at once and changes nothing. *)
Lemma on_mouse_move_no_session conv kw ev w :
  artifact_map (event_canvas ev) w = None ->
  on_mouse_move conv kw ev w = (w, Raise KeyError).
Proof.
  unfold artifact_map. intros Hd. unfold on_mouse_move.
  unfold bind at 1. unfold lines_lookup. by rewrite Hd.
Qed.

(** With a session entry the handler clears the artifacts first, then
    reads the coordinate, then converts it, then draws. *)
Lemma on_mouse_move_unfold conv kw ev w w1 d d1 :
  artifact_map (event_canvas ev) w = Some d ->
  remove_lines (event_canvas ev) w = (w1, Ok tt) ->
  artifact_map (event_canvas ev) w1 = Some d1 ->
  on_mouse_move conv kw ev w =
    match ev with
    | CloseEvent _ => (w1, Raise AttributeError)
    | MouseEvent _ None => (w1, Ok tt)
    | MouseEvent c (Some x) =>
        match match conv with Some f => f x | None => Ok x end with
        | Raise e => (w1, Raise e)
        | Ok x' => (draw_lines c (dict_keys d1) x' kw ;;; draw_idle c) w1
        end
    end.
Proof.
  unfold artifact_map. intros Hd Hrm Hd1. unfold on_mouse_move.
  unfold bind at 1. unfold lines_lookup. rewrite Hd.
  rewrite (bind_ok _ _ _ _ _ Hrm).
  destruct ev as [c [x|]|c]; simpl in *; try done.
  unfold bind at 1.
  destruct conv as [f|]; simpl.
  - unfold lift_result. destruct (f x) as [x'|e]; [|done].
    unfold bind at 1. simpl. unfold bind at 1. unfold lines_keys.
    by rewrite Hd1.
  - unfold bind at 1. simpl. unfold bind at 1. unfold lines_keys.
    by rewrite Hd1.
Qed.

Lemma on_mouse_move_wf conv kw ev w :
  lines_wf w ->
  lines_wf (on_mouse_move conv kw ev w).1 /\
  same_registry w (on_mouse_move conv kw ev w).1 /\
  (forall c, is_Some (artifact_map c (on_mouse_move conv kw ev w).1) <->
             is_Some (artifact_map c w)) /\
  (forall c d, artifact_map c w = Some d ->
     exists d', artifact_map c (on_mouse_move conv kw ev w).1 = Some d' /\
                dict_keys d' ≡ₚ dict_keys d).
Proof.
  intros Hwf. destruct (artifact_map (event_canvas ev) w) as [d|] eqn:Hd.
  - destruct (remove_lines_ok _ _ _ Hwf Hd) as
      (w1 & d1 & Hrm & Hwf1 & Hreg1 & Hcnt1 & Hd1 & Hoth1 & Hkeys1 & _ &
       Hnone1 & _).
    assert (forall c, is_Some (artifact_map c w1) <-> is_Some (artifact_map c w))
      as Hdom1.
    { intros c. destruct (decide (c = event_canvas ev)) as [->|Hne].
      - rewrite Hd, Hd1. split; eauto.
      - by rewrite Hoth1. }
    assert (forall c d0, artifact_map c w = Some d0 ->
       exists d', artifact_map c w1 = Some d' /\ dict_keys d' ≡ₚ dict_keys d0)
      as Hmaps1.
    { intros c d0 Hd0. destruct (decide (c = event_canvas ev)) as [->|Hne].
      - exists d1. split; [done|]. congruence.
      - exists d0. by rewrite Hoth1. }
    rewrite (on_mouse_move_unfold conv kw ev w w1 d d1 Hd Hrm Hd1).
    destruct ev as [c [x|]|c]; simpl in *; try done.
    destruct (match conv with Some f => f x | None => Ok x end) as [x'|e];
      [|done].
    destruct (decide ("transform" ∈ kw.*1)) as [Hkw|Hkw].
    { unfold bind. rewrite (draw_lines_refused _ _ _ _ _ Hkw).
      destruct (dict_keys d1) as [|ax0 ks0]; [|by split_and!].
      simpl. split_and!.
      - by apply (lines_wf_proper w1).
      - destruct Hreg1 as (? & ? & ?). split_and!; simpl; congruence.
      - intros c'. unfold artifact_map at 1. simpl.
        fold (artifact_map c' w1). apply Hdom1.
      - intros c' d0 Hd0. unfold artifact_map at 1. simpl.
        fold (artifact_map c' w1). by apply Hmaps1. }
    destruct (draw_lines_ok c x' kw (dict_keys d1) Hkw w1 d1 Hwf1 Hd1) as
      (w2 & d2 & Hrun & Hwf2 & Hreg2 & Hred2 & Hd2 & Hoth2 & Hkeys2 & _).
    { apply (wf_nodup w1 Hwf1 c d1 Hd1). }
    { intros ax [v Hv]%elem_of_dict_keys. rewrite Hv. f_equal.
      by eapply Hnone1. }
    rewrite (bind_ok _ _ _ _ _ Hrun). simpl. split_and!.
    + by apply (lines_wf_proper w2).
    + destruct Hreg1 as (? & ? & ?), Hreg2 as (? & ? & ?).
      split_and!; simpl; congruence.
    + intros c'. unfold artifact_map at 1. simpl. fold (artifact_map c' w2).
      rewrite <- Hdom1. destruct (decide (c' = c)) as [->|Hne].
      * rewrite Hd1, Hd2. split; eauto.
      * by rewrite Hoth2.
    + intros c' d0 Hd0. unfold artifact_map at 1. simpl.
      fold (artifact_map c' w2).
      destruct (Hmaps1 _ _ Hd0) as (d' & Hd' & Hk').
      destruct (decide (c' = c)) as [->|Hne].
      * exists d2. split; [done|]. rewrite Hkeys2. congruence.
      * exists d'. by rewrite Hoth2.
  - rewrite on_mouse_move_no_session by done. simpl. split_and!; try done.
    intros c d ->. by exists d.
Qed.

(** ** Subscriptions *)

Lemma listeners_subscriptions_on c s w :
  listeners c s w =
    filter (fun sub => sub_signal sub = s) (subscriptions_on c w).
Proof.
  unfold listeners, subscriptions_on. rewrite list_filter_filter.
  apply list_filter_iff. intros sub. tauto.
Qed.

Lemma subscriptions_on_disconnect c cid c' (l : list Subscription) :
  filter (fun sub => sub_canvas sub = c')
    (filter (fun s => ~ (sub_canvas s = c /\ sub_cid s = cid)) l) =
  if decide (c' = c)
  then filter (fun s => sub_cid s <> cid)
         (filter (fun sub => sub_canvas sub = c) l)
  else filter (fun sub => sub_canvas sub = c') l.
Proof.
  destruct (decide (c' = c)) as [->|Hne]; rewrite !list_filter_filter;
    apply list_filter_iff; intros sub; [tauto|].
  split; [tauto|]. intros Hc. split; [done|]. intros [? _]. congruence.
Qed.

Lemma subscriptions_on_connect c s f c' w :
  subscriptions_on c' (mpl_connect c s f w).1 =
  if decide (c' = c)
  then subscriptions_on c w ++ [mkSub c (next_cid w) s f]
  else subscriptions_on c' w.
Proof.
  unfold subscriptions_on. simpl. rewrite filter_app.
  destruct (decide (c' = c)) as [->|Hne].
  - by rewrite filter_cons_True.
  - rewrite filter_cons_False; [|simpl; congruence].
    by rewrite app_nil_r.
Qed.

(** ** [on_close] *)

Lemma delete_session_wf c w d :
  lines_wf w -> artifact_map c w = Some d -> all_none d ->
  lines_wf (set_lines_dict (delete c) w).
Proof.
  intros Hwf Hd Hnone.
  assert (forall c' d', artifact_map c' (set_lines_dict (delete c) w) = Some d' ->
            c' <> c /\ artifact_map c' w = Some d') as Hmap.
  { intros c' d'. unfold artifact_map. simpl.
    by intros [? ?]%lookup_delete_Some. }
  assert (forall c' ax l, records (set_lines_dict (delete c) w) c' ax l ->
            records w c' ax l) as Hrec.
  { intros c' ax l (d' & [_ Hd']%Hmap & Hg). by exists d'. }
  split.
  - intros c' d' [_ Hd']%Hmap. apply (wf_nodup w Hwf _ _ Hd').
  - intros c' ax l H%Hrec. apply (wf_attached w Hwf _ _ _ H).
  - intros c1 ax1 c2 ax2 l H1%Hrec H2%Hrec.
    apply (wf_owner w Hwf _ _ _ _ _ H1 H2).
  - intros l L HL. destruct (wf_recorded w Hwf l L HL) as (c' & d' & Hd' & Hg).
    exists c', d'. split; [|done]. unfold artifact_map. simpl.
    apply lookup_delete_Some. split; [|done]. intros <-.
    rewrite Hd in Hd'. injection Hd' as <-. by apply Hnone in Hg.
  - apply (wf_fresh w Hwf).
Qed.

Lemma on_close_inactive ev w :
  tokens (event_canvas ev) w = None -> on_close ev w = (w, Ok tt).
Proof.
  unfold tokens, on_close. intros Ht. unfold bind at 1, gets. by rewrite Ht.
Qed.

Lemma on_close_active ev w d :
  wf w -> artifact_map (event_canvas ev) w = Some d ->
  exists w',
    on_close ev w = (w', Ok tt) /\ wf w' /\
    inactive (event_canvas ev) w' /\ subscriptions_on (event_canvas ev) w' = [] /\
    all_removed d w' /\
    (forall c', c' <> event_canvas ev ->
       tokens c' w' = tokens c' w /\ artifact_map c' w' = artifact_map c' w /\
       subscriptions_on c' w' = subscriptions_on c' w) /\
    (forall l L, artists w' !! l = Some L -> artists w !! l = Some L) /\
    next_cid w' = next_cid w.
Proof.
  set (c := event_canvas ev). intros (Hlwf & Hswf & Hdom) Hd.
  assert (is_Some (tokens c w)) as [[m cl] Ht] by (apply Hdom; eauto).
  pose proof (Hswf c) as Hsub. rewrite Ht in Hsub.
  destruct Hsub as (conv & kw & Hsub).
  set (w0 := set_cid_dict (delete c)
         (set_callbacks (filter (fun s => ~ (sub_canvas s = c /\ sub_cid s = cl)))
            (set_callbacks
               (filter (fun s => ~ (sub_canvas s = c /\ sub_cid s = m))) w))).
  assert (lines_wf w0) as Hlwf0 by (by apply (lines_wf_proper w)).
  assert (artifact_map c w0 = Some d) as Hd0 by done.
  destruct (remove_lines_ok c w0 d Hlwf0 Hd0) as
    (w1 & d1 & Hrm & Hwf1 & Hreg1 & Hcnt1 & Hd1 & Hoth1 & Hkeys1 & _ &
     Hnone1 & Hrem1 & Harts1).
  exists (set_lines_dict (delete c) w1).
  assert (forall c', subscriptions_on c' (set_lines_dict (delete c) w1) =
            if decide (c' = c) then [] else subscriptions_on c' w) as Hsubs.
  { intros c'. unfold subscriptions_on. simpl.
    destruct Hreg1 as (-> & _ & _). simpl.
    destruct (decide (c' = c)) as [->|Hne].
    2: { rewrite !subscriptions_on_disconnect. by rewrite !decide_False. }
    rewrite subscriptions_on_disconnect, decide_True by done.
    rewrite subscriptions_on_disconnect, decide_True by done.
    fold (subscriptions_on c w). rewrite Hsub.
    destruct (decide (m = cl)) as [->|Hmcl].
    - rewrite !filter_cons_False by (simpl; tauto). done.
    - rewrite (filter_cons_False _ (mkSub c m _ _)) by (simpl; tauto).
      rewrite (filter_cons_True _ (mkSub c cl _ _)) by (simpl; congruence).
      rewrite filter_nil. rewrite filter_cons_False by (simpl; tauto). done. }
  assert (forall c', tokens c' (set_lines_dict (delete c) w1) =
            if decide (c' = c) then None else tokens c' w) as Htok.
  { intros c'. unfold tokens. simpl. destruct Hreg1 as (_ & _ & ->). simpl.
    destruct (decide (c' = c)) as [->|Hne].
    - by rewrite lookup_delete_eq.
    - by rewrite lookup_delete_ne. }
  assert (forall c', artifact_map c' (set_lines_dict (delete c) w1) =
            if decide (c' = c) then None else artifact_map c' w) as Hmap.
  { intros c'. unfold artifact_map at 1. simpl.
    destruct (decide (c' = c)) as [->|Hne].
    - by rewrite lookup_delete_eq.
    - rewrite lookup_delete_ne by done. fold (artifact_map c' w1).
      by rewrite Hoth1. }
  split_and!.
  - unfold on_close. fold c. unfold bind at 1, gets.
    unfold tokens in Ht. rewrite Ht. simpl.
    unfold bind at 1. unfold unregister_event, mpl_disconnect, modify. simpl.
    unfold bind at 1. unfold bind at 1. fold w0.
    unfold bind at 1. unfold lines_lookup.
    unfold artifact_map in Hd0. rewrite Hd0.
    rewrite (bind_ok _ _ _ _ _ Hrm).
    unfold bind at 1. unfold artifact_map in Hd1. by rewrite Hd1.
  - split_and!.
    + by apply (delete_session_wf c w1 d1).
    + intros c'. rewrite Htok, Hsubs.
      destruct (decide (c' = c)) as [->|Hne]; [done|]. apply Hswf.
    + intros c'. rewrite Htok, Hmap.
      destruct (decide (c' = c)) as [->|Hne]; [|apply Hdom].
      split; by intros [? ?].
  - unfold inactive, move_subscriptions, close_subscriptions.
    rewrite !listeners_subscriptions_on, Hsubs, Hmap, Htok.
    by rewrite !decide_True.
  - rewrite Hsubs. by rewrite decide_True.
  - done.
  - intros c' Hne. rewrite Htok, Hmap, Hsubs. by rewrite !decide_False.
  - intros l L HL. by apply Harts1 in HL.
  - simpl. by destruct Hreg1 as (_ & -> & _).
Qed.

Lemma tokens_None c w :
  wf w -> artifact_map c w = None -> tokens c w = None.
Proof.
  intros (_ & _ & Hdom) Hd. apply eq_None_not_Some.
  intros H%Hdom. rewrite Hd in H. by destruct H.
Qed.

Lemma on_close_wf ev w :
  wf w ->
  exists w', on_close ev w = (w', Ok tt) /\ wf w' /\
    inactive (event_canvas ev) w' /\
    subscriptions_on (event_canvas ev) w' = [] /\
    (forall c', c' <> event_canvas ev ->
       tokens c' w' = tokens c' w /\ artifact_map c' w' = artifact_map c' w /\
       subscriptions_on c' w' = subscriptions_on c' w) /\
    (forall l L, artists w' !! l = Some L -> artists w !! l = Some L) /\
    next_cid w' = next_cid w.
Proof.
  intros Hwf. destruct (artifact_map (event_canvas ev) w) as [d|] eqn:Hd.
  - destruct (on_close_active ev w d Hwf Hd) as (w' & H).
    exists w'. tauto.
  - pose proof Hwf as (_ & Hswf & Hdom).
    assert (tokens (event_canvas ev) w = None) as Ht
      by (by apply tokens_None).
    exists w. rewrite on_close_inactive by done.
    pose proof (Hswf (event_canvas ev)) as Hsub. rewrite Ht in Hsub.
    split_and!; try done.
    unfold inactive, move_subscriptions, close_subscriptions.
    by rewrite !listeners_subscriptions_on, Hsub.
Qed.

(** ** [add_mouse_tracking_vertical_line] *)

Lemma fresh_lines_dict_keys to_axes ax :
  ax ∈ dict_keys (fresh_lines_dict to_axes) <-> Some ax ∈ to_axes.
Proof.
  unfold fresh_lines_dict.
  destruct (dict_keys_fold_set (V := option nat) (omap id to_axes) None [])
    as [_ Hiff]; [constructor|].
  rewrite Hiff, list_elem_of_omap. split.
  - intros [[]%elem_of_nil|(o & Ho & Hid)]. simpl in Hid. by subst.
  - intros H. right. by exists (Some ax).
Qed.

Lemma fresh_lines_dict_NoDup to_axes :
  NoDup (dict_keys (fresh_lines_dict to_axes)).
Proof.
  unfold fresh_lines_dict.
  by destruct (dict_keys_fold_set (V := option nat) (omap id to_axes) None [])
    as [? _]; [constructor|].
Qed.

Lemma fresh_lines_dict_none to_axes : all_none (fresh_lines_dict to_axes).
Proof.
  intros ax v. unfold fresh_lines_dict. rewrite dict_get_fold_set.
  destruct (decide _); simpl; congruence.
Qed.

Lemma insert_session_wf c w d :
  lines_wf w -> artifact_map c w = None -> NoDup (dict_keys d) ->
  all_none d -> lines_wf (set_lines_dict (insert c d) w).
Proof.
  intros Hwf Hc Hnd Hnone.
  assert (forall c' ax l, records (set_lines_dict (insert c d) w) c' ax l <->
            records w c' ax l) as Hrec.
  { intros c' ax l. unfold records, artifact_map in *. simpl.
    destruct (decide (c' = c)) as [->|Hne].
    - rewrite lookup_insert_eq, Hc. split.
      + intros (d' & [= <-] & Hg). by apply Hnone in Hg.
      + by intros (d' & ? & _).
    - by rewrite lookup_insert_ne. }
  split.
  - intros c' d'. unfold artifact_map. simpl.
    intros [[_ <-]|[_ Hd']]%lookup_insert_Some; [done|].
    apply (wf_nodup w Hwf _ _ Hd').
  - intros c' ax l H%Hrec. apply (wf_attached w Hwf _ _ _ H).
  - intros c1 ax1 c2 ax2 l H1%Hrec H2%Hrec.
    apply (wf_owner w Hwf _ _ _ _ _ H1 H2).
  - intros l L HL. destruct (wf_recorded w Hwf l L HL) as (c' & Hc').
    exists c'. by apply Hrec.
  - apply (wf_fresh w Hwf).
Qed.

Lemma add_disable fig conv kw w :
  add_mouse_tracking_vertical_line fig None conv kw w =
    on_close (CloseEvent (canvas fig)) w.
Proof.
  unfold add_mouse_tracking_vertical_line, bind.
  by destruct (on_close _ w) as [w' [[]|e]].
Qed.

Lemma add_enable fig a conv kw w :
  wf w ->
  exists w0 w',
    on_close (CloseEvent (canvas fig)) w = (w0, Ok tt) /\
    inactive (canvas fig) w0 /\
    add_mouse_tracking_vertical_line fig (Some a) conv kw w = (w', Ok tt) /\
    wf w' /\
    artifact_map (canvas fig) w' = Some (fresh_lines_dict (to_tuple a)) /\
    tokens (canvas fig) w' = Some (next_cid w, S (next_cid w)) /\
    subscriptions_on (canvas fig) w' =
      [mkSub (canvas fig) (next_cid w) (Event_value MOUSE_MOVE)
             (on_mouse_move_closure conv kw);
       mkSub (canvas fig) (S (next_cid w)) (Event_value CLOSE)
             on_close_closure] /\
    (forall c', c' <> canvas fig ->
       tokens c' w' = tokens c' w /\ artifact_map c' w' = artifact_map c' w /\
       subscriptions_on c' w' = subscriptions_on c' w) /\
    (forall l L, artists w' !! l = Some L -> artists w !! l = Some L).
Proof.
  intros Hwf. set (c := canvas fig).
  destruct (on_close_wf (CloseEvent c) w Hwf) as
    (w0 & Hcl & (Hlwf0 & Hswf0 & Hdom0) & Hin0 & Hsub0 & Hoth0 & Harts0 &
     Hcid).
  simpl in *. pose proof Hin0 as (_ & _ & Hmap0 & Htok0).
  eexists w0, _. split; [done|]. split; [done|]. split.
  { unfold add_mouse_tracking_vertical_line. fold c.
    rewrite (bind_ok _ _ _ _ _ Hcl). reflexivity. }
  simpl. rewrite Hcid.
  assert (forall c' s f w1, subscriptions_on c'
      (set_cid_dict s (set_next_cid f w1)) = subscriptions_on c' w1) as Hs1
    by done.
  split_and!.
  - split_and!.
    + apply (lines_wf_proper (set_lines_dict (insert c
               (fresh_lines_dict (to_tuple a))) w0)); try done.
      apply insert_session_wf; try done.
      * apply fresh_lines_dict_NoDup.
      * apply fresh_lines_dict_none.
    + intros c'. unfold tokens, subscriptions_on. simpl.
      rewrite !filter_app. fold (subscriptions_on c' w0).
      destruct (decide (c' = c)) as [->|Hne].
      * rewrite lookup_insert_eq. exists conv, kw.
        rewrite Hsub0. by rewrite !filter_cons_True.
      * rewrite lookup_insert_ne by done.
        rewrite !filter_cons_False by (simpl; intros Heq; by apply Hne).
        rewrite !app_nil_r. apply Hswf0.
    + intros c'. unfold tokens, artifact_map. simpl.
      destruct (decide (c' = c)) as [->|Hne].
      * rewrite !lookup_insert_eq. split; eauto.
      * rewrite !lookup_insert_ne by done. apply Hdom0.
  - unfold artifact_map. simpl. by rewrite lookup_insert_eq.
  - unfold tokens. simpl. by rewrite lookup_insert_eq.
  - unfold subscriptions_on. simpl. rewrite !filter_app.
    fold (subscriptions_on c w0). rewrite Hsub0.
    by rewrite !filter_cons_True.
  - intros c' Hne. destruct (Hoth0 c' Hne) as (Ht & Hm & Hs).
    unfold tokens, artifact_map, subscriptions_on in *. simpl.
    rewrite !lookup_insert_ne by done. rewrite !filter_app.
    rewrite !filter_cons_False by (simpl; intros Heq; by apply Hne).
    rewrite !app_nil_r. done.
  - done.
Qed.

(** ** Event delivery *)

Lemma bind_ret_tt {S} (m : M S unit) s : bind m (fun _ => ret tt) s = m s.
Proof. unfold bind. by destruct (m s) as [s' [[]|e]]. Qed.

Lemma process_inactive ev w :
  wf w -> tokens (event_canvas ev) w = None -> process ev w = (w, Ok tt).
Proof.
  intros (_ & Hswf & _) Ht. unfold process.
  rewrite listeners_subscriptions_on.
  pose proof (Hswf (event_canvas ev)) as Hsub. rewrite Ht in Hsub.
  by rewrite Hsub.
Qed.

Lemma process_active ev w mouse_cid close_cid :
  wf w -> tokens (event_canvas ev) w = Some (mouse_cid, close_cid) ->
  exists conv kw,
    subscriptions_on (event_canvas ev) w =
      [mkSub (event_canvas ev) mouse_cid (Event_value MOUSE_MOVE)
             (on_mouse_move_closure conv kw);
       mkSub (event_canvas ev) close_cid (Event_value CLOSE)
             on_close_closure] /\
    process ev w =
      match ev with
      | MouseEvent _ _ => on_mouse_move conv kw ev w
      | CloseEvent _ => on_close ev w
      end.
Proof.
  intros (_ & Hswf & _) Ht.
  pose proof (Hswf (event_canvas ev)) as Hsub. rewrite Ht in Hsub.
  destruct Hsub as (conv & kw & Hsub). exists conv, kw. split; [done|].
  unfold process. rewrite listeners_subscriptions_on, Hsub.
  destruct ev as [c x|c]; simpl; apply bind_ret_tt.
Qed.

Lemma on_mouse_move_wf_full conv kw ev w :
  wf w -> wf (on_mouse_move conv kw ev w).1.
Proof.
  intros (Hlwf & Hswf & Hdom).
  destruct (on_mouse_move_wf conv kw ev w Hlwf) as
    (Hlwf' & (Hcb & _ & Hcid) & Hsome & _).
  split_and!; [done| |].
  - intros c. unfold tokens, subscriptions_on. rewrite Hcb, Hcid. apply Hswf.
  - intros c. rewrite Hsome. unfold tokens. rewrite Hcid. apply Hdom.
Qed.

Lemma process_wf ev w : wf w -> wf (process ev w).1.
Proof.
  intros Hwf. destruct (tokens (event_canvas ev) w) as [[m cl]|] eqn:Ht.
  - destruct (process_active ev w m cl Hwf Ht) as (conv & kw & _ & ->).
    destruct ev as [c x|c].
    + by apply on_mouse_move_wf_full.
    + destruct (on_close_wf (CloseEvent c) w Hwf) as (w' & -> & ? & _). done.
  - by rewrite process_inactive.
Qed.

Lemma perform_wf a w : wf w -> wf (perform a w).1.
Proof.
  intros Hwf. destruct a as [fig [a|] conv kw|ev]; simpl.
  - destruct (add_enable fig a conv kw w Hwf) as
      (w0 & w' & _ & _ & -> & ? & _). done.
  - rewrite add_disable.
    destruct (on_close_wf (CloseEvent (canvas fig)) w Hwf) as
      (w' & -> & ? & _). done.
  - by apply process_wf.
Qed.

Lemma empty_world_wf : wf empty_world.
Proof.
  split_and!.
  - split.
    + intros c d. unfold artifact_map. simpl. by rewrite lookup_empty.
    + intros c ax l (d & Hd & _). unfold artifact_map in Hd. simpl in Hd.
      by rewrite lookup_empty in Hd.
    + intros c1 ax1 c2 ax2 l (d & Hd & _). unfold artifact_map in Hd.
      simpl in Hd. by rewrite lookup_empty in Hd.
    + intros l L. simpl. by rewrite lookup_empty.
    + intros l. simpl. rewrite lookup_empty. by intros [? ?].
  - intros c. unfold tokens. simpl. by rewrite lookup_empty.
  - intros c. unfold tokens, artifact_map. simpl. by rewrite !lookup_empty.
Qed.

Lemma run_app acts1 acts2 w : run (acts1 ++ acts2) w = run acts2 (run acts1 w).
Proof. unfold run. apply fold_left_app. Qed.

Lemma run_wf acts : forall w, wf w -> wf (run acts w).
Proof.
  induction acts as [|a acts IH]; intros w Hwf; [done|].
  simpl. apply IH. by apply perform_wf.
Qed.

Lemma reachable_wf acts : wf (run acts empty_world).
Proof. apply run_wf, empty_world_wf. Qed.

(** ** The session state machine *)

Lemma wf_active c w :
  wf w -> is_Some (artifact_map c w) -> active c w.
Proof.
  intros (Hlwf & Hswf & Hdom) Hd.
  assert (is_Some (tokens c w)) as [[m cl] Ht] by (by apply Hdom).
  pose proof (Hswf c) as Hsub. rewrite Ht in Hsub.
  destruct Hsub as (conv & kw & Hsub). by exists m, cl, conv, kw.
Qed.

Lemma active_map c w : active c w -> is_Some (artifact_map c w).
Proof. by intros (? & ? & ? & ? & _ & _ & ?). Qed.

Lemma subscription_bounds c w :
  wf w ->
  length (move_subscriptions c w) <= 1 /\
  length (close_subscriptions c w) <= 1.
Proof.
  intros (_ & Hswf & _). unfold move_subscriptions, close_subscriptions.
  rewrite !listeners_subscriptions_on.
  pose proof (Hswf c) as Hsub.
  destruct (tokens c w) as [[m cl]|].
  - destruct Hsub as (conv & kw & ->). split.
    + rewrite filter_cons_True by done. rewrite filter_cons_False by done.
      simpl. lia.
    + rewrite filter_cons_False by done. rewrite filter_cons_True by done.
      simpl. lia.
  - rewrite Hsub. simpl. lia.
Qed.

Lemma active_subscriptions c w :
  active c w ->
  length (move_subscriptions c w) = 1 /\
  length (close_subscriptions c w) = 1.
Proof.
  intros (m & cl & conv & kw & _ & Hsub & _).
  unfold move_subscriptions, close_subscriptions.
  rewrite !listeners_subscriptions_on, Hsub. split.
  - rewrite filter_cons_True by done. by rewrite filter_cons_False.
  - rewrite filter_cons_False by done. by rewrite filter_cons_True.
Qed.



Lemma enable_stages_last fig a conv kw w :
  wf w ->
  last (enable_stages fig a conv kw w) =
    Some (add_mouse_tracking_vertical_line fig (Some a) conv kw w).1.
Proof.
  intros Hwf.
  destruct (on_close_wf (CloseEvent (canvas fig)) w Hwf) as (w0 & Hcl & _).
  unfold enable_stages, add_mouse_tracking_vertical_line.
  rewrite (bind_ok _ _ _ _ _ Hcl), Hcl. reflexivity.
Qed.

Lemma enable_stages_bounds fig a conv kw w c :
  wf w ->
  Forall (fun w' => length (move_subscriptions c w') <= 1 /\
                    length (close_subscriptions c w') <= 1)
         (enable_stages fig a conv kw w).
Proof.
  intros Hwf.
  destruct (on_close_wf (CloseEvent (canvas fig)) w Hwf) as
    (w0 & Hcl & Hwf0 & _ & Hsub0 & _). simpl in Hsub0.
  unfold enable_stages. rewrite Hcl. simpl.
  pose proof (subscription_bounds c w0 Hwf0) as Hb0.
  unfold move_subscriptions, close_subscriptions in *.
  rewrite !listeners_subscriptions_on in Hb0.
  repeat apply Forall_cons_2; try apply Forall_nil_2;
    rewrite !listeners_subscriptions_on; unfold subscriptions_on; simpl;
    rewrite ?filter_app; fold (subscriptions_on c w0); try done.
  all: destruct (decide (c = canvas fig)) as [->|Hne];
    [ rewrite Hsub0, ?filter_cons_True by done; simpl;
      rewrite ?filter_cons_True, ?filter_cons_False by done; simpl; lia
    | rewrite ?filter_cons_False by (simpl; intros Heq; by apply Hne);
      rewrite ?filter_nil, ?app_nil_r; done ].
Qed.

(** C4: in every state the controller can be in, whatever calls and events
    led to it, a canvas has at most one move subscription and at most one
    close subscription. A call with Axes first brings the canvas to the
    inactive state (the fake close event removes the subscriptions of the
    old session), then registers: the bound holds in every state the call
    goes through, and the call ends with exactly one subscription of each
    kind. *)
Theorem at_most_one_subscription acts :
  let w := run acts empty_world in
  (forall c, length (move_subscriptions c w) <= 1 /\
             length (close_subscriptions c w) <= 1) /\
  (forall fig a conv kw,
     let stages := enable_stages fig a conv kw w in
     let w' := (add_mouse_tracking_vertical_line fig (Some a) conv kw w).1 in
     (exists w0, head stages = Some w0 /\ inactive (canvas fig) w0) /\
     last stages = Some w' /\
     (forall c, Forall (fun s => length (move_subscriptions c s) <= 1 /\
                                 length (close_subscriptions c s) <= 1)
                       stages) /\
     length (move_subscriptions (canvas fig) w') = 1 /\
     length (close_subscriptions (canvas fig) w') = 1).
Proof.
  intros w. assert (wf w) as Hwf by apply reachable_wf. split.
  - intros c. by apply subscription_bounds.
  - intros fig a conv kw stages w'. split_and!.
    + destruct (on_close_wf (CloseEvent (canvas fig)) w Hwf) as
        (w0 & Hcl & _ & Hin & _).
      exists w0. split; [|done]. unfold stages, enable_stages.
      by rewrite Hcl.
    + by apply enable_stages_last.
    + intros c. by apply enable_stages_bounds.
    + destruct (add_enable fig a conv kw w Hwf) as
        (w0 & w1 & _ & _ & Hadd & Hwf' & Hmap & _).
      unfold w'. rewrite Hadd. simpl. apply active_subscriptions.
      apply wf_active; [done|]. rewrite Hmap. eauto.
    + destruct (add_enable fig a conv kw w Hwf) as
        (w0 & w1 & _ & _ & Hadd & Hwf' & Hmap & _).
      unfold w'. rewrite Hadd. simpl. apply active_subscriptions.
      apply wf_active; [done|]. rewrite Hmap. eauto.
Qed.

(** C5: when the canvas has an active session, delivering one close event
    succeeds and leaves no subscription of the canvas, no token pair, no
    artifact map, and none of the recorded line artifacts attached. The
    cleanup is idempotent: a second close event, or a direct call of
    [on_close], changes nothing and raises nothing; the same holds for a
    canvas that never had a session. *)
Theorem close_event_purges_session acts c :
  let w := run acts empty_world in
  (active c w ->
   exists d w',
     artifact_map c w = Some d /\
     process (CloseEvent c) w = (w', Ok tt) /\
     subscriptions_on c w' = [] /\ inactive c w' /\ all_removed d w' /\
     process (CloseEvent c) w' = (w', Ok tt) /\
     on_close (CloseEvent c) w' = (w', Ok tt)) /\
  (inactive c w ->
   process (CloseEvent c) w = (w, Ok tt) /\
   on_close (CloseEvent c) w = (w, Ok tt)).
Proof.
  intros w. assert (wf w) as Hwf by apply reachable_wf. split.
  - intros Hact. pose proof Hact as (m & cl & _ & _ & Ht & _).
    destruct (active_map c w Hact) as [d Hd].
    destruct (process_active (CloseEvent c) w m cl Hwf Ht) as
      (conv & kw & _ & Hproc).
    destruct (on_close_active (CloseEvent c) w d Hwf Hd) as
      (w' & Hcl & Hwf' & Hin & Hsub & Hrem & _).
    simpl in *. exists d, w'. pose proof Hin as (_ & _ & _ & Ht').
    split_and!; try done.
    + by rewrite Hproc.
    + by apply process_inactive.
    + by apply on_close_inactive.
  - intros (_ & _ & _ & Ht). split.
    + by apply process_inactive.
    + by apply on_close_inactive.
Qed.

(** C6: in every consistent state in which the canvas has an active
    session, whatever is drawn there (every state that calls and events can
    reach is such a state), a move event without a pointer coordinate is
    handled without error: every line artifact the session records, which
    was attached before, is detached; no artifact is made; every entry of
    the artifact map is empty while the tracked Axes stay the same; and the
    session stays active with its subscriptions and token pair untouched. *)
Theorem move_without_coordinate c w :
  wf w -> active c w ->
  exists d w' d',
    artifact_map c w = Some d /\
    process (MouseEvent c None) w = (w', Ok tt) /\
    (forall conv kw, on_mouse_move conv kw (MouseEvent c None) w = (w', Ok tt)) /\
    (forall ax l, dict_get d ax = Some (Some l) ->
       (exists L, artists w !! l = Some L /\ line_axes L = ax) /\
       artists w' !! l = None) /\
    (forall l L, artists w' !! l = Some L -> artists w !! l = Some L) /\
    artifact_map c w' = Some d' /\ all_none d' /\
    dict_keys d' ≡ₚ dict_keys d /\
    active c w' /\ same_registry w w' /\
    (forall acts, wf (run acts empty_world)).
Proof.
  intros Hwf Hact.
  pose proof Hact as (m & cl & conv0 & kw0 & Ht & Hsub & Hd).
  destruct Hd as [d Hd]. pose proof Hwf as (Hlwf & _).
  destruct (remove_lines_ok c w d Hlwf Hd) as
    (w1 & d1 & Hrm & Hwf1 & Hreg1 & Hcnt1 & Hd1 & Hoth1 & Hkeys1 & _ &
     Hnone1 & Hrem1 & Hsub1).
  assert (forall conv kw, on_mouse_move conv kw (MouseEvent c None) w
            = (w1, Ok tt)) as Hmv.
  { intros conv kw.
    by rewrite (on_mouse_move_unfold conv kw (MouseEvent c None) w w1 d d1). }
  exists d, w1, d1. split_and!; try done.
  - destruct (process_active (MouseEvent c None) w m cl Hwf Ht) as
      (conv & kw & _ & ->). apply Hmv.
  - intros ax l Hl. split; [|by apply (Hrem1 ax)].
    apply (wf_attached w Hlwf c ax l). by exists d.
  - destruct Hreg1 as (Hcb & _ & Hcid).
    exists m, cl, conv0, kw0. unfold tokens, subscriptions_on.
    rewrite Hcb, Hcid. split_and!; [done..|]. rewrite Hd1. eauto.
  - apply reachable_wf.
Qed.

(** C8: when the session of the canvas was enabled with a converter [f], a
    move event with coordinate [x] first clears all recorded artifacts,
    then calls [f x], then draws. If [f x] raises, the exception is the
    outcome of the delivery, and the state left behind is the cleared one:
    no recorded artifact attached, every map entry empty, the session still
    active with its subscriptions and token pair. If [f x] returns, one line
    per tracked Axes is drawn from the cleared state. *)
Theorem converter_fault acts c mouse_cid close_cid f kw x :
  let w := run acts empty_world in
  tokens c w = Some (mouse_cid, close_cid) ->
  subscriptions_on c w =
    [mkSub c mouse_cid (Event_value MOUSE_MOVE)
           (on_mouse_move_closure (Some f) kw);
     mkSub c close_cid (Event_value CLOSE) on_close_closure] ->
  exists d w1 d1,
    artifact_map c w = Some d /\
    remove_lines c w = (w1, Ok tt) /\
    all_removed d w1 /\
    artifact_map c w1 = Some d1 /\ all_none d1 /\
    dict_keys d1 ≡ₚ dict_keys d /\
    active c w1 /\ same_registry w w1 /\
    process (MouseEvent c (Some x)) w =
      match f x with
      | Raise e => (w1, Raise e)
      | Ok x' => (draw_lines c (dict_keys d1) x' kw ;;; draw_idle c) w1
      end.
Proof.
  intros w Ht Hsub. assert (wf w) as Hwf by apply reachable_wf.
  pose proof Hwf as (Hlwf & _ & Hdom).
  assert (is_Some (artifact_map c w)) as [d Hd] by (apply Hdom; eauto).
  destruct (remove_lines_ok c w d Hlwf Hd) as
    (w1 & d1 & Hrm & Hwf1 & Hreg1 & Hcnt1 & Hd1 & Hoth1 & Hkeys1 & _ &
     Hnone1 & Hrem1 & _).
  exists d, w1, d1. split_and!; try done.
  - destruct Hreg1 as (Hcb & _ & Hcid).
    exists mouse_cid, close_cid, (Some f), kw. unfold tokens, subscriptions_on.
    rewrite Hcb, Hcid. split_and!; [done..|]. rewrite Hd1. eauto.
  - destruct (process_active (MouseEvent c (Some x)) w _ _ Hwf Ht) as
      (conv & kw' & Hsub' & ->). simpl in Hsub'.
    rewrite Hsub in Hsub'. injection Hsub' as <- <-.
    by rewrite (on_mouse_move_unfold (Some f) kw (MouseEvent c (Some x))
                  w w1 d d1).
Qed.

(** ** Tracked Axes and their artifacts *)

Lemma perform_keeps c a w d :
  wf w -> keeps_session c a = true -> artifact_map c w = Some d ->
  exists d', artifact_map c (perform a w).1 = Some d' /\
             dict_keys d' ≡ₚ dict_keys d.
Proof.
  intros Hwf Hk Hd. destruct a as [fig [a|] conv kw|[c' x|c']]; simpl in *.
  - apply negb_true_iff, bool_decide_eq_false in Hk.
    destruct (add_enable fig a conv kw w Hwf) as
      (w0 & w' & _ & _ & -> & _ & _ & _ & _ & Hoth & _).
    simpl. destruct (Hoth c) as (_ & -> & _); [done|]. by exists d.
  - apply negb_true_iff, bool_decide_eq_false in Hk. rewrite add_disable.
    destruct (on_close_wf (CloseEvent (canvas fig)) w Hwf) as
      (w' & -> & _ & _ & _ & Hoth & _).
    simpl. destruct (Hoth c) as (_ & -> & _); [done|]. by exists d.
  - destruct (tokens c' w) as [[m cl]|] eqn:Ht.
    + destruct (process_active (MouseEvent c' x) w m cl Hwf Ht) as
        (conv & kw & _ & ->).
      destruct Hwf as (Hlwf & _).
      destruct (on_mouse_move_wf conv kw (MouseEvent c' x) w Hlwf) as
        (_ & _ & _ & Hkeys).
      by apply Hkeys.
    + rewrite process_inactive by done. by exists d.
  - apply negb_true_iff, bool_decide_eq_false in Hk.
    destruct (tokens c' w) as [[m cl]|] eqn:Ht.
    + destruct (process_active (CloseEvent c') w m cl Hwf Ht) as
        (conv & kw & _ & ->).
      destruct (on_close_wf (CloseEvent c') w Hwf) as
        (w' & -> & _ & _ & _ & Hoth & _).
      simpl. destruct (Hoth c) as (_ & -> & _); [done|]. by exists d.
    + rewrite process_inactive by done. by exists d.
Qed.

Lemma run_keeps c acts : forall w d,
  wf w -> Forall (fun a => keeps_session c a = true) acts ->
  artifact_map c w = Some d ->
  exists d', artifact_map c (run acts w) = Some d' /\
             dict_keys d' ≡ₚ dict_keys d.
Proof.
  induction acts as [|a acts IH]; intros w d Hwf Hall Hd.
  - by exists d.
  - apply Forall_cons in Hall as [Ha Hall].
    destruct (perform_keeps c a w d Hwf Ha Hd) as (d1 & Hd1 & Hk1).
    destruct (IH _ d1 (perform_wf a w Hwf) Hall Hd1) as (d2 & Hd2 & Hk2).
    exists d2. split; [done|]. by rewrite Hk2.
Qed.

Lemma NoDup_same_length_le {A} (l : list A) :
  NoDup l -> (forall x y, x ∈ l -> y ∈ l -> x = y) -> length l <= 1.
Proof.
  intros Hnd Heq. destruct l as [|x [|y l]]; simpl; [lia..|].
  exfalso. apply NoDup_cons in Hnd as [Hx _]. apply Hx.
  rewrite (Heq x y); [by left|by left|]. right. by left.
Qed.

Lemma artifacts_on_recorded c ax w d l L :
  lines_wf w -> artifact_map c w = Some d -> tracked_only_by c ax w ->
  (l, L) ∈ artifacts_on ax w -> dict_get d ax = Some (Some l).
Proof.
  intros Hwf Hd Honly [Hax HL%elem_of_map_to_list]%list_elem_of_filter.
  simpl in Hax. destruct (wf_recorded w Hwf l L HL) as (c' & d' & Hd' & Hg).
  rewrite Hax in Hg. assert (c' = c) as ->.
  { apply (Honly c' d' Hd'). apply elem_of_dict_keys. eauto. }
  congruence.
Qed.

Lemma artifacts_on_le c ax w d :
  lines_wf w -> artifact_map c w = Some d -> tracked_only_by c ax w ->
  length (artifacts_on ax w) <= 1 /\
  (all_none d -> artifacts_on ax w = []).
Proof.
  intros Hwf Hd Honly. split.
  - apply NoDup_same_length_le.
    + apply NoDup_filter, NoDup_map_to_list.
    + intros [l1 L1] [l2 L2] H1 H2.
      pose proof (artifacts_on_recorded c ax w d l1 L1 Hwf Hd Honly H1) as E1.
      pose proof (artifacts_on_recorded c ax w d l2 L2 Hwf Hd Honly H2) as E2.
      assert (l1 = l2) as -> by congruence.
      apply list_elem_of_filter in H1 as [_ H1%elem_of_map_to_list].
      apply list_elem_of_filter in H2 as [_ H2%elem_of_map_to_list].
      congruence.
  - intros Hnone. apply elem_of_nil_inv. intros [l L] Hin.
    pose proof (artifacts_on_recorded c ax w d l L Hwf Hd Honly Hin) as E.
    by apply Hnone in E.
Qed.

(** C7, as stated, fails when two figures track the same Axes: each
    session draws its own line on it, so after a move over each figure the
    Axes carries two line artifacts at once, one per session. *)
Lemma shared_axis_two_artifacts :
  let w := run shared_axis_history empty_world in
  artifact_map 0 w = Some [(1, Some 0)] /\
  artifact_map 1 w = Some [(1, Some 1)] /\
  artists w !! 0 = Some (mkLine 1 5 []) /\
  artists w !! 1 = Some (mkLine 1 6 []) /\
  ~ (length (artifacts_on 1 w) <= 1).
Proof.
  vm_compute. split_and!; try reflexivity. intros Hle.
  apply Nat.leb_le in Hle. discriminate Hle.
Qed.

(** C7, amended: after a call that enables tracking of the Axes in [a] on a
    canvas, and through whatever follows short of closing or re-enabling
    that canvas, the artifact map of the canvas has exactly one entry for
    each tracked Axes and no other entry. Every line artifact on an Axes is
    recorded by the entry of a session that tracks the Axes, so an Axes
    carries at most one artifact per session, and an Axes tracked by this
    session alone has at most one. A move event first removes: from the
    state reached after [remove_lines], in which every entry is empty and a
    tracked Axes has no line artifact of the session left, the handler
    either returns, or raises, or draws one line per entry. *)
Theorem one_entry_per_tracked_axis acts fig a conv kw acts' :
  Forall (fun act => keeps_session (canvas fig) act = true) acts' ->
  let c := canvas fig in
  let w := run (acts ++ Enable fig (Some a) conv kw :: acts') empty_world in
  exists d,
    artifact_map c w = Some d /\
    NoDup (dict_keys d) /\
    (forall ax, ax ∈ dict_keys d <-> Some ax ∈ to_tuple a) /\
    (forall ax l L, (l, L) ∈ artifacts_on ax w ->
       exists c' d', artifact_map c' w = Some d' /\
                     dict_get d' ax = Some (Some l) /\
                     forall l', dict_get d' ax = Some (Some l') -> l' = l) /\
    (forall ax, tracked_only_by c ax w -> length (artifacts_on ax w) <= 1) /\
    exists w1 d1,
      remove_lines c w = (w1, Ok tt) /\
      artifact_map c w1 = Some d1 /\ all_none d1 /\
      dict_keys d1 ≡ₚ dict_keys d /\ all_removed d w1 /\
      (forall ax, tracked_only_by c ax w -> artifacts_on ax w1 = []) /\
      forall conv' kw' x,
        on_mouse_move conv' kw' (MouseEvent c x) w =
          match x with
          | None => (w1, Ok tt)
          | Some x =>
              match match conv' with Some f => f x | None => Ok x end with
              | Raise e => (w1, Raise e)
              | Ok x' => (draw_lines c (dict_keys d1) x' kw' ;;; draw_idle c) w1
              end
          end.
Proof.
  intros Hall c w.
  set (w0 := run acts empty_world).
  assert (wf w0) as Hwf0 by apply reachable_wf.
  destruct (add_enable fig a conv kw w0 Hwf0) as
    (wc & we & _ & _ & Hadd & Hwfe & Hmape & _).
  assert (w = run acts' we) as Hw.
  { unfold w. rewrite run_app. simpl. fold w0. by rewrite Hadd. }
  destruct (run_keeps c acts' we _ Hwfe Hall Hmape) as (d & Hd & Hkeys).
  rewrite <- Hw in Hd.
  assert (wf w) as Hwf by apply reachable_wf.
  pose proof Hwf as (Hlwf & _).
  exists d. split_and!.
  - done.
  - apply (wf_nodup w Hlwf c d Hd).
  - intros ax. rewrite Hkeys. apply fresh_lines_dict_keys.
  - intros ax l L Hin.
    apply list_elem_of_filter in Hin as [Hax Hin%elem_of_map_to_list].
    simpl in Hax.
    destruct (wf_recorded w Hlwf l L Hin) as (c' & d' & Hd' & Hrec).
    rewrite Hax in Hrec. exists c', d'. split_and!; [done..|].
    intros l' Hl'. congruence.
  - intros ax Honly. by apply (artifacts_on_le c ax w d).
  - destruct (remove_lines_ok c w d Hlwf Hd) as
      (w1 & d1 & Hrm & Hwf1 & Hreg1 & Hcnt1 & Hd1 & Hoth1 & Hkeys1 & _ &
       Hnone1 & Hrem1 & _).
    exists w1, d1. split_and!; try done.
    + intros ax Honly. apply (artifacts_on_le c ax w1 d1); try done.
      intros c' d' Hd' Hax. destruct (decide (c' = c)) as [|Hne]; [done|].
      rewrite Hoth1 in Hd' by done. by apply (Honly c' d').
    + intros conv' kw' x.
      by rewrite (on_mouse_move_unfold conv' kw' (MouseEvent c x) w w1 d d1).
Qed.

(** ** [legend] *)

Lemma legend_collect_spec axes_ : forall lines labels p,
  legend_collect axes_ lines labels p =
    (p, Ok (lines ++ concat (handles_of p axes_),
            labels ++ concat (labels_of p axes_))).
Proof.
  induction axes_ as [|axis rest IH]; intros lines labels p; simpl.
  - by rewrite !app_nil_r.
  - unfold bind at 1. unfold get_legend_handles_labels, gets.
    rewrite IH. by rewrite <- !(assoc_L (++)).
Qed.

Lemma LegendLocation_value_known l :
  LegendLocation_value l ∈ legend_locations.
Proof.
  unfold legend_locations.
  destruct l; simpl; repeat (first [by left | right]).
Qed.

(** C9: for a non-empty list of Axes and a location that is a member of
    [LegendLocation] or a string the library knows, [legend] succeeds; the
    legend it attaches to the first Axes holds the handles and the labels
    of all the Axes, concatenated in list order with the order inside each
    Axes kept; the number of labels is the sum of the label counts of the
    Axes; and the first Axes is the only object the call changes, so no
    other Axes is given a legend. A string that is no known location is
    passed on as it is and refused by the library: the call raises
    [ValueError] and attaches no legend. *)
Theorem legend_combines first rest loc fancybox framealpha p :
  valid_loc loc ->
  let axes_ := first :: rest in
  let combined :=
    mkLegend (concat (handles_of p axes_)) (concat (labels_of p axes_))
             (match loc with inl l => LegendLocation_value l | inr s => s end)
             fancybox framealpha in
  (exists p',
     legend axes_ loc fancybox framealpha p = (p', Ok tt) /\
     axes_objs p' first = with_legend (Some combined) (axes_objs p first) /\
     ax_legend (axes_objs p' first) = Some combined /\
     length (legend_labels combined) =
       sum_list (map (fun ax => length (ax_handles_labels (axes_objs p ax)).2)
                     axes_) /\
     (forall ax, ax <> first -> axes_objs p' ax = axes_objs p ax) /\
     next_axes p' = next_axes p /\ figure_objs p' = figure_objs p) /\
  (forall s, s ∉ legend_locations ->
     legend axes_ (inr s) fancybox framealpha p = (p, Raise ValueError)).
Proof.
  intros Hloc axes_ combined.
  assert ((match loc with inl l => LegendLocation_value l | inr s => s end)
            ∈ legend_locations) as Hin.
  { destruct loc as [l|s]; [apply LegendLocation_value_known|exact Hloc]. }
  split.
  - eexists. split.
    { unfold legend. unfold bind at 1. rewrite legend_collect_spec.
      unfold axes_. cbn [fst snd app]. unfold Axes_legend.
      rewrite bool_decide_eq_true_2 by exact Hin. reflexivity. }
    simpl. split_and!; try done.
    + by rewrite fn_lookup_alter.
    + by rewrite fn_lookup_alter.
    + rewrite length_app. f_equal. clear.
      induction rest as [|ax l IH]; [done|].
      simpl. rewrite length_app. by rewrite IH.
    + intros ax Hne. by rewrite fn_lookup_alter_ne.
  - intros s Hs. unfold legend. unfold bind at 1. rewrite legend_collect_spec.
    unfold axes_. cbn [fst snd app]. unfold Axes_legend.
    by rewrite bool_decide_eq_false_2.
Qed.

Lemma legend_combines_witness :
  valid_loc (inr "lower left") /\
  (exists p',
     legend [0; 1] (inr "lower left") (Some true) (Some (7 # 10))
            labelled_axes_plot = (p', Ok tt) /\
     ax_legend (axes_objs p' 0) =
       Some (mkLegend [10; 11; 12] ["a"; "b"; "c"] "lower left" (Some true)
                      (Some (7 # 10))) /\
     ax_legend (axes_objs p' 1) = None) /\
  legend [0; 1] (inr "middle") (Some true) (Some (7 # 10)) labelled_axes_plot
    = (labelled_axes_plot, Raise ValueError).
Proof.
  assert (valid_loc (inr "lower left")) as Hloc.
  { simpl. repeat constructor. }
  split; [exact Hloc|].
  destruct (legend_combines 0 [1] (inr "lower left") (Some true)
              (Some (7 # 10)) labelled_axes_plot Hloc)
    as [(p' & Hrun & _ & Hleg & _ & Hoth & _) Hbad].
  split.
  - exists p'. split_and!; [exact Hrun|exact Hleg|by rewrite Hoth].
  - apply Hbad. intros Hin. unfold legend_locations in Hin.
    repeat (apply elem_of_cons in Hin as [Hin|Hin]; [done|]).
    by apply elem_of_nil in Hin.
Defined.

(** C10: for the empty list of Axes, [legend] raises [IndexError] and
    leaves every object as it was: no legend is attached anywhere. *)
Theorem legend_empty_raises loc fancybox framealpha p :
  legend [] loc fancybox framealpha p = (p, Raise IndexError).
Proof. reflexivity. Qed.

(** ** [axes] *)

(** C2 fails on the code: with empty label collections on both sides (and
    likewise with both arguments left at [None]) [axes] raises nothing, but
    the list it returns is empty; the host Axes is not in it. *)
Theorem axes_empty_labels_returns_nil host_ax x_label offset p :
  (axes host_ax x_label (Some (label_coll [])) (Some (label_coll []))
        offset p).2 = Ok [] /\
  (axes host_ax x_label None None offset p).2 = Ok [].
Proof.
  unfold axes. split.
  - destruct x_label as [s|]; simpl; unfold bind; simpl;
      repeat case_match; simplify_eq/=; done.
  - destruct x_label as [s|]; simpl; unfold bind; simpl;
      repeat case_match; simplify_eq/=; done.
Qed.


Lemma same_spines_refl p : same_spines p p.
Proof. done. Qed.










(** *** The offsets *)




(** *** The whole function *)



Lemma axes_right_phase host_ax y_label_right offset p :
  (if truthy y_label_right
   then
     let y_label_right :=
       match y_label_right with
       | Some (label_str s) => [s]
       | Some (label_coll ls) => ls
       | None => []
       end in
     right_axes_loop host_ax offset 0 y_label_right []
   else ret []) p =
  right_axes_loop host_ax offset 0 (right_labels y_label_right) [] p.
Proof. unfold right_labels. by destruct (truthy y_label_right). Qed.


(** ** The theorems at sample inputs *)

Lemma sample_history_active : active 0 (run sample_history empty_world).
Proof.
  exists 0, 1, None, []. split_and!.
  - vm_compute. reflexivity.
  - vm_compute. reflexivity.
  - eexists. vm_compute. reflexivity.
Defined.

Lemma close_event_purges_session_witness :
  active 0 (run sample_history empty_world) /\
  exists d w',
    artifact_map 0 (run sample_history empty_world) = Some d /\
    process (CloseEvent 0) (run sample_history empty_world) = (w', Ok tt) /\
    subscriptions_on 0 w' = [] /\ inactive 0 w' /\ all_removed d w' /\
    process (CloseEvent 0) w' = (w', Ok tt) /\
    on_close (CloseEvent 0) w' = (w', Ok tt).
Proof.
  split; [exact sample_history_active|].
  exact (proj1 (close_event_purges_session sample_history 0)
               sample_history_active).
Defined.

Lemma move_without_coordinate_witness :
  let w := run sample_history empty_world in
  artifact_map 0 w = Some [(1, Some 0); (2, Some 1)] /\
  artists w !! 0 = Some (mkLine 1 5 []) /\
  artists w !! 1 = Some (mkLine 2 5 []) /\
  exists w' d',
    process (MouseEvent 0 None) w = (w', Ok tt) /\
    artists w' !! 0 = None /\ artists w' !! 1 = None /\
    artifact_map 0 w' = Some d' /\ all_none d' /\ active 0 w'.
Proof.
  intros w.
  destruct (move_without_coordinate 0 w (reachable_wf sample_history)
              sample_history_active) as
    (d & w' & d' & Hd & Hrun & _ & Hrem & _ & Hd' & Hnone & _ & Hact & _).
  assert (artifact_map 0 w = Some [(1, Some 0); (2, Some 1)]) as Hmap
    by (vm_compute; reflexivity).
  rewrite Hmap in Hd. injection Hd as <-.
  split_and!; [exact Hmap | vm_compute; reflexivity | vm_compute; reflexivity |].
  exists w', d'. split_and!; [exact Hrun | | | exact Hd' | exact Hnone | exact Hact].
  - apply (Hrem 1 0). reflexivity.
  - apply (Hrem 2 1). reflexivity.
Defined.

Lemma converter_fault_witness :
  exists d w1 d1,
    artifact_map 0 (run sample_history_checked empty_world) = Some d /\
    remove_lines 0 (run sample_history_checked empty_world) = (w1, Ok tt) /\
    all_removed d w1 /\
    artifact_map 0 w1 = Some d1 /\ all_none d1 /\
    dict_keys d1 ≡ₚ dict_keys d /\
    active 0 w1 /\ same_registry (run sample_history_checked empty_world) w1 /\
    process (MouseEvent 0 (Some (-1)%Q)) (run sample_history_checked empty_world) =
      match checked_converter (-1)%Q with
      | Raise e => (w1, Raise e)
      | Ok x' =>
          (draw_lines 0 (dict_keys d1) x' [("color", "red")] ;;; draw_idle 0) w1
      end.
Proof.
  apply (converter_fault sample_history_checked 0 0 1 checked_converter
           [("color", "red")] (-1)%Q).
  - vm_compute. reflexivity.
  - vm_compute. reflexivity.
Defined.

Lemma one_entry_per_tracked_axis_witness :
  let w := run sample_history empty_world in
  exists d,
    artifact_map 0 w = Some d /\
    NoDup (dict_keys d) /\
    (forall ax, ax ∈ dict_keys d <-> Some ax ∈ [Some 1; Some 2]) /\
    tracked_only_by 0 1 w /\
    length (artifacts_on 1 w) <= 1 /\
    artifacts_on 1 w = [(0, mkLine 1 5 [])].
Proof.
  intros w.
  destruct (one_entry_per_tracked_axis [] sample_fig
              (iter_Axes [Some 1; Some 2]) None []
              [Deliver (MouseEvent 0 (Some 5%Q))]) as
    (d & Hd & Hnd & Hk & _ & Hle & _).
  - repeat constructor.
  - assert (tracked_only_by 0 1 w) as Honly.
    { intros c' d' Hd' _. destruct (decide (c' = 0)) as [|Hne]; [done|].
      exfalso. unfold artifact_map in Hd'.
      assert (_mouse_tracking_vertical_lines w
                = {[0 := [(1, Some 0); (2, Some 1)]]}) as Hmap
        by (vm_compute; reflexivity).
      rewrite Hmap, lookup_singleton_ne in Hd' by done. discriminate Hd'. }
    exists d. split_and!; [exact Hd | exact Hnd | exact Hk | exact Honly
                           | exact (Hle 1 Honly) | vm_compute; reflexivity].
Defined.

(** ** The scenarios of the specification, run on the code *)

(** Two left labels and one right label at offset 0.1: three Axes; the
    host is the outermost left Axes at -0.1, the new left Axes sits at 0
    and the right Axes at 1. *)
Example scenario_two_left_one_right :
  let r := axes 0 None (Some (label_coll ["A"; "B"])) (Some (label_coll ["C"]))
                default_offset single_axes_plot in
  r.2 = Ok [0; 1; 2] /\
  offset_is (left_offset r.1 0) (PrimFloat.opp default_offset) /\
  offset_is (left_offset r.1 1) 0 /\
  offset_is (right_offset r.1 2) 1.
Proof. vm_compute. split_and!; reflexivity. Qed.

(** Tracking two Axes: a move at 5 draws one line per Axes at 5; a move
    without coordinate removes both and keeps the session; the close event
    purges the session; a further move event has no handler left. *)
Example scenario_move_leave_close :
  let w1 := run sample_history empty_world in
  let w2 := run [Deliver (MouseEvent 0 None)] w1 in
  let w3 := run [Deliver (CloseEvent 0)] w2 in
  artifact_map 0 w1 = Some [(1, Some 0); (2, Some 1)] /\
  artists w1 !! 0 = Some (mkLine 1 5 []) /\
  artists w1 !! 1 = Some (mkLine 2 5 []) /\ size (artists w1) = 2 /\
  artifact_map 0 w2 = Some [(1, None); (2, None)] /\
  map_to_list (artists w2) = [] /\ tokens 0 w2 = Some (0, 1) /\
  artifact_map 0 w3 = None /\ tokens 0 w3 = None /\ callbacks w3 = [] /\
  process (MouseEvent 0 (Some 5%Q)) w3 = (w3, Ok tt).
Proof. vm_compute. split_and!; reflexivity. Qed.

(** * Further properties of the controller *)

(** The drawing loop only adds artists, with new identities. *)
Lemma draw_lines_old c x kw ks : "transform" ∉ kw.*1 -> forall w,
  exists w',
    draw_lines c ks x kw w = (w', Ok tt) /\
    next_line w' = next_line w + length ks /\
    forall l, l < next_line w -> artists w' !! l = artists w !! l.
Proof.
  intros Hkw. induction ks as [|ax ks IH]; intros w.
  - exists w. simpl. split_and!; [done|lia|done].
  - simpl. rewrite draw_iteration by done.
    destruct (IH (drawn c ax x kw w)) as (w' & Hrun & Hn & Hold).
    exists w'. split_and!; [done|simpl in *; lia|].
    intros l Hl. rewrite Hold by (simpl; lia). simpl.
    rewrite lookup_insert_ne; [done|lia].
Qed.







(** Removing without drawing asks for no redraw: when the pointer leaves
    the plotting area, or the converter raises, the recorded lines are
    detached but [draw_idle] is not reached. *)
Theorem no_redraw_without_drawing acts c mouse_cid close_cid conv kw :
  tokens c (run acts empty_world) = Some (mouse_cid, close_cid) ->
  subscriptions_on c (run acts empty_world) =
    session_subscriptions c mouse_cid close_cid conv kw ->
  let w := run acts empty_world in
  exists d,
    artifact_map c w = Some d /\
    all_removed d (process (MouseEvent c None) w).1 /\
    redraws (process (MouseEvent c None) w).1 = redraws w /\
    forall x e,
      converted conv x = Raise e ->
      (process (MouseEvent c (Some x)) w).2 = Raise e /\
      all_removed d (process (MouseEvent c (Some x)) w).1 /\
      redraws (process (MouseEvent c (Some x)) w).1 = redraws w.
Proof.
  intros Ht Hsub w. fold w in Ht, Hsub.
  assert (wf w) as Hwf by apply reachable_wf.
  pose proof Hwf as (Hlwf & _ & Hdom).
  assert (is_Some (artifact_map c w)) as [d Hd] by (apply Hdom; eauto).
  destruct (remove_lines_ok c w d Hlwf Hd) as
    (w1 & d1 & Hrm & Hwf1 & Hreg1 & [Hnl1 Hred1] & Hd1 & Hoth1 & Hkeys1 & _ &
     Hnone1 & Hrem1 & _).
  assert (forall x, process (MouseEvent c x) w =
            on_mouse_move conv kw (MouseEvent c x) w) as Hproc.
  { intros x.
    destruct (process_active (MouseEvent c x) w _ _ Hwf Ht) as
      (conv' & kw' & Hsub' & ->). simpl in Hsub'.
    unfold session_subscriptions in Hsub. rewrite Hsub in Hsub'.
    by injection Hsub' as <- <-. }
  exists d. split; [done|].
  rewrite Hproc.
  rewrite (on_mouse_move_unfold conv kw (MouseEvent c None) w w1 d d1)
    by done.
  split_and!; try done.
  intros x e Hconv. rewrite Hproc.
  rewrite (on_mouse_move_unfold conv kw (MouseEvent c (Some x)) w w1 d d1)
    by done.
  unfold converted in Hconv. by rewrite Hconv.
Qed.

Lemma sample_history_checked_tokens :
  tokens 0 (run sample_history_checked empty_world) = Some (0, 1).
Proof. vm_compute. reflexivity. Defined.

Lemma sample_history_checked_subscriptions :
  subscriptions_on 0 (run sample_history_checked empty_world) =
    session_subscriptions 0 0 1 (Some checked_converter) [("color", "red")].
Proof. vm_compute. reflexivity. Defined.

Lemma no_redraw_without_drawing_witness :
  exists d,
    artifact_map 0 (run sample_history_checked empty_world) = Some d /\
    redraws (process (MouseEvent 0 None)
               (run sample_history_checked empty_world)).1
      = redraws (run sample_history_checked empty_world).
Proof.
  destruct (no_redraw_without_drawing sample_history_checked 0 0 1
              (Some checked_converter) [("color", "red")]
              sample_history_checked_tokens
              sample_history_checked_subscriptions) as (d & Hd & _ & Hr & _).
  by exists d.
Defined.

(** ** Sessions of different canvases *)

Lemma on_mouse_move_other conv kw ev w c' :
  lines_wf w -> c' <> event_canvas ev ->
  artifact_map c' (on_mouse_move conv kw ev w).1 = artifact_map c' w /\
  forall l L, l < next_line w ->
    artists (on_mouse_move conv kw ev w).1 !! l = Some L ->
    artists w !! l = Some L.
Proof.
  intros Hwf Hne. destruct (artifact_map (event_canvas ev) w) as [d|] eqn:Hd.
  - destruct (remove_lines_ok _ _ _ Hwf Hd) as
      (w1 & d1 & Hrm & Hwf1 & Hreg1 & [Hnl1 _] & Hd1 & Hoth1 & _ & _ &
       Hnone1 & _ & Harts1).
    rewrite (on_mouse_move_unfold conv kw ev w w1 d d1 Hd Hrm Hd1).
    destruct ev as [c [x|]|c]; simpl in *;
      try (split; [by apply Hoth1 | intros l L _; by apply Harts1]).
    destruct (match conv with Some f => f x | None => Ok x end) as [x'|e];
      [|split; [by apply Hoth1 | intros l L _; by apply Harts1]].
    destruct (decide ("transform" ∈ kw.*1)) as [Hkw|Hkw].
    { unfold bind. rewrite (draw_lines_refused _ _ _ _ _ Hkw).
      destruct (dict_keys d1) as [|ax0 ks0]; simpl;
        (split; [by apply Hoth1 | intros l L _; by apply Harts1]). }
    destruct (draw_lines_ok c x' kw (dict_keys d1) Hkw w1 d1 Hwf1 Hd1) as
      (w2 & d2 & Hrun & _ & _ & _ & _ & Hoth2 & _).
    { apply (wf_nodup w1 Hwf1 c d1 Hd1). }
    { intros ax [v Hv]%elem_of_dict_keys. rewrite Hv. f_equal.
      by eapply Hnone1. }
    destruct (draw_lines_old c x' kw (dict_keys d1) Hkw w1) as
      (w2' & Hrun' & _ & Hold2).
    rewrite Hrun in Hrun'. injection Hrun' as <-.
    rewrite (bind_ok _ _ _ _ _ Hrun). simpl. split.
    + unfold artifact_map at 1. simpl. fold (artifact_map c' w2).
      rewrite Hoth2 by done. by apply Hoth1.
    + intros l L Hl. rewrite Hold2 by lia. apply Harts1.
  - rewrite on_mouse_move_no_session by done. by split.
Qed.

(** An action about one canvas leaves the session of every other canvas as
    it is: its token pair, its subscriptions, its artifact map, and the
    lines that map records stay attached unchanged. *)
Theorem sessions_are_isolated acts a c' :
  c' <> action_canvas a ->
  let w := run acts empty_world in
  let w' := (perform a w).1 in
  tokens c' w' = tokens c' w /\
  artifact_map c' w' = artifact_map c' w /\
  subscriptions_on c' w' = subscriptions_on c' w /\
  forall ax l L, records w c' ax l -> artists w !! l = Some L ->
                 artists w' !! l = Some L.
Proof.
  intros Hne w w'. assert (wf w) as Hwf by apply reachable_wf.
  assert (wf w') as Hwf' by (by apply perform_wf).
  pose proof Hwf as (Hlwf & _). pose proof Hwf' as (Hlwf' & _).
  assert (tokens c' w' = tokens c' w /\
          artifact_map c' w' = artifact_map c' w /\
          subscriptions_on c' w' = subscriptions_on c' w /\
          forall l L, l < next_line w -> artists w' !! l = Some L ->
                      artists w !! l = Some L) as (Ht & Hm & Hs & Hback).
  { unfold w'. destruct a as [fig [a|] conv kw|ev]; simpl in *.
    - destruct (add_enable fig a conv kw w Hwf) as
        (w0 & w1 & _ & _ & -> & _ & _ & _ & _ & Hoth & Harts).
      simpl. destruct (Hoth c' Hne) as (? & ? & ?).
      split_and!; try done. intros l L _. apply Harts.
    - rewrite add_disable.
      destruct (on_close_wf (CloseEvent (canvas fig)) w Hwf) as
        (w1 & -> & _ & _ & _ & Hoth & Harts & _).
      simpl. destruct (Hoth c' Hne) as (? & ? & ?).
      split_and!; try done. intros l L _. apply Harts.
    - destruct (tokens (event_canvas ev) w) as [[m cl]|] eqn:Htok.
      + destruct (process_active ev w m cl Hwf Htok) as (conv & kw & _ & ->).
        destruct ev as [c x|c]; simpl in *.
        * destruct (on_mouse_move_wf conv kw (MouseEvent c x) w Hlwf) as
            (_ & (Hcb & _ & Hcid) & _ & _).
          destruct (on_mouse_move_other conv kw (MouseEvent c x) w c' Hlwf Hne)
            as (Hmap & Harts).
          unfold tokens, subscriptions_on. rewrite Hcb, Hcid.
          split_and!; done.
        * destruct (on_close_wf (CloseEvent c) w Hwf) as
            (w1 & -> & _ & _ & _ & Hoth & Harts & _).
          simpl. destruct (Hoth c' Hne) as (? & ? & ?).
          split_and!; try done. intros l L _. apply Harts.
      + rewrite process_inactive by done. simpl. split_and!; done. }
  split_and!; try done.
  intros ax l L Hrec HL.
  assert (records w' c' ax l) as Hrec'.
  { destruct Hrec as (d & Hd & Hg). exists d. by rewrite Hm. }
  destruct (wf_attached w' Hlwf' _ _ _ Hrec') as (L' & HL' & _).
  assert (l < next_line w) as Hl by (apply (wf_fresh w Hlwf); eauto).
  pose proof (Hback l L' Hl HL') as HL''. congruence.
Qed.

Lemma sessions_are_isolated_witness :
  let w := run sample_history empty_world in
  let w' := (perform (Enable (mkFigure 1) (Some (one_Axes 3)) None []) w).1 in
  tokens 0 w' = tokens 0 w /\ artifact_map 0 w' = artifact_map 0 w.
Proof.
  intros w w'.
  destruct (sessions_are_isolated sample_history
              (Enable (mkFigure 1) (Some (one_Axes 3)) None []) 0)
    as (Ht & Hm & _).
  - simpl. lia.
  - by split.
Defined.

(** ** Lines never outlive their session *)

(** Enabling tracking again on a canvas, or disabling it, detaches every
    line the session of that canvas had recorded; after a call with Axes
    the new artifact map draws nothing yet. *)
Theorem reenable_removes_old_lines acts fig to_axes conv kw d :
  artifact_map (canvas fig) (run acts empty_world) = Some d ->
  let w := run acts empty_world in
  let w' := (add_mouse_tracking_vertical_line fig to_axes conv kw w).1 in
  all_removed d w' /\
  match to_axes with
  | Some a => artifact_map (canvas fig) w' = Some (fresh_lines_dict (to_tuple a))
  | None => artifact_map (canvas fig) w' = None
  end.
Proof.
  intros Hd w w'. fold w in Hd. assert (wf w) as Hwf by apply reachable_wf.
  destruct (on_close_active (CloseEvent (canvas fig)) w d Hwf Hd) as
    (w0 & Hcl & _ & Hin & _ & Hrem & _).
  unfold w'. destruct to_axes as [a|].
  - destruct (add_enable fig a conv kw w Hwf) as
      (w0' & w1 & _ & _ & Hadd & _ & Hmap & _).
    rewrite Hadd. simpl. split; [|done].
    assert (artists w1 = artists w0) as Harts.
    { unfold add_mouse_tracking_vertical_line in Hadd.
      rewrite (bind_ok _ _ _ _ _ Hcl) in Hadd. by injection Hadd as <-. }
    intros ax l Hl. rewrite Harts. by apply (Hrem ax).
  - rewrite add_disable, Hcl. simpl. split; [done|].
    by destruct Hin as (_ & _ & ? & _).
Qed.

Lemma reenable_removes_old_lines_witness :
  all_removed [(1, Some 0); (2, Some 1)]
    (add_mouse_tracking_vertical_line sample_fig (Some (one_Axes 2)) None []
       (run sample_history empty_world)).1.
Proof.
  apply (reenable_removes_old_lines sample_history sample_fig
           (Some (one_Axes 2)) None [] [(1, Some 0); (2, Some 1)]).
  vm_compute. reflexivity.
Defined.

(** In every state the controller can be in, an attached line artist is
    recorded by one entry of one artifact map, the entry of the Axes it is
    attached to; so when no canvas has a session, no line is attached. *)
Theorem lines_belong_to_sessions acts :
  let w := run acts empty_world in
  (forall l L, artists w !! l = Some L ->
     exists c, records w c (line_axes L) l /\
       forall c' ax', records w c' ax' l -> c' = c /\ ax' = line_axes L) /\
  ((forall c, artifact_map c w = None) -> artists w = ∅).
Proof.
  intros w. assert (wf w) as (Hlwf & _) by apply reachable_wf. split.
  - intros l L HL. destruct (wf_recorded w Hlwf l L HL) as (c & Hc).
    exists c. split; [done|]. intros c' ax' Hc'.
    assert (c' = c) as -> by apply (wf_owner w Hlwf _ _ _ _ _ Hc' Hc).
    split; [done|]. by apply (records_same_owner w c ax' (line_axes L) l).
  - intros Hnone. apply map_empty. intros l.
    destruct (artists w !! l) as [L|] eqn:HL; [|done].
    destruct (wf_recorded w Hlwf l L HL) as (c & d & Hd & _).
    by rewrite Hnone in Hd.
Qed.

Lemma lines_belong_to_sessions_witness :
  exists c, records (run sample_history empty_world) c 1 0.
Proof.
  destruct (proj1 (lines_belong_to_sessions sample_history) 0 (mkLine 1 5 []))
    as (c & Hc & _).
  - vm_compute. reflexivity.
  - by exists c.
Defined.

(** ** Events without a session *)

(** A canvas without session has no handler: a delivered move event does
    nothing and raises nothing. Only a direct call of the handler fails,
    with [KeyError] and without any change. *)
Theorem move_event_without_session acts c x conv kw :
  tokens c (run acts empty_world) = None ->
  let w := run acts empty_world in
  process (MouseEvent c x) w = (w, Ok tt) /\
  on_mouse_move conv kw (MouseEvent c x) w = (w, Raise KeyError).
Proof.
  intros Ht w. fold w in Ht. assert (wf w) as Hwf by apply reachable_wf.
  split.
  - by apply process_inactive.
  - apply on_mouse_move_no_session. simpl.
    destruct Hwf as (_ & _ & Hdom). apply eq_None_not_Some.
    intros H%Hdom. rewrite Ht in H. by destruct H.
Qed.

Lemma move_event_without_session_witness :
  let w := run (sample_history ++ [Deliver (CloseEvent 0)]) empty_world in
  process (MouseEvent 0 (Some 5%Q)) w = (w, Ok tt) /\
  on_mouse_move None [] (MouseEvent 0 (Some 5%Q)) w = (w, Raise KeyError).
Proof.
  apply (move_event_without_session
           (sample_history ++ [Deliver (CloseEvent 0)]) 0 (Some 5%Q) None []).
  vm_compute. reflexivity.
Defined.

(** ** Registering and unregistering *)

Lemma elem_of_callbacks s w :
  s ∈ callbacks w <-> s ∈ subscriptions_on (sub_canvas s) w.
Proof. unfold subscriptions_on. rewrite list_elem_of_filter. tauto. Qed.

Lemma on_close_cids_fresh ev w :
  wf w -> cids_fresh w -> cids_fresh (on_close ev w).1.
Proof.
  intros Hwf Hfresh.
  destruct (on_close_wf ev w Hwf) as (w' & -> & _ & _ & Hsub & Hoth & _ & Hn).
  simpl. unfold cids_fresh in *. rewrite Hn.
  rewrite Forall_forall in Hfresh. apply Forall_forall. intros s Hs.
  apply elem_of_callbacks in Hs.
  destruct (decide (sub_canvas s = event_canvas ev)) as [Heq|Hne].
  - rewrite Heq, Hsub in Hs. by apply elem_of_nil in Hs.
  - destruct (Hoth _ Hne) as (_ & _ & Hsame). rewrite Hsame in Hs.
    apply Hfresh. by apply elem_of_callbacks.
Qed.

Lemma perform_cids_fresh a w :
  wf w -> cids_fresh w -> cids_fresh (perform a w).1.
Proof.
  intros Hwf Hfresh. destruct a as [fig [a|] conv kw|ev]; simpl.
  - pose proof (on_close_cids_fresh (CloseEvent (canvas fig)) w Hwf Hfresh)
      as Hfresh0.
    destruct (on_close_wf (CloseEvent (canvas fig)) w Hwf) as (w0 & Hcl & _).
    rewrite Hcl in Hfresh0. simpl in Hfresh0.
    unfold add_mouse_tracking_vertical_line.
    rewrite (bind_ok _ _ _ _ _ Hcl). simpl. unfold cids_fresh in *. simpl.
    rewrite <- (assoc_L (++)). apply Forall_app. split.
    + eapply Forall_impl; [exact Hfresh0|]. simpl. intros s Hs. lia.
    + repeat constructor; simpl; lia.
  - rewrite add_disable. by apply on_close_cids_fresh.
  - destruct (tokens (event_canvas ev) w) as [[m cl]|] eqn:Htok.
    + destruct (process_active ev w m cl Hwf Htok) as (conv & kw & _ & ->).
      destruct ev as [c x|c].
      * destruct Hwf as (Hlwf & _).
        destruct (on_mouse_move_wf conv kw (MouseEvent c x) w Hlwf) as
          (_ & (Hcb & Hn & _) & _).
        unfold cids_fresh. by rewrite Hcb, Hn.
      * by apply on_close_cids_fresh.
    + by rewrite process_inactive.
Qed.

Lemma run_cids_fresh acts : forall w,
  wf w -> cids_fresh w -> cids_fresh (run acts w).
Proof.
  induction acts as [|a acts IH]; intros w Hwf Hfresh; [done|].
  simpl. apply IH; [by apply perform_wf | by apply perform_cids_fresh].
Qed.

(** In every state the controller can be in, [register_event] with a
    callback that is not connected to that event of the canvas yet hands
    out an id that is not in use and appends the subscription, and
    [unregister_event] with that id brings the registry back to what it
    was; unregistering an id that was never handed out changes nothing. A
    figure and its canvas name the same registry. *)
Theorem register_unregister_round_trip acts fig event callback :
  let w := run acts empty_world in
  (forall s, s ∈ callbacks w -> sub_canvas s = canvas_of fig ->
             sub_signal s = Event_value event -> sub_func s <> callback) ->
  let w1 := (register_event fig event callback w).1 in
  (register_event fig event callback w).2 = Ok (next_cid w) /\
  callbacks w1 =
    callbacks w ++
    [mkSub (canvas_of fig) (next_cid w) (Event_value event) callback] /\
  callbacks (unregister_event fig (next_cid w) w1).1 = callbacks w /\
  callbacks (unregister_event (inr (canvas_of fig)) (next_cid w) w1).1
    = callbacks w /\
  forall cid, next_cid w <= cid ->
    callbacks (unregister_event fig cid w).1 = callbacks w.
Proof.
  intros w _ w1.
  assert (cids_fresh w) as Hfresh.
  { apply run_cids_fresh; [apply empty_world_wf | constructor]. }
  assert (forall cid, next_cid w <= cid ->
            filter (fun s => ~ (sub_canvas s = canvas_of fig /\ sub_cid s = cid))
                   (callbacks w) = callbacks w) as Hkeep.
  { intros cid Hcid. apply filter_all. eapply Forall_impl; [exact Hfresh|].
    simpl. intros s Hs [_ Heq]. lia. }
  split_and!; try done.
  - simpl. rewrite filter_app, Hkeep by lia.
    rewrite filter_cons_False by (simpl; tauto). by rewrite app_nil_r.
  - simpl. rewrite filter_app, Hkeep by lia.
    rewrite filter_cons_False by (simpl; tauto). by rewrite app_nil_r.
Qed.

Lemma register_unregister_round_trip_witness :
  (register_event (inl sample_fig) CLOSE (on_mouse_move_closure None [])
     (run sample_history empty_world)).2 = Ok 2 /\
  callbacks (register_event (inl sample_fig) CLOSE
               (on_mouse_move_closure None [])
               (run sample_history empty_world)).1 =
    callbacks (run sample_history empty_world) ++
    [mkSub 0 2 (Event_value CLOSE) (on_mouse_move_closure None [])] /\
  callbacks (unregister_event (inl sample_fig) 2
               (register_event (inl sample_fig) CLOSE
                  (on_mouse_move_closure None [])
                  (run sample_history empty_world)).1).1 =
    callbacks (run sample_history empty_world).
Proof.
  destruct (register_unregister_round_trip sample_history (inl sample_fig)
              CLOSE (on_mouse_move_closure None [])) as (H1 & H2 & H3 & _).
  - intros s Hs Hc Hsig Hf. vm_compute in Hs.
    apply elem_of_cons in Hs as [->|Hs]; [discriminate Hsig|].
    apply elem_of_cons in Hs as [->|Hs]; [discriminate Hf|].
    by apply elem_of_nil in Hs.
  - split_and!; [exact H1|exact H2|exact H3].
Defined.

(** * Further properties of [axes] *)

Lemma configured_stack_axis side hide amount label a :
  stack_axis side hide label (with_useOffset false (configured side hide amount label a)).
Proof.
  unfold stack_axis, configured. destruct hide; simpl.
  - split_and!; try done.
    + by rewrite fn_lookup_insert.
    + intros _. split_and!; try done.
      intros s Hs. by rewrite fn_lookup_insert_ne.
  - split_and!; try done. by rewrite fn_lookup_insert.
Qed.

Lemma configured_position side hide amount label a :
  spine_position (ax_spines (configured side hide amount label a) side)
    = position_axes amount.
Proof.
  unfold configured. destruct hide; simpl;
    rewrite !fn_lookup_insert; simpl; by rewrite ?fn_lookup_insert.
Qed.

Lemma configured_figure side hide amount label a :
  ax_figure (configured side hide amount label a) = ax_figure a.
Proof. unfold configured. by destruct hide. Qed.

(** One iteration of the left-hand loop on a new twin Axes, object by
    object. *)
Lemma left_iteration_twin_obj host len offset i label rest acc p :
  0 < i ->
  exists p1,
    left_axes_loop host len offset i (label :: rest) acc p =
      left_axes_loop host len offset (S i) rest (acc ++ [next_axes p]) p1 /\
    next_axes p1 = S (next_axes p) /\
    figure_objs p1 = figure_objs p /\
    axes_objs p1 (next_axes p) =
      configured side_left (bool_decide (Z.of_nat i < len - 1)%Z)
        (PrimFloat.mul (float_of_Z (- (len - Z.of_nat i - 1))) offset) label
        (new_twin (ax_figure (axes_objs p host))) /\
    (forall ax, ax <> next_axes p ->
       axes_objs p1 ax =
         if decide (host = ax)
         then with_yticks_position side_left (axes_objs p host)
         else axes_objs p ax).
Proof.
  intros Hi. cbn [left_axes_loop]. rewrite bool_decide_eq_false_2 by lia.
  unfold bind at 1. cbn [twinx].
  destruct (bool_decide (Z.of_nat i < len - 1)%Z);
    (eexists; split; [reflexivity|]); simpl; (split; [done|]);
    (split; [done|]); split.
  - rewrite !fn_lookup_alter. by rewrite fn_lookup_insert.
  - intros ax Hax. rewrite !fn_lookup_alter_ne by done.
    by rewrite fn_lookup_insert_ne.
  - rewrite !fn_lookup_alter. by rewrite fn_lookup_insert.
  - intros ax Hax. rewrite !fn_lookup_alter_ne by done.
    by rewrite fn_lookup_insert_ne.
Qed.

Lemma left_loop_twins_obj host len offset labels : forall i acc p,
  0 < i -> host < next_axes p ->
  exists p',
    left_axes_loop host len offset i labels acc p =
      (p', Ok (acc ++ seq (next_axes p) (length labels))) /\
    next_axes p' = next_axes p + length labels /\
    figure_objs p' = figure_objs p /\
    (forall k label, labels !! k = Some label ->
       axes_objs p' (next_axes p + k) =
         configured side_left (bool_decide (Z.of_nat (i + k) < len - 1)%Z)
           (PrimFloat.mul (float_of_Z (- (len - Z.of_nat (i + k) - 1))) offset) label
           (new_twin (ax_figure (axes_objs p host)))) /\
    (forall ax, ax < next_axes p -> ax <> host ->
       axes_objs p' ax = axes_objs p ax) /\
    axes_objs p' host =
      match labels with
      | [] => axes_objs p host
      | _ => with_yticks_position side_left (axes_objs p host)
      end.
Proof.
  induction labels as [|label rest IH]; intros i acc p Hi Hhost.
  - exists p. simpl. rewrite app_nil_r. split_and!; try done; lia.
  - destruct (left_iteration_twin_obj host len offset i label rest acc p Hi)
      as (p1 & -> & Hn1 & Hf1 & Hobj1 & Hoth1).
    destruct (IH (S i) (acc ++ [next_axes p]) p1) as
      (p' & -> & Hn' & Hf' & Hobj' & Hold' & Hhost'); [lia..|].
    assert (axes_objs p1 host = with_yticks_position side_left (axes_objs p host))
      as Hh1.
    { rewrite Hoth1 by lia. by rewrite decide_True. }
    exists p'. rewrite Hn1 in *. split_and!.
    + by rewrite <- (assoc_L (++)).
    + simpl. lia.
    + congruence.
    + intros [|k] lbl Hk; simpl in Hk.
      * injection Hk as <-. rewrite !Nat.add_0_r.
        rewrite Hold' by lia. done.
      * replace (next_axes p + S k) with (S (next_axes p) + k) by lia.
        replace (i + S k) with (S i + k) by lia.
        rewrite (Hobj' k lbl Hk). by rewrite Hh1.
    + intros ax Hax Hne. rewrite Hold' by lia.
      rewrite Hoth1 by lia. by rewrite decide_False.
    + rewrite Hhost', Hh1. by destruct rest.
Qed.

(** One iteration of the right-hand loop, object by object. *)
Lemma right_iteration_obj host offset i label rest acc p :
  exists p1,
    right_axes_loop host offset i (label :: rest) acc p =
      right_axes_loop host offset (S i) rest (acc ++ [next_axes p]) p1 /\
    next_axes p1 = S (next_axes p) /\
    figure_objs p1 = figure_objs p /\
    axes_objs p1 (next_axes p) =
      configured side_right (bool_decide (0 < i))
        (PrimFloat.add 1 (PrimFloat.mul (float_of_Z (Z.of_nat i)) offset)) label
        (new_twin (ax_figure (axes_objs p host))) /\
    (forall ax, ax <> next_axes p ->
       axes_objs p1 ax =
         if decide (host = ax)
         then with_yticks_position side_left (axes_objs p host)
         else axes_objs p ax).
Proof.
  cbn [right_axes_loop]. unfold bind at 1. cbn [twinx].
  destruct (bool_decide (0 < i));
    (eexists; split; [reflexivity|]); simpl; (split; [done|]);
    (split; [done|]); split.
  - rewrite !fn_lookup_alter. by rewrite fn_lookup_insert.
  - intros ax Hax. rewrite !fn_lookup_alter_ne by done.
    by rewrite fn_lookup_insert_ne.
  - rewrite !fn_lookup_alter. by rewrite fn_lookup_insert.
  - intros ax Hax. rewrite !fn_lookup_alter_ne by done.
    by rewrite fn_lookup_insert_ne.
Qed.

Lemma right_loop_obj host offset labels : forall i acc p,
  host < next_axes p ->
  exists p',
    right_axes_loop host offset i labels acc p =
      (p', Ok (acc ++ seq (next_axes p) (length labels))) /\
    next_axes p' = next_axes p + length labels /\
    figure_objs p' = figure_objs p /\
    (forall k label, labels !! k = Some label ->
       axes_objs p' (next_axes p + k) =
         configured side_right (bool_decide (0 < i + k))
           (PrimFloat.add 1 (PrimFloat.mul (float_of_Z (Z.of_nat (i + k))) offset)) label
           (new_twin (ax_figure (axes_objs p host)))) /\
    (forall ax, ax < next_axes p -> ax <> host ->
       axes_objs p' ax = axes_objs p ax) /\
    axes_objs p' host =
      match labels with
      | [] => axes_objs p host
      | _ => with_yticks_position side_left (axes_objs p host)
      end.
Proof.
  induction labels as [|label rest IH]; intros i acc p Hhost.
  - exists p. simpl. rewrite app_nil_r. split_and!; try done; lia.
  - destruct (right_iteration_obj host offset i label rest acc p)
      as (p1 & -> & Hn1 & Hf1 & Hobj1 & Hoth1).
    destruct (IH (S i) (acc ++ [next_axes p]) p1) as
      (p' & -> & Hn' & Hf' & Hobj' & Hold' & Hhost'); [lia..|].
    assert (axes_objs p1 host = with_yticks_position side_left (axes_objs p host))
      as Hh1.
    { rewrite Hoth1 by lia. by rewrite decide_True. }
    exists p'. rewrite Hn1 in *. split_and!.
    + by rewrite <- (assoc_L (++)).
    + simpl. lia.
    + congruence.
    + intros [|k] lbl Hk; simpl in Hk.
      * injection Hk as <-. rewrite !Nat.add_0_r.
        rewrite Hold' by lia. done.
      * replace (next_axes p + S k) with (S (next_axes p) + k) by lia.
        replace (i + S k) with (S i + k) by lia.
        rewrite (Hobj' k lbl Hk). by rewrite Hh1.
    + intros ax Hax Hne. rewrite Hold' by lia.
      rewrite Hoth1 by lia. by rewrite decide_False.
    + rewrite Hhost', Hh1. by destruct rest.
Qed.

Lemma disable_offset_loop_obj axs : forall p,
  exists p',
    disable_offset_loop axs p = (p', Ok tt) /\
    next_axes p' = next_axes p /\ figure_objs p' = figure_objs p /\
    forall ax, axes_objs p' ax =
      if decide (ax ∈ axs) then with_useOffset false (axes_objs p ax)
      else axes_objs p ax.
Proof.
  induction axs as [|a axs IH]; intros p.
  - exists p. by split_and!.
  - cbn [disable_offset_loop]. unfold bind at 1. simpl.
    match goal with |- context [disable_offset_loop axs ?q] =>
      destruct (IH q) as (p' & -> & Hn & Hf & Hobj) end.
    exists p'. split_and!; try done. intros ax. rewrite Hobj. simpl.
    destruct (decide (ax ∈ axs)) as [Hin|Hnin].
    + rewrite decide_True by (by right).
      unfold alter, fn_alter. by destruct (decide (a = ax)) as [->|].
    + unfold alter, fn_alter. destruct (decide (a = ax)) as [->|Hne].
      * rewrite decide_True by (by left). done.
      * rewrite decide_False; [done|].
        intros [?|?]%elem_of_cons; [by subst|done].
Qed.

Lemma finish_phase_obj host_ax axs p :
  exists p',
    finish_phase host_ax axs p = (p', Ok axs) /\
    next_axes p' = next_axes p /\
    (forall ax, axes_objs p' ax =
       if decide (ax ∈ axs) then with_useOffset false (axes_objs p ax)
       else axes_objs p ax) /\
    let fig := ax_figure (axes_objs p host_ax) in
    figure_objs p' fig =
      mkFigureObj (fig_suptitle (figure_objs p fig))
        (fig_tight_layout (figure_objs p fig) ++
         [layout_rect (fig_suptitle (figure_objs p fig))]) /\
    forall fig', fig' <> fig -> figure_objs p' fig' = figure_objs p fig'.
Proof.
  destruct (disable_offset_loop_obj axs p) as (p1 & Hrun & Hn & Hf & Hobj).
  unfold finish_phase. rewrite (bind_ok _ _ _ _ _ Hrun).
  unfold bind at 1. unfold get_figure, gets. unfold bind at 1.
  assert (ax_figure (axes_objs p1 host_ax) = ax_figure (axes_objs p host_ax))
    as Hfig.
  { rewrite Hobj. by destruct (decide _). }
  rewrite Hfig, Hf. unfold layout_rect.
  destruct (fig_suptitle _) as [t|] eqn:Ht;
    [destruct (bool_decide (t = ""))|]; simpl;
    (eexists; split; [reflexivity|]); simpl; rewrite ?Hf, ?Ht;
    (split_and!; [done|done|by rewrite fn_lookup_insert|
                  intros fig' Hne; by rewrite fn_lookup_insert_ne]).
Qed.

Lemma left_iteration_host_obj host len offset label rest acc p :
  exists p1,
    left_axes_loop host len offset 0 (label :: rest) acc p =
      left_axes_loop host len offset 1 rest (acc ++ [host]) p1 /\
    next_axes p1 = next_axes p /\ figure_objs p1 = figure_objs p /\
    axes_objs p1 host =
      configured side_left (bool_decide (Z.of_nat 0 < len - 1)%Z)
        (PrimFloat.mul (float_of_Z (- (len - Z.of_nat 0 - 1))) offset) label
        (axes_objs p host) /\
    (forall ax, ax <> host -> axes_objs p1 ax = axes_objs p ax).
Proof.
  cbn [left_axes_loop]. rewrite bool_decide_eq_true_2 by done.
  unfold bind at 1. cbn [ret].
  destruct (bool_decide (Z.of_nat 0 < len - 1)%Z);
    (eexists; split; [reflexivity|]); simpl; (split; [done|]);
    (split; [done|]); split.
  - by rewrite !fn_lookup_alter.
  - intros ax Hax. by rewrite !fn_lookup_alter_ne.
  - by rewrite !fn_lookup_alter.
  - intros ax Hax. by rewrite !fn_lookup_alter_ne.
Qed.

Lemma axes_prelude_obj host_ax x_label {A} (k : M Plot A) p :
  exists p0,
    (match x_label with
     | Some s => set_xlabel host_ax s
     | None => ret tt
     end ;;; grid host_ax ;;; k) p = k p0 /\
    next_axes p0 = next_axes p /\ figure_objs p0 = figure_objs p /\
    axes_objs p0 host_ax =
      with_grid true
        (match x_label with
         | Some s => with_xlabel s (axes_objs p host_ax)
         | None => axes_objs p host_ax
         end) /\
    (forall ax, ax <> host_ax -> axes_objs p0 ax = axes_objs p ax).
Proof.
  destruct x_label as [s|].
  - exists (grid host_ax (set_xlabel host_ax s p).1).1.
    split_and!; try done.
    + simpl. by rewrite !fn_lookup_alter.
    + intros ax Hne. simpl. by rewrite !fn_lookup_alter_ne.
  - exists (grid host_ax p).1. split_and!; try done.
    + simpl. by rewrite !fn_lookup_alter.
    + intros ax Hne. simpl. by rewrite !fn_lookup_alter_ne.
Qed.

Lemma configured_left_ticks hide amount label a :
  with_yticks_position side_left (configured side_left hide amount label a)
    = configured side_left hide amount label a.
Proof. unfold configured. by destruct hide. Qed.

(** The right-hand loop and the final phase of [axes], from the state [p2]
    the left-hand part leaves with the list [axs_left]. *)
Lemma axes_tail host_ax y_label_right offset axs_left p2 :
  host_ax < next_axes p2 ->
  (forall ax, ax ∈ axs_left -> ax < next_axes p2) ->
  let rs := right_labels y_label_right in
  let fig := ax_figure (axes_objs p2 host_ax) in
  exists p',
    (axs_right <-
       (if truthy y_label_right
        then
          let y_label_right :=
            match y_label_right with
            | Some (label_str s) => [s]
            | Some (label_coll ls) => ls
            | None => []
            end in
          right_axes_loop host_ax offset 0 y_label_right []
        else ret []) ;;
     finish_phase host_ax (axs_left ++ axs_right)) p2
      = (p', Ok (axs_left ++ seq (next_axes p2) (length rs))) /\
    next_axes p' = next_axes p2 + length rs /\
    (forall j label, rs !! j = Some label ->
       axes_objs p' (next_axes p2 + j) =
         with_useOffset false
           (configured side_right (bool_decide (0 < j))
              (right_spine offset j) label (new_twin fig))) /\
    (forall ax, ax < next_axes p2 -> ax <> host_ax ->
       axes_objs p' ax =
         if decide (ax ∈ axs_left) then with_useOffset false (axes_objs p2 ax)
         else axes_objs p2 ax) /\
    (host_ax ∈ axs_left ->
     axes_objs p' host_ax =
       with_useOffset false
         match rs with
         | [] => axes_objs p2 host_ax
         | _ => with_yticks_position side_left (axes_objs p2 host_ax)
         end) /\
    (host_ax ∉ axs_left ->
     axes_objs p' host_ax =
       match rs with
       | [] => axes_objs p2 host_ax
       | _ => with_yticks_position side_left (axes_objs p2 host_ax)
       end) /\
    figure_objs p' fig =
      mkFigureObj (fig_suptitle (figure_objs p2 fig))
        (fig_tight_layout (figure_objs p2 fig) ++
         [layout_rect (fig_suptitle (figure_objs p2 fig))]) /\
    forall fig', fig' <> fig -> figure_objs p' fig' = figure_objs p2 fig'.
Proof.
  intros Hhost Hleft rs fig.
  destruct (right_loop_obj host_ax offset rs 0 [] p2 Hhost) as
    (p3 & Hrun3 & Hn3 & Hf3 & Hobj3 & Hold3 & Hhost3).
  simpl in Hrun3.
  destruct (finish_phase_obj host_ax (axs_left ++ seq (next_axes p2) (length rs))
              p3) as (p4 & Hrun4 & Hn4 & Hobj4 & Hfig4 & Hfigs4).
  assert (ax_figure (axes_objs p3 host_ax) = fig) as Hfig3.
  { rewrite Hhost3. by destruct rs. }
  rewrite Hfig3, Hf3 in Hfig4, Hfigs4.
  assert (forall ax, ax < next_axes p2 ->
            (ax ∈ axs_left ++ seq (next_axes p2) (length rs)) <-> ax ∈ axs_left)
    as Hmem.
  { intros ax Hax. rewrite elem_of_app, elem_of_seq. split; [|by left].
    intros [?|[? ?]]; [done|lia]. }
  exists p4. split_and!; try done.
  - unfold bind at 1. rewrite axes_right_phase. fold rs. by rewrite Hrun3.
  - lia.
  - intros j label Hj. rewrite Hobj4.
    rewrite decide_True.
    + rewrite (Hobj3 j label Hj). done.
    + apply elem_of_app. right. apply elem_of_seq.
      apply lookup_lt_Some in Hj. lia.
  - intros ax Hax Hne. rewrite Hobj4.
    destruct (decide (ax ∈ axs_left)) as [Hin|Hnin].
    + rewrite decide_True by (by apply Hmem). by rewrite Hold3.
    + rewrite decide_False by (by rewrite Hmem). by rewrite Hold3.
  - intros Hin. rewrite Hobj4. rewrite decide_True by (by apply Hmem).
    by rewrite Hhost3.
  - intros Hnin. rewrite Hobj4. rewrite decide_False by (by rewrite Hmem).
    by rewrite Hhost3.
Qed.

(** The Axes of the stack built from a collection of left labels, object
    by object. *)
Lemma axes_stack_objects host_ax x_label label rest y_label_right offset p :
  host_ax < next_axes p ->
  let ls := label :: rest in
  let rs := right_labels y_label_right in
  let n := next_axes p in
  let fig := ax_figure (axes_objs p host_ax) in
  exists p',
    axes host_ax x_label (Some (label_coll ls)) y_label_right offset p
      = (p', Ok ((host_ax :: seq n (length rest)) ++
                 seq (n + length rest) (length rs))) /\
    axes_objs p' host_ax =
      with_useOffset false
        (configured side_left (bool_decide (Z.of_nat 0 < Z.of_nat (length ls) - 1)%Z)
           (left_spine (length ls) offset 0) label
           (with_grid true
              match x_label with
              | Some s => with_xlabel s (axes_objs p host_ax)
              | None => axes_objs p host_ax
              end)) /\
    (forall k lbl, rest !! k = Some lbl ->
       axes_objs p' (n + k) =
         with_useOffset false
           (configured side_left
              (bool_decide (Z.of_nat (1 + k) < Z.of_nat (length ls) - 1)%Z)
              (left_spine (length ls) offset (1 + k)) lbl (new_twin fig))) /\
    (forall j lbl, rs !! j = Some lbl ->
       axes_objs p' (n + length rest + j) =
         with_useOffset false
           (configured side_right (bool_decide (0 < j))
              (right_spine offset j) lbl (new_twin fig))) /\
    figure_objs p' fig =
      mkFigureObj (fig_suptitle (figure_objs p fig))
        (fig_tight_layout (figure_objs p fig) ++
         [layout_rect (fig_suptitle (figure_objs p fig))]) /\
    (forall fig', fig' <> fig -> figure_objs p' fig' = figure_objs p fig') /\
    (forall ax, ax < n -> ax <> host_ax -> axes_objs p' ax = axes_objs p ax).
Proof.
  intros Hhost ls rs n fig. unfold axes.
  match goal with |- context [bind _ (fun _ => bind (grid host_ax) (fun _ => ?k))] =>
    destruct (axes_prelude_obj host_ax x_label k p) as
      (p0 & Hpre & Hn0 & Hf0 & Hh0 & Ho0)
  end.
  destruct (left_iteration_host_obj host_ax (Z.of_nat (length ls)) offset
              label rest [] p0) as (p1 & Hrun1 & Hn1 & Hf1 & Hh1 & Ho1).
  destruct (left_loop_twins_obj host_ax (Z.of_nat (length ls)) offset rest 1
              ([] ++ [host_ax]) p1) as
    (p2 & Hrun2 & Hn2 & Hf2 & Hobj2 & Hold2 & Hh2); [lia..|].
  rewrite Hrun2 in Hrun1. simpl in Hrun1.
  assert (axes_objs p2 host_ax = axes_objs p1 host_ax) as Hh2'.
  { rewrite Hh2, Hh1. destruct rest; [done|]. apply configured_left_ticks. }
  destruct (axes_tail host_ax y_label_right offset
              (host_ax :: seq (next_axes p1) (length rest)) p2) as
    (p' & Hrun & Hn' & Hright & Hold & Hhin & _ & Hfig & Hfigs); [lia| |].
  { intros ax [->|[? ?]%elem_of_seq]%elem_of_cons; lia. }
  assert (ax_figure (axes_objs p2 host_ax) = fig) as Hfig2.
  { rewrite Hh2', Hh1, configured_figure, Hh0. by destruct x_label. }
  assert (ax_figure (axes_objs p1 host_ax) = fig) as Hfig1.
  { by rewrite <- Hh2'. }
  rewrite Hfig2 in *. fold rs in Hrun, Hn', Hright, Hhin.
  assert (next_axes p1 = n) as Hnn by (unfold n; congruence).
  rewrite Hnn in *. rewrite Hn2 in *.
  exists p'. split_and!.
  - rewrite Hpre. cbn [truthy]. rewrite bool_decide_eq_false_2 by done.
    cbn [negb]. rewrite (bind_ok _ _ _ _ _ Hrun1). exact Hrun.
  - rewrite Hhin by (by left). rewrite Hh2', Hh1, Hh0.
    destruct rs; [done|]. by rewrite configured_left_ticks.
  - intros k lbl Hk. rewrite Hold.
    + rewrite decide_True.
      * rewrite (Hobj2 k lbl Hk). by rewrite Hfig1.
      * right. apply elem_of_seq. apply lookup_lt_Some in Hk. lia.
    + apply lookup_lt_Some in Hk. lia.
    + lia.
  - intros j lbl Hj. by apply Hright.
  - rewrite Hfig. by rewrite Hf2, Hf1, Hf0.
  - intros fig' Hne. rewrite Hfigs by done. by rewrite Hf2, Hf1, Hf0.
  - intros ax Hax Hne. rewrite Hold by lia.
    rewrite decide_False.
    + rewrite Hold2 by lia. rewrite Ho1 by done. by apply Ho0.
    + intros [?|[? ?]%elem_of_seq]%elem_of_cons; [done|lia].
Qed.

(** The stack built from one left label given as a string. *)
Lemma axes_single_label_objects host_ax x_label s y_label_right offset p :
  host_ax < next_axes p ->
  let rs := right_labels y_label_right in
  let n := next_axes p in
  let fig := ax_figure (axes_objs p host_ax) in
  let labelled :=
    with_ylabel s
      (with_grid true
         match x_label with
         | Some s => with_xlabel s (axes_objs p host_ax)
         | None => axes_objs p host_ax
         end) in
  exists p',
    axes host_ax x_label (Some (label_str s)) y_label_right offset p
      = (p', Ok ([host_ax] ++ seq n (length rs))) /\
    axes_objs p' host_ax =
      with_useOffset false
        match rs with
        | [] => labelled
        | _ => with_yticks_position side_left labelled
        end /\
    (forall j lbl, rs !! j = Some lbl ->
       axes_objs p' (n + j) =
         with_useOffset false
           (configured side_right (bool_decide (0 < j))
              (right_spine offset j) lbl (new_twin fig))) /\
    figure_objs p' fig =
      mkFigureObj (fig_suptitle (figure_objs p fig))
        (fig_tight_layout (figure_objs p fig) ++
         [layout_rect (fig_suptitle (figure_objs p fig))]) /\
    (forall fig', fig' <> fig -> figure_objs p' fig' = figure_objs p fig') /\
    (forall ax, ax < n -> ax <> host_ax -> axes_objs p' ax = axes_objs p ax).
Proof.
  intros Hhost rs n fig labelled. unfold axes.
  match goal with |- context [bind _ (fun _ => bind (grid host_ax) (fun _ => ?k))] =>
    destruct (axes_prelude_obj host_ax x_label k p) as
      (p0 & Hpre & Hn0 & Hf0 & Hh0 & Ho0)
  end.
  set (p2 := (set_ylabel host_ax s p0).1).
  assert (axes_objs p2 host_ax = labelled) as Hh2.
  { unfold p2, labelled. simpl. by rewrite fn_lookup_alter, Hh0. }
  destruct (axes_tail host_ax y_label_right offset [host_ax] p2) as
    (p' & Hrun & Hn' & Hright & Hold & Hhin & _ & Hfig & Hfigs).
  { simpl. lia. }
  { intros ax ->%list_elem_of_singleton. simpl. lia. }
  assert (ax_figure (axes_objs p2 host_ax) = fig) as Hfig2.
  { rewrite Hh2. unfold labelled. simpl. by destruct x_label. }
  rewrite Hfig2 in *. fold rs in Hrun, Hn', Hright, Hhin.
  assert (next_axes p2 = n) as Hnn by (unfold n; by rewrite <- Hn0).
  rewrite Hnn in *.
  exists p'. split_and!.
  - rewrite Hpre. exact Hrun.
  - rewrite Hhin by (by left). by rewrite Hh2.
  - done.
  - rewrite Hfig. simpl. by rewrite Hf0.
  - intros fig' Hne. rewrite Hfigs by done. simpl. by rewrite Hf0.
  - intros ax Hax Hne. rewrite Hold by lia.
    rewrite decide_False by (by intros ->%list_elem_of_singleton).
    unfold p2. simpl. rewrite fn_lookup_alter_ne by done. by apply Ho0.
Qed.

(** The stack built without left labels: [None] or an empty collection. *)
Lemma axes_no_left_objects host_ax x_label y_label_left y_label_right offset p :
  host_ax < next_axes p -> left_count y_label_left = 0 ->
  let rs := right_labels y_label_right in
  let n := next_axes p in
  let fig := ax_figure (axes_objs p host_ax) in
  let gridded :=
    with_grid true
      match x_label with
      | Some s => with_xlabel s (axes_objs p host_ax)
      | None => axes_objs p host_ax
      end in
  exists p',
    axes host_ax x_label y_label_left y_label_right offset p
      = (p', Ok ([] ++ seq n (length rs))) /\
    axes_objs p' host_ax =
      match rs with
      | [] => gridded
      | _ => with_yticks_position side_left gridded
      end /\
    (forall j lbl, rs !! j = Some lbl ->
       axes_objs p' (n + j) =
         with_useOffset false
           (configured side_right (bool_decide (0 < j))
              (right_spine offset j) lbl (new_twin fig))) /\
    figure_objs p' fig =
      mkFigureObj (fig_suptitle (figure_objs p fig))
        (fig_tight_layout (figure_objs p fig) ++
         [layout_rect (fig_suptitle (figure_objs p fig))]) /\
    (forall fig', fig' <> fig -> figure_objs p' fig' = figure_objs p fig') /\
    (forall ax, ax < n -> ax <> host_ax -> axes_objs p' ax = axes_objs p ax).
Proof.
  intros Hhost Hcount rs n fig gridded. unfold axes.
  match goal with |- context [bind _ (fun _ => bind (grid host_ax) (fun _ => ?k))] =>
    destruct (axes_prelude_obj host_ax x_label k p) as
      (p0 & Hpre & Hn0 & Hf0 & Hh0 & Ho0)
  end.
  destruct (axes_tail host_ax y_label_right offset [] p0) as
    (p' & Hrun & Hn' & Hright & Hold & _ & Hhout & Hfig & Hfigs).
  { lia. }
  { intros ax []%elem_of_nil. }
  assert (ax_figure (axes_objs p0 host_ax) = fig) as Hfig0.
  { rewrite Hh0. simpl. by destruct x_label. }
  rewrite Hfig0 in *. fold rs in Hrun, Hn', Hright, Hhout.
  rewrite Hn0 in *. fold n in Hrun, Hn', Hright, Hold.
  exists p'. split_and!.
  - rewrite Hpre.
    destruct y_label_left as [[s|[|l ls]]|]; simpl in Hcount; try done;
      exact Hrun.
  - rewrite Hhout by apply not_elem_of_nil. by rewrite Hh0.
  - done.
  - rewrite Hfig. by rewrite Hf0.
  - intros fig' Hne. rewrite Hfigs by done. by rewrite Hf0.
  - intros ax Hax Hne. rewrite Hold by done.
    rewrite decide_False by apply not_elem_of_nil. by apply Ho0.
Qed.

Lemma with_useOffset_figure b a :
  ax_figure (with_useOffset b a) = ax_figure a.
Proof. done. Qed.




(** Every Axes [axes] returns for a collection of left labels is set up
    for its side: the left Axes of index [i] carries the [i]-th left label
    and the right Axes of index [j] the [j]-th right label, with label,
    ticks and shown spine on its side and offset notation off; every Axes
    but the one next to the canvas on its side (the last left one, the
    first right one) has its frame on, its patch hidden and its three
    other spines hidden; and all of them are on the figure of the host. *)
Theorem axes_configures_every_axis host_ax x_label ls y_label_right offset p :
  host_ax < next_axes p -> ls <> [] ->
  let N := length ls in
  let rs := right_labels y_label_right in
  exists p' axs,
    axes host_ax x_label (Some (label_coll ls)) y_label_right offset p
      = (p', Ok axs) /\
    (forall i label, ls !! i = Some label ->
       exists ax, axs !! i = Some ax /\
         stack_axis side_left (bool_decide (i < N - 1)) label
                    (axes_objs p' ax) /\
         ax_figure (axes_objs p' ax) = ax_figure (axes_objs p host_ax)) /\
    (forall j label, rs !! j = Some label ->
       exists ax, axs !! (N + j) = Some ax /\
         stack_axis side_right (bool_decide (0 < j)) label
                    (axes_objs p' ax) /\
         ax_figure (axes_objs p' ax) = ax_figure (axes_objs p host_ax)).
Proof.
  intros Hhost Hls N rs. destruct ls as [|label rest]; [done|].
  destruct (axes_stack_objects host_ax x_label label rest y_label_right
              offset p Hhost) as
    (p' & Hrun & Hh & Hleft & Hright & _).
  fold rs in Hrun, Hright.
  eexists p', _. split; [exact Hrun|]. split.
  - intros [|k] lbl Hk; simpl in Hk.
    + injection Hk as <-. exists host_ax. split; [done|].
      rewrite Hh. split.
      * erewrite (bool_decide_ext (0 < N - 1)); [apply configured_stack_axis|].
        unfold N. simpl. lia.
      * rewrite with_useOffset_figure, configured_figure. simpl.
        by destruct x_label.
    + exists (next_axes p + k). split.
      * simpl. rewrite lookup_app_l
          by (rewrite length_seq; by apply lookup_lt_Some in Hk).
        apply lookup_seq_lt. by apply lookup_lt_Some in Hk.
      * rewrite (Hleft k lbl Hk). split.
        -- erewrite (bool_decide_ext (S k < N - 1));
             [apply configured_stack_axis|].
           unfold N. simpl. lia.
        -- by rewrite with_useOffset_figure, configured_figure.
  - intros j lbl Hj. exists (next_axes p + length rest + j). split.
    + unfold N. simpl. rewrite lookup_app_r by (rewrite length_seq; lia).
      rewrite length_seq.
      replace (length rest + j - length rest) with j by lia.
      apply lookup_seq_lt. by apply lookup_lt_Some in Hj.
    + rewrite (Hright j lbl Hj). split.
      * apply configured_stack_axis.
      * by rewrite with_useOffset_figure, configured_figure.
Qed.

Lemma axes_configures_every_axis_witness :
  exists p' axs,
    axes 0 None (Some (label_coll ["A"; "B"])) (Some (label_str "C"))
         default_offset single_axes_plot = (p', Ok axs) /\
    (exists ax, axs !! 0 = Some ax /\
       stack_axis side_left true "A" (axes_objs p' ax)) /\
    (exists ax, axs !! 2 = Some ax /\
       stack_axis side_right false "C" (axes_objs p' ax)).
Proof.
  destruct (axes_configures_every_axis 0 None ["A"; "B"]
              (Some (label_str "C")) default_offset single_axes_plot)
    as (p' & axs & Hrun & Hleft & Hright).
  - simpl. lia.
  - done.
  - exists p', axs. split; [done|]. split.
    + destruct (Hleft 0 "A" eq_refl) as (ax & Hax & Hs & _). by exists ax.
    + destruct (Hright 0 "C" eq_refl) as (ax & Hax & Hs & _). by exists ax.
Defined.

(** With one left label given as a string, [axes] returns the host Axes
    followed by the new right Axes. The host gets the label and has offset
    notation switched off, but none of its spines is moved, shown or
    hidden, and its frame, patch and label side stay as they were; the
    right Axes are set up as in a stack. *)
Theorem axes_single_left_label host_ax x_label s y_label_right offset p :
  host_ax < next_axes p ->
  let rs := right_labels y_label_right in
  exists p',
    axes host_ax x_label (Some (label_str s)) y_label_right offset p
      = (p', Ok (host_ax :: seq (next_axes p) (length rs))) /\
    ax_ylabel (axes_objs p' host_ax) = s /\
    ax_useOffset (axes_objs p' host_ax) = false /\
    ax_spines (axes_objs p' host_ax) = ax_spines (axes_objs p host_ax) /\
    ax_frame_on (axes_objs p' host_ax) = ax_frame_on (axes_objs p host_ax) /\
    ax_patch_visible (axes_objs p' host_ax)
      = ax_patch_visible (axes_objs p host_ax) /\
    ax_ylabel_position (axes_objs p' host_ax)
      = ax_ylabel_position (axes_objs p host_ax) /\
    (forall j label, rs !! j = Some label ->
       stack_axis side_right (bool_decide (0 < j)) label
                  (axes_objs p' (next_axes p + j)) /\
       right_offset p' (next_axes p + j)
         = position_axes (right_spine offset j)).
Proof.
  intros Hhost rs.
  destruct (axes_single_label_objects host_ax x_label s y_label_right offset p
              Hhost) as (p' & Hrun & Hh & Hright & _).
  fold rs in Hrun, Hh, Hright. exists p'. split; [exact Hrun|].
  rewrite Hh. split_and!; try (by destruct rs, x_label).
  intros j label Hj. rewrite (Hright j label Hj). split.
  - apply configured_stack_axis.
  - unfold right_offset. rewrite (Hright j label Hj).
    change (ax_spines (with_useOffset false ?a)) with (ax_spines a).
    apply configured_position.
Qed.

Lemma axes_single_left_label_witness :
  exists p',
    axes 0 None (Some (label_str "A")) (Some (label_coll ["C"; "D"]))
         default_offset single_axes_plot = (p', Ok [0; 1; 2]) /\
    ax_ylabel (axes_objs p' 0) = "A" /\
    left_offset p' 0 = position_default.
Proof.
  destruct (axes_single_left_label 0 None "A" (Some (label_coll ["C"; "D"]))
              default_offset single_axes_plot) as (p' & Hrun & Hl & _ & Hsp & _).
  - simpl. lia.
  - exists p'. split_and!; [exact Hrun|done|].
    unfold left_offset. by rewrite Hsp.
Defined.

(** Without left labels ([None] or an empty collection) the list [axes]
    returns holds the new right Axes only: the host Axes is not in it, and
    its y-label, its offset notation and its spines are left as they were.
    What the call does to the host is this and no more: its grid is
    switched on, its x-label is set if one is given, and its y-ticks are
    moved to the left by [twinx] if a right Axes is made. *)
Theorem axes_without_left_labels host_ax x_label y_label_left y_label_right
    offset p :
  host_ax < next_axes p -> left_count y_label_left = 0 ->
  let rs := right_labels y_label_right in
  let gridded :=
    with_grid true
      match x_label with
      | Some s => with_xlabel s (axes_objs p host_ax)
      | None => axes_objs p host_ax
      end in
  exists p',
    axes host_ax x_label y_label_left y_label_right offset p
      = (p', Ok (seq (next_axes p) (length rs))) /\
    (host_ax ∉ seq (next_axes p) (length rs)) /\
    axes_objs p' host_ax =
      match rs with
      | [] => gridded
      | _ :: _ => with_yticks_position side_left gridded
      end /\
    ax_ylabel (axes_objs p' host_ax) = ax_ylabel (axes_objs p host_ax) /\
    ax_useOffset (axes_objs p' host_ax) = ax_useOffset (axes_objs p host_ax) /\
    ax_spines (axes_objs p' host_ax) = ax_spines (axes_objs p host_ax) /\
    ax_grid (axes_objs p' host_ax) = true /\
    (forall j label, rs !! j = Some label ->
       stack_axis side_right (bool_decide (0 < j)) label
                  (axes_objs p' (next_axes p + j))).
Proof.
  intros Hhost Hcount rs gridded.
  destruct (axes_no_left_objects host_ax x_label y_label_left y_label_right
              offset p Hhost Hcount) as (p' & Hrun & Hh & Hright & _).
  fold rs in Hrun, Hh, Hright. exists p'. split; [exact Hrun|].
  rewrite Hh. split_and!; try (by destruct rs, x_label).
  - rewrite elem_of_seq. lia.
  - intros j label Hj. rewrite (Hright j label Hj).
    apply configured_stack_axis.
Qed.

Lemma axes_without_left_labels_witness :
  exists p',
    axes 0 None None (Some (label_str "C")) default_offset single_axes_plot
      = (p', Ok [1]) /\
    axes_objs p' 0 =
      with_yticks_position side_left
        (with_grid true (axes_objs single_axes_plot 0)) /\
    ax_useOffset (axes_objs p' 0) = true.
Proof.
  destruct (axes_without_left_labels 0 None None (Some (label_str "C"))
              default_offset single_axes_plot)
    as (p' & Hrun & _ & Hh & _ & Hoff & _).
  - simpl. lia.
  - done.
  - exists p'. split_and!; [exact Hrun|exact Hh|by rewrite Hoff].
Defined.

(** For every argument [axes] returns without raising. The list has the
    host Axes first when a left label is given, then the new Axes in
    creation order, all different: as many Axes as there are labels. The
    layout pass runs once, on the figure of the host: [tight_layout] with
    the title rectangle when the figure has a non-empty title, plain
    otherwise; the title stays, and no other figure is touched. *)
Theorem axes_result_and_layout host_ax x_label y_label_left y_label_right
    offset p :
  host_ax < next_axes p ->
  let L := left_count y_label_left in
  let M := length (right_labels y_label_right) in
  let fig := ax_figure (axes_objs p host_ax) in
  exists p' axs,
    axes host_ax x_label y_label_left y_label_right offset p = (p', Ok axs) /\
    axs = (if decide (L = 0) then [] else [host_ax])
            ++ seq (next_axes p) (L - 1 + M) /\
    length axs = L + M /\ NoDup axs /\
    fig_tight_layout (figure_objs p' fig) =
      fig_tight_layout (figure_objs p fig) ++
      [layout_rect (fig_suptitle (figure_objs p fig))] /\
    fig_suptitle (figure_objs p' fig) = fig_suptitle (figure_objs p fig) /\
    (forall fig', fig' <> fig -> figure_objs p' fig' = figure_objs p fig').
Proof.
  intros Hhost L M fig.
  assert (forall k, NoDup (host_ax :: seq (next_axes p) k)) as Hnd.
  { intros k. apply NoDup_cons. split; [|apply NoDup_seq].
    rewrite elem_of_seq. lia. }
  destruct y_label_left as [[s|[|label rest]]|].
  - destruct (axes_single_label_objects host_ax x_label s y_label_right
                offset p Hhost) as (p' & Hrun & _ & _ & Hfig & Hfigs & Hoth).
    exists p', (host_ax :: seq (next_axes p) M).
    split_and!; try done.
    + simpl. rewrite length_seq. unfold L. simpl. lia.
    + unfold fig. by rewrite Hfig.
    + unfold fig. by rewrite Hfig.
  - destruct (axes_no_left_objects host_ax x_label (Some (label_coll []))
                y_label_right offset p Hhost eq_refl)
      as (p' & Hrun & _ & _ & Hfig & Hfigs & Hoth).
    exists p', (seq (next_axes p) M). split_and!; try done.
    + simpl. by rewrite length_seq.
    + apply NoDup_seq.
    + unfold fig. by rewrite Hfig.
    + unfold fig. by rewrite Hfig.
  - destruct (axes_stack_objects host_ax x_label label rest y_label_right
                offset p Hhost) as
      (p' & Hrun & _ & _ & _ & Hfig & Hfigs & Hoth).
    exists p', (host_ax :: seq (next_axes p) (length rest + M)).
    assert (forall k, (host_ax :: seq (next_axes p) (length rest)) ++
                      seq (next_axes p + length rest) k =
                      host_ax :: seq (next_axes p) (length rest + k)) as Heq.
    { intros k. simpl. by rewrite seq_app. }
    rewrite Heq in Hrun. split_and!; try done.
    + unfold L. simpl. by rewrite Nat.sub_0_r.
    + simpl. rewrite length_seq. unfold L. simpl. lia.
    + unfold fig. by rewrite Hfig.
    + unfold fig. by rewrite Hfig.
  - destruct (axes_no_left_objects host_ax x_label None y_label_right
                offset p Hhost eq_refl)
      as (p' & Hrun & _ & _ & Hfig & Hfigs & Hoth).
    exists p', (seq (next_axes p) M). split_and!; try done.
    + simpl. by rewrite length_seq.
    + apply NoDup_seq.
    + unfold fig. by rewrite Hfig.
    + unfold fig. by rewrite Hfig.
Qed.

Lemma axes_result_and_layout_witness :
  exists p' axs,
    axes 0 (Some "t") (Some (label_coll ["A"; "B"])) (Some (label_str "C"))
         default_offset single_axes_plot = (p', Ok axs) /\
    axs = [0; 1; 2] /\
    fig_tight_layout (figure_objs p' 0) = [None].
Proof.
  destruct (axes_result_and_layout 0 (Some "t") (Some (label_coll ["A"; "B"]))
              (Some (label_str "C")) default_offset single_axes_plot)
    as (p' & axs & Hrun & Hax & _ & _ & Hlay & _).
  - simpl. lia.
  - exists p', axs. split_and!; done.
Defined.

(** * [figure] and [get_window_title] *)

Lemma default_figure_title_nonempty count : default_figure_title count <> "".
Proof. unfold default_figure_title. simpl. discriminate. Qed.

Lemma title_used_nonempty figure_title fig s :
  title_used figure_title fig s <> "".
Proof.
  unfold title_used. destruct figure_title as [t|].
  - case_bool_decide; [apply default_figure_title_nonempty | done].
  - apply default_figure_title_nonempty.
Qed.

(** The path of [figure] that makes a new figure at once. *)
Lemma figure_new fuel figure_title window_title fig s :
  makes_new fig s = true ->
  let f := py_next_fig s in
  let t := title_used figure_title fig s in
  let w := window_title_used figure_title window_title fig s in
  exists s',
    figure (S fuel) figure_title window_title fig s = (s', Ok f) /\
    _figure_count s' = S (_figure_count s) /\
    py_next_fig s' = S (py_next_fig s) /\
    py_warnings s' = py_warnings s /\
    fig_suptitle (figure_objs (py_plot s') f) = Some t /\
    py_info s' f =
      mkFigInfo true false (if bool_decide (w = "") then None else Some w)
        (Some t) (Some w) 0 /\
    axes_objs (py_plot s') = axes_objs (py_plot s) /\
    next_axes (py_plot s') = next_axes (py_plot s) /\
    (forall g, g <> f ->
       py_info s' g = py_info s g /\
       figure_objs (py_plot s') g = figure_objs (py_plot s) g).
Proof.
  intros Hnew f t w.
  assert (count_after fig s = S (_figure_count s)) as Hcount.
  { unfold count_after. by rewrite Hnew. }
  assert (exists s1,
    (let create :=
       f <- plt_figure ;;
       modify (fun s =>
         mkPyplot (py_plot s) (py_info s) (py_next_fig s)
                  (S (_figure_count s)) (py_warnings s)) ;;;
       ret f in
     match fig with
     | None => create
     | Some f =>
         has_canvas <- gets (fun s => fi_has_canvas (py_info s f)) ;;
         if has_canvas then fig_clear f ;;; ret f else create
     end) s = (s1, Ok f) /\
    s1 = mkPyplot (mkPlot (axes_objs (py_plot s)) (next_axes (py_plot s))
                      (<[f := mkFigureObj None []]> (figure_objs (py_plot s))))
              (<[f := mkFigInfo true false None None None 0]> (py_info s))
              (S f) (S (_figure_count s)) (py_warnings s)) as (s1 & Hstep & Hs1).
  { eexists. split; [|reflexivity]. destruct fig as [f0|]; [|done].
    simpl in Hnew. apply negb_true_iff in Hnew.
    cbv zeta. unfold bind at 1. unfold gets. by rewrite Hnew. }
  cbn [figure]. rewrite (bind_ok _ _ _ _ _ Hstep).
  unfold bind at 1, gets. rewrite Hs1. cbn [_figure_count].
  fold (default_figure_title (S (_figure_count s))).
  assert (match figure_title with
          | Some t0 =>
              if bool_decide (t0 = "")
              then default_figure_title (S (_figure_count s)) else t0
          | None => default_figure_title (S (_figure_count s))
          end = t) as ->.
  { unfold t, title_used. by rewrite Hcount. }
  assert (match window_title with Some w0 => w0 | None => t end = w) as ->
    by done.
  unfold bind at 1. unfold fig_suptitle_set, set_figure_obj, modify.
  unfold bind at 1.
  destruct (bool_decide (w = "")) eqn:Hw.
  - cbn [ret]. eexists. split; [reflexivity|]. simpl.
    rewrite ?fn_lookup_alter, ?fn_lookup_insert. simpl.
    split_and!; try done.
    intros g Hg. rewrite ?fn_lookup_alter_ne by done.
    by rewrite ?fn_lookup_insert_ne by done.
  - unfold canvas_set_window_title. cbn [py_info].
    rewrite fn_lookup_insert. cbn [fi_closed].
    eexists. split; [reflexivity|]. simpl.
    rewrite ?fn_lookup_alter, ?fn_lookup_insert. simpl.
    split_and!; try done.
    intros g Hg. rewrite ?fn_lookup_alter_ne by done.
    by rewrite ?fn_lookup_insert_ne by done.
Qed.

Lemma figure_reuse_start fuel figure_title window_title f0 s :
  fi_has_canvas (py_info s f0) = true ->
  let t := title_used figure_title (Some f0) s in
  let w := window_title_used figure_title window_title (Some f0) s in
  let s1 := retitled f0 t s in
  figure (S fuel) figure_title window_title (Some f0) s =
    (fig <-
       (if bool_decide (w = "") then ret f0
        else
          fun s =>
            match canvas_set_window_title f0 w s with
            | (s', Raise AttributeError) =>
                (warn closed_figure_msg ;;;
                 figure fuel (Some t) (Some w) None) s'
            | (s', Raise e) => (s', Raise e)
            | (s', Ok _) => (s', Ok f0)
            end) ;;
     set_info fig (fun i =>
       mkFigInfo (fi_has_canvas i) (fi_closed i) (fi_canvas_title i)
                 (Some t) (Some w) (fi_clears i)) ;;;
     ret fig) s1.
Proof.
  intros Hcan t w s1.
  assert (count_after (Some f0) s = _figure_count s) as Hcount.
  { unfold count_after. simpl. by rewrite Hcan. }
  cbn [figure]. cbv zeta. unfold bind at 1. unfold bind at 1. unfold gets.
  rewrite Hcan. unfold bind at 1.
  destruct (fig_clear f0 s) as [sc r] eqn:Hclear.
  assert (r = Ok tt /\ sc = (fig_clear f0 s).1) as [-> Hsc].
  { rewrite Hclear. unfold fig_clear, bind in Hclear. simpl in Hclear.
    by injection Hclear as <- <-. }
  cbn [ret]. unfold bind at 1. unfold gets.
  assert (_figure_count sc = _figure_count s) as Hc by (by rewrite Hsc).
  rewrite Hc.
  assert (match figure_title with
          | Some t0 =>
              if bool_decide (t0 = "")
              then default_figure_title (_figure_count s) else t0
          | None => default_figure_title (_figure_count s)
          end = t) as ->.
  { unfold t, title_used. by rewrite Hcount. }
  assert (match window_title with Some w0 => w0 | None => t end = w) as ->
    by done.
  unfold bind at 1. unfold s1, retitled. rewrite <- Hsc. reflexivity.
Qed.

Lemma retitled_facts f0 t s :
  _figure_count (retitled f0 t s) = _figure_count s /\
  py_next_fig (retitled f0 t s) = py_next_fig s /\
  py_warnings (retitled f0 t s) = py_warnings s /\
  axes_objs (py_plot (retitled f0 t s)) = axes_objs (py_plot s) /\
  next_axes (py_plot (retitled f0 t s)) = next_axes (py_plot s) /\
  fig_suptitle (figure_objs (py_plot (retitled f0 t s)) f0) = Some t /\
  py_info (retitled f0 t s) f0 =
    mkFigInfo (fi_has_canvas (py_info s f0)) (fi_closed (py_info s f0))
              (fi_canvas_title (py_info s f0)) (fi_figure_title (py_info s f0))
              (fi_window_title (py_info s f0)) (S (fi_clears (py_info s f0))) /\
  (forall g, g <> f0 ->
     py_info (retitled f0 t s) g = py_info s g /\
     figure_objs (py_plot (retitled f0 t s)) g = figure_objs (py_plot s) g).
Proof.
  unfold retitled. simpl. rewrite !fn_lookup_alter. split_and!; try done.
  intros g Hg. by rewrite !fn_lookup_alter_ne.
Qed.

(** The path of [figure] that keeps the figure given: it has a canvas, and
    either no window title is to be set or its window is still there. *)
Lemma figure_reuse_ok fuel figure_title window_title f0 s :
  fi_has_canvas (py_info s f0) = true ->
  let t := title_used figure_title (Some f0) s in
  let w := window_title_used figure_title window_title (Some f0) s in
  w = "" \/ fi_closed (py_info s f0) = false ->
  exists s',
    figure (S fuel) figure_title window_title (Some f0) s = (s', Ok f0) /\
    _figure_count s' = _figure_count s /\
    py_next_fig s' = py_next_fig s /\
    py_warnings s' = py_warnings s /\
    fig_suptitle (figure_objs (py_plot s') f0) = Some t /\
    py_info s' f0 =
      mkFigInfo true (fi_closed (py_info s f0))
        (if bool_decide (w = "") then fi_canvas_title (py_info s f0)
         else Some w)
        (Some t) (Some w) (S (fi_clears (py_info s f0))) /\
    axes_objs (py_plot s') = axes_objs (py_plot s) /\
    next_axes (py_plot s') = next_axes (py_plot s) /\
    (forall g, g <> f0 ->
       py_info s' g = py_info s g /\
       figure_objs (py_plot s') g = figure_objs (py_plot s) g).
Proof.
  intros Hcan t w Hw.
  rewrite (figure_reuse_start fuel figure_title window_title f0 s Hcan).
  fold t w.
  destruct (retitled_facts f0 t s) as (Hc & Hn & Hwarn & Hax & Hnax & Hsup & Hinfo & Hoth).
  rewrite Hcan in Hinfo.
  destruct (bool_decide (w = "")) eqn:Hwe.
  - unfold bind, ret, set_info, modify.
    eexists. split; [reflexivity|].
    cbn [_figure_count py_next_fig py_warnings py_plot py_info].
    rewrite fn_lookup_alter, Hinfo. cbn [fi_has_canvas fi_closed fi_canvas_title fi_clears].
    split_and!; try done.
    intros g Hg. rewrite fn_lookup_alter_ne by done. by apply Hoth.
  - destruct Hw as [Hw|Hw]; [by rewrite Hw in Hwe|].
    rewrite Hw in Hinfo.
    unfold bind at 1. unfold canvas_set_window_title. cbv beta.
    rewrite Hinfo. cbn [fi_closed]. rewrite Hw.
    unfold bind, ret, set_info, modify. cbn [fst snd].
    eexists. split; [reflexivity|].
    cbn [_figure_count py_next_fig py_warnings py_plot py_info].
    rewrite !fn_lookup_alter, Hinfo. cbn [fi_has_canvas fi_closed fi_canvas_title fi_clears].
    split_and!; try done.
    intros g Hg. rewrite !fn_lookup_alter_ne by done. by apply Hoth.
Qed.

(** The path of [figure] through the handler: the figure given has lost its
    window, so a warning is issued and the call made again without it. *)
Lemma figure_reuse_closed fuel figure_title window_title f0 s :
  fi_has_canvas (py_info s f0) = true ->
  fi_closed (py_info s f0) = true ->
  let f := py_next_fig s in
  let t := title_used figure_title (Some f0) s in
  let w := window_title_used figure_title window_title (Some f0) s in
  w <> "" ->
  exists s',
    figure (S (S fuel)) figure_title window_title (Some f0) s = (s', Ok f) /\
    _figure_count s' = S (_figure_count s) /\
    py_next_fig s' = S (py_next_fig s) /\
    py_warnings s' = py_warnings s ++ [closed_figure_msg] /\
    fig_suptitle (figure_objs (py_plot s') f) = Some t /\
    py_info s' f = mkFigInfo true false (Some w) (Some t) (Some w) 0 /\
    axes_objs (py_plot s') = axes_objs (py_plot s) /\
    next_axes (py_plot s') = next_axes (py_plot s) /\
    (f0 <> f ->
     fig_suptitle (figure_objs (py_plot s') f0) = Some t /\
     py_info s' f0 =
       mkFigInfo true true (fi_canvas_title (py_info s f0))
         (fi_figure_title (py_info s f0)) (fi_window_title (py_info s f0))
         (S (fi_clears (py_info s f0)))) /\
    (forall g, g <> f0 -> g <> f ->
       py_info s' g = py_info s g /\
       figure_objs (py_plot s') g = figure_objs (py_plot s) g).
Proof.
  intros Hcan Hclosed f t w Hw.
  rewrite (figure_reuse_start (S fuel) figure_title window_title f0 s Hcan).
  fold t w.
  destruct (retitled_facts f0 t s) as
    (Hc & Hn & Hwarn & Hax & Hnax & Hsup & Hinfo & Hoth).
  rewrite Hcan, Hclosed in Hinfo.
  rewrite bool_decide_eq_false_2 by done.
  unfold bind at 1. unfold canvas_set_window_title. cbv beta.
  rewrite Hinfo. cbn [fi_closed].
  set (s2 := (warn closed_figure_msg (retitled f0 t s)).1).
  assert (warn closed_figure_msg (retitled f0 t s) = (s2, Ok tt)) as Hwarn2
    by done.
  unfold bind at 1. rewrite Hwarn2.
  assert (t <> "") as Ht by apply title_used_nonempty.
  destruct (figure_new fuel (Some t) (Some w) None s2 eq_refl) as
    (s3 & Hrun & Hc3 & Hn3 & Hw3 & Hsup3 & Hinfo3 & Hax3 & Hnax3 & Hoth3).
  assert (title_used (Some t) None s2 = t) as Ht2.
  { unfold title_used. by rewrite bool_decide_eq_false_2. }
  rewrite Ht2 in Hsup3, Hinfo3.
  change (window_title_used (Some t) (Some w) None s2) with w in Hinfo3.
  rewrite bool_decide_eq_false_2 in Hinfo3 by done.
  assert (_figure_count s2 = _figure_count s /\
          py_next_fig s2 = f /\
          py_warnings s2 = py_warnings s ++ [closed_figure_msg] /\
          py_plot s2 = py_plot (retitled f0 t s) /\
          py_info s2 = py_info (retitled f0 t s))
    as (Hc2 & Hf2 & Hw2 & Hp2 & Hi2).
  { unfold s2, warn, modify.
    cbn [fst _figure_count py_next_fig py_warnings py_plot py_info].
    by rewrite Hc, Hn, Hwarn. }
  rewrite Hf2 in Hrun, Hsup3, Hinfo3, Hoth3.
  rewrite Hrun.
  unfold bind, ret, set_info, modify. cbn [fst snd].
  eexists. split; [reflexivity|].
  cbn [_figure_count py_next_fig py_warnings py_plot py_info].
  rewrite fn_lookup_alter, Hinfo3.
  cbn [fi_has_canvas fi_closed fi_canvas_title fi_clears].
  assert (forall g, g <> f ->
            py_info s3 g = py_info (retitled f0 t s) g /\
            figure_objs (py_plot s3) g =
              figure_objs (py_plot (retitled f0 t s)) g) as Hoth3'.
  { intros g Hg. rewrite <- Hp2, <- Hi2. by apply Hoth3. }
  split_and!.
  - by rewrite Hc3, Hc2.
  - by rewrite Hn3, Hf2.
  - by rewrite Hw3, Hw2.
  - done.
  - done.
  - by rewrite Hax3, Hp2.
  - by rewrite Hnax3, Hp2.
  - intros Hne. rewrite fn_lookup_alter_ne by done.
    destruct (Hoth3' f0 Hne) as [-> ->]. by rewrite Hsup, Hinfo.
  - intros g Hg0 Hg. rewrite fn_lookup_alter_ne by done.
    destruct (Hoth3' g Hg) as [-> ->]. by apply Hoth.
Qed.

(** The three ways through [figure]. *)
Lemma figure_cases figure_title window_title fig s :
  let w := window_title_used figure_title window_title fig s in
  (makes_new fig s = true /\ reuse_fails figure_title window_title fig s = false) \/
  (exists f0, fig = Some f0 /\ fi_has_canvas (py_info s f0) = true /\
     makes_new fig s = false /\
     reuse_fails figure_title window_title fig s = false /\
     (w = "" \/ fi_closed (py_info s f0) = false)) \/
  (exists f0, fig = Some f0 /\ fi_has_canvas (py_info s f0) = true /\
     makes_new fig s = false /\
     reuse_fails figure_title window_title fig s = true /\
     fi_closed (py_info s f0) = true /\ w <> "").
Proof.
  intros w. destruct fig as [f0|]; [|by left].
  unfold reuse_fails, makes_new. fold w.
  destruct (fi_has_canvas (py_info s f0)) eqn:Hcan; [|by left].
  right. destruct (fi_closed (py_info s f0)) eqn:Hcl.
  - destruct (decide (w = "")) as [Hw|Hw].
    + left. exists f0. rewrite bool_decide_eq_true_2 by done.
      split_and!; auto.
    + right. exists f0. rewrite bool_decide_eq_false_2 by done.
      split_and!; auto.
  - left. exists f0. split_and!; auto.
Qed.

(** What every call of [figure] gives back. *)
Lemma figure_result fuel figure_title window_title fig s :
  let t := title_used figure_title fig s in
  let w := window_title_used figure_title window_title fig s in
  exists s' f,
    figure (S (S fuel)) figure_title window_title fig s = (s', Ok f) /\
    fig_suptitle (figure_objs (py_plot s') f) = Some t /\
    fi_figure_title (py_info s' f) = Some t /\
    fi_window_title (py_info s' f) = Some w /\
    (w <> "" -> fi_canvas_title (py_info s' f) = Some w) /\
    fi_has_canvas (py_info s' f) = true.
Proof.
  intros t w.
  destruct (figure_cases figure_title window_title fig s) as
    [[Hnew _]|[(f0 & -> & Hcan & _ & _ & Hok)|(f0 & -> & Hcan & _ & _ & Hcl & Hw)]].
  - destruct (figure_new (S fuel) figure_title window_title fig s Hnew) as
      (s' & Hrun & _ & _ & _ & Hsup & Hinfo & _).
    exists s', (py_next_fig s). fold t w in Hsup, Hinfo. rewrite Hinfo.
    split_and!; try done.
    intros Hw. simpl. by rewrite bool_decide_eq_false_2.
  - destruct (figure_reuse_ok (S fuel) figure_title window_title f0 s Hcan Hok)
      as (s' & Hrun & _ & _ & _ & Hsup & Hinfo & _).
    exists s', f0. fold t w in Hsup, Hinfo. rewrite Hinfo.
    split_and!; try done.
    intros Hw. simpl. by rewrite bool_decide_eq_false_2.
  - destruct (figure_reuse_closed fuel figure_title window_title f0 s Hcan Hcl
                Hw) as (s' & Hrun & _ & _ & _ & Hsup & Hinfo & _).
    exists s', (py_next_fig s). fold t w in Hsup, Hinfo. rewrite Hinfo.
    by split_and!.
Qed.

(** [figure] returns for every argument and in every state, and what it
    returns goes round through [get_window_title]: the window title read
    back is the one given, or the figure title when none was given. The
    figure title is never empty; a window title that is not empty is also
    set on the canvas. A figure that comes straight from [plt.figure()] has
    no [window_title], and [get_window_title] raises [AttributeError]. *)
Theorem figure_then_get_window_title fuel figure_title window_title fig s :
  let t := title_used figure_title fig s in
  let w := window_title_used figure_title window_title fig s in
  exists s' f,
    figure (S (S fuel)) figure_title window_title fig s = (s', Ok f) /\
    get_window_title f s' = (s', Ok w) /\
    fi_figure_title (py_info s' f) = Some t /\
    fig_suptitle (figure_objs (py_plot s') f) = Some t /\
    t <> "" /\
    (window_title = None -> w = t) /\
    (forall w0, window_title = Some w0 -> w = w0) /\
    (w <> "" -> fi_canvas_title (py_info s' f) = Some w) /\
    (forall s0,
       get_window_title (py_next_fig s0) (plt_figure s0).1
         = ((plt_figure s0).1, Raise AttributeError)).
Proof.
  intros t w.
  destruct (figure_result fuel figure_title window_title fig s) as
    (s' & f & Hrun & Hsup & Hft & Hwt & Hcan & _).
  exists s', f. split_and!.
  - exact Hrun.
  - unfold get_window_title. by rewrite Hwt.
  - exact Hft.
  - exact Hsup.
  - apply title_used_nonempty.
  - by intros ->.
  - by intros w0 ->.
  - exact Hcan.
  - intros s0. unfold get_window_title, plt_figure. cbn [fst py_info].
    by rewrite fn_lookup_insert.
Qed.




Lemma default_figure_title_inj n m :
  default_figure_title n = default_figure_title m -> n = m.
Proof.
  unfold default_figure_title. intros H.
  apply (inj (String.append "Figure ")) in H. apply (inj pretty) in H. lia.
Qed.

Lemma title_used_default figure_title fig s :
  figure_title = None \/ figure_title = Some "" ->
  title_used figure_title fig s = default_figure_title (count_after fig s).
Proof. by intros [-> | ->]. Qed.



(** A figure that is reused without a title is not given its own number:
    its title is [Figure (count - 1)], the default title of the figure made
    last, so the two figures end up with the same title; before any figure
    was counted the title is [Figure -1]. *)
Theorem figure_reuse_default_title fuel figure_title window_title f0 s :
  fi_has_canvas (py_info s f0) = true ->
  fi_closed (py_info s f0) = false ->
  figure_title = None \/ figure_title = Some "" ->
  let t := "Figure " +:+ pretty (Z.of_nat (_figure_count s) - 1)%Z in
  exists s',
    figure (S fuel) figure_title window_title (Some f0) s = (s', Ok f0) /\
    fig_suptitle (figure_objs (py_plot s') f0) = Some t /\
    (_figure_count s = 0 -> t = "Figure -1") /\
    (forall fuel0 ft0 wt0 s0 f1,
       ft0 = None \/ ft0 = Some "" ->
       figure (S fuel0) ft0 wt0 None s0 = (s, Ok f1) ->
       f0 <> f1 ->
       fig_suptitle (figure_objs (py_plot s') f1) = Some t).
Proof.
  intros Hcan Hopen Ht t.
  destruct (figure_reuse_ok fuel figure_title window_title f0 s Hcan
              (or_intror Hopen)) as
    (s' & Hrun & _ & _ & _ & Hsup & _ & _ & _ & Hoth).
  rewrite (title_used_default _ _ _ Ht) in Hsup.
  unfold count_after in Hsup. cbn [makes_new] in Hsup. rewrite Hcan in Hsup.
  cbn [negb] in Hsup. fold (default_figure_title (_figure_count s)) in t.
  exists s'. split_and!; try done.
  - intros H0. unfold t, default_figure_title. by rewrite H0.
  - intros fuel0 ft0 wt0 s0 f1 Ht0 Hrun0 Hne.
    destruct (figure_new fuel0 ft0 wt0 None s0 eq_refl) as
      (s1 & Hrun1 & Hc1 & _ & _ & Hsup1 & _).
    rewrite Hrun0 in Hrun1. injection Hrun1 as Hs1 Hf1. subst s1 f1.
    destruct (Hoth (py_next_fig s0)) as [_ ->]; [done|].
    rewrite Hsup1, (title_used_default _ _ _ Ht0).
    unfold count_after. cbn [makes_new]. by rewrite <- Hc1.
Qed.

Lemma figure_reuse_default_title_witness :
  exists s',
    figure 1 None None (Some 0) two_figures_sample = (s', Ok 0) /\
    fig_suptitle (figure_objs (py_plot s') 0) = Some "Figure 1" /\
    fig_suptitle (figure_objs (py_plot s') 1) = Some "Figure 1".
Proof.
  destruct (figure_reuse_default_title 0 None None 0 two_figures_sample)
    as (s' & Hrun & Ht & _ & Hsame).
  - reflexivity.
  - reflexivity.
  - by left.
  - exists s'. split_and!; [exact Hrun | exact Ht |].
    apply (Hsame 0 None None (figure 1 None None None initial_pyplot).1 1).
    + by left.
    + reflexivity.
    + lia.
Defined.

(** * [subplots], and [figure] with [axes] *)

Lemma add_subplots_ok fig n p :
  exists p',
    add_subplots fig n p = (p', Ok (seq (next_axes p) n)) /\
    next_axes p' = next_axes p + n /\
    figure_objs p' = figure_objs p /\
    (forall ax, ax < next_axes p -> axes_objs p' ax = axes_objs p ax) /\
    (forall ax, next_axes p <= ax < next_axes p + n ->
       axes_objs p' ax = new_subplot fig).
Proof.
  revert p. induction n as [|n IH]; intros p.
  - exists p. simpl. split_and!; [done|lia|done|done|intros; lia].
  - set (p1 := mkPlot (<[next_axes p := new_subplot fig]> (axes_objs p))
                      (S (next_axes p)) (figure_objs p)).
    destruct (IH p1) as (p' & Hrun & Hn & Hf & Hold & Hnew).
    exists p'. cbn [add_subplots]. unfold bind at 1. unfold add_subplot.
    fold p1. unfold bind at 1. rewrite Hrun. cbn [ret p1 next_axes].
    split_and!; try done.
    + rewrite Hn. simpl. lia.
    + intros ax Hax. rewrite Hold by (simpl; lia). simpl.
      apply fn_lookup_insert_ne. lia.
    + intros ax Hax. destruct (decide (ax = next_axes p)) as [->|Hne].
      * rewrite Hold by (simpl; lia). simpl. apply fn_lookup_insert.
      * apply Hnew. simpl. lia.
Qed.

Lemma subplots_gridspec_fits rows cols width_ratios height_ratios :
  ratios_fit width_ratios cols -> ratios_fit height_ratios rows ->
  forall fig sharex sharey p,
    (0 < rows)%Z -> (0 < cols)%Z ->
    subplots fig rows cols sharex sharey width_ratios height_ratios p =
    subplots fig rows cols sharex sharey None None p.
Proof.
  intros Hw Hh fig sharex sharey p Hr Hc.
  unfold subplots, Figure_subplots.
  rewrite !(bool_decide_eq_false_2 (rows <= 0)%Z) by lia.
  rewrite !(bool_decide_eq_false_2 (cols <= 0)%Z) by lia.
  cbn [orb].
  destruct width_ratios as [[|x l]|], height_ratios as [[|y l']|];
    simpl in Hw, Hh; try done; simpl;
    repeat match goal with H : _ /\ _ |- _ => destruct H end;
    rewrite ?bool_decide_eq_true_2 by done; simpl;
    rewrite ?bool_decide_eq_false_2 by done; done.
Qed.

(** Width ratios that add up to 0 make the call fail before an Axes is
    made. *)
Lemma subplots_zero_ratios fig rows cols sharex sharey l height_ratios p :
  (0 < rows)%Z -> (0 < cols)%Z -> ratios_fit height_ratios rows ->
  l <> [] -> Z.of_nat (length l) = cols -> foldr Z.add 0%Z l = 0%Z ->
  subplots fig rows cols sharex sharey (Some l) height_ratios p
    = (p, Raise (UserError "ZeroDivisionError")).
Proof.
  intros Hr Hc Hh Hl Hlen Hsum.
  unfold subplots, Figure_subplots.
  rewrite !(bool_decide_eq_false_2 (rows <= 0)%Z) by lia.
  rewrite !(bool_decide_eq_false_2 (cols <= 0)%Z) by lia.
  cbn [orb].
  destruct l as [|x l]; [done|].
  destruct height_ratios as [[|y l']|];
    simpl in Hh; simpl;
    repeat match goal with H : _ /\ _ |- _ => destruct H end;
    rewrite ?bool_decide_eq_true_2 by done; simpl;
    rewrite ?bool_decide_eq_false_2 by done; simpl;
    rewrite ?bool_decide_eq_true_2 by done; done.
Qed.

Lemma concat_grid_rows rows cols axs :
  length axs = rows * cols ->
  concat (grid_rows rows cols axs) = axs /\
  length (grid_rows rows cols axs) = rows /\
  Forall (fun row => length row = cols) (grid_rows rows cols axs).
Proof.
  revert axs. induction rows as [|rows IH]; intros axs Hlen.
  - simpl in *. by destruct axs.
  - simpl. destruct (IH (drop cols axs)) as (Hc & Hl & Hall).
    { rewrite length_drop. simpl in Hlen. lia. }
    rewrite Hc, Hl, take_drop. split_and!; try done.
    constructor; [|done]. rewrite length_take. simpl in Hlen. lia.
Qed.

Lemma subplots_ok fig rows cols sharex sharey width_ratios height_ratios p :
  (0 < rows)%Z -> (0 < cols)%Z ->
  ratios_fit width_ratios cols -> ratios_fit height_ratios rows ->
  let n := Z.to_nat rows * Z.to_nat cols in
  exists p' arr,
    subplots fig rows cols sharex sharey width_ratios height_ratios p
      = (p', Ok arr) /\
    array_axes arr = seq (next_axes p) n /\
    match arr with
    | single_axes _ => rows = 1%Z /\ cols = 1%Z
    | axes_1d _ => (rows = 1%Z \/ cols = 1%Z) /\ ~ (rows = 1%Z /\ cols = 1%Z)
    | axes_2d rs =>
        (1 < rows)%Z /\ (1 < cols)%Z /\ length rs = Z.to_nat rows /\
        Forall (fun row => length row = Z.to_nat cols) rs
    end /\
    next_axes p' = next_axes p + n /\
    figure_objs p' = figure_objs p /\
    (forall ax, ax < next_axes p -> axes_objs p' ax = axes_objs p ax) /\
    (forall ax, ax ∈ array_axes arr -> axes_objs p' ax = new_subplot fig).
Proof.
  intros Hr Hc Hw Hh n.
  rewrite (subplots_gridspec_fits rows cols width_ratios height_ratios Hw Hh)
    by done.
  destruct (add_subplots_ok fig n p) as (p' & Hrun & Hn & Hf & Hold & Hnew).
  assert (forall ax, ax ∈ seq (next_axes p) n -> axes_objs p' ax = new_subplot fig)
    as Hnew'.
  { intros ax Hax. apply Hnew. apply elem_of_seq in Hax. lia. }
  unfold subplots, Figure_subplots. cbn [bool_decide decide_rel].
  rewrite (bool_decide_eq_false_2 (rows <= 0)%Z) by lia.
  rewrite (bool_decide_eq_false_2 (cols <= 0)%Z) by lia.
  cbn [orb negb]. fold n.
  rewrite (bool_decide_eq_true_2 (@nil (string * list Z) = [])) by done.
  cbn [orb negb]. unfold bind at 1. rewrite Hrun.
  destruct (decide (rows = 1%Z)) as [Hr1|Hr1],
           (decide (cols = 1%Z)) as [Hc1|Hc1].
  - rewrite !bool_decide_eq_true_2 by done. cbn [andb].
    assert (n = 1) as Hn1 by (unfold n; lia). rewrite Hn1 in *.
    exists p', (single_axes (next_axes p)). by split_and!.
  - rewrite (bool_decide_eq_true_2 (rows = 1%Z)) by done.
    rewrite (bool_decide_eq_false_2 (cols = 1%Z)) by done. cbn [andb orb].
    exists p', (axes_1d (seq (next_axes p) n)). split_and!; try done.
    + by left.
    + tauto.
  - rewrite (bool_decide_eq_false_2 (rows = 1%Z)) by done.
    rewrite (bool_decide_eq_true_2 (cols = 1%Z)) by done. cbn [andb orb].
    exists p', (axes_1d (seq (next_axes p) n)). split_and!; try done.
    + by right.
    + tauto.
  - rewrite (bool_decide_eq_false_2 (rows = 1%Z)) by done.
    rewrite (bool_decide_eq_false_2 (cols = 1%Z)) by done. cbn [andb orb].
    destruct (concat_grid_rows (Z.to_nat rows) (Z.to_nat cols)
                (seq (next_axes p) n)) as (Hcat & Hlen & Hall).
    { by rewrite length_seq. }
    exists p', (axes_2d (grid_rows (Z.to_nat rows) (Z.to_nat cols)
                           (seq (next_axes p) n))).
    cbn [array_axes]. rewrite Hcat. split_and!; try done; lia.
Qed.

Lemma axes_layout host_ax x_label y_label_left y_label_right offset p :
  host_ax < next_axes p ->
  let fig := ax_figure (axes_objs p host_ax) in
  exists p' axs,
    axes host_ax x_label y_label_left y_label_right offset p = (p', Ok axs) /\
    figure_objs p' fig =
      mkFigureObj (fig_suptitle (figure_objs p fig))
        (fig_tight_layout (figure_objs p fig) ++
         [layout_rect (fig_suptitle (figure_objs p fig))]) /\
    (forall fig', fig' <> fig -> figure_objs p' fig' = figure_objs p fig').
Proof.
  intros Hhost fig.
  destruct y_label_left as [[s|[|label rest]]|].
  - destruct (axes_single_label_objects host_ax x_label s y_label_right
                offset p Hhost) as (p' & Hrun & _ & _ & Hfig & Hfigs & _).
    by exists p', ([host_ax] ++ seq (next_axes p)
                      (length (right_labels y_label_right))).
  - destruct (axes_no_left_objects host_ax x_label (Some (label_coll []))
                y_label_right offset p Hhost eq_refl)
      as (p' & Hrun & _ & _ & Hfig & Hfigs & _).
    by exists p', ([] ++ seq (next_axes p)
                      (length (right_labels y_label_right))).
  - destruct (axes_stack_objects host_ax x_label label rest y_label_right
                offset p Hhost) as
      (p' & Hrun & _ & _ & _ & Hfig & Hfigs & _).
    by exists p', ((host_ax :: seq (next_axes p) (length rest)) ++
                   seq (next_axes p + length rest)
                       (length (right_labels y_label_right))).
  - destruct (axes_no_left_objects host_ax x_label None
                y_label_right offset p Hhost eq_refl)
      as (p' & Hrun & _ & _ & Hfig & Hfigs & _).
    by exists p', ([] ++ seq (next_axes p)
                      (length (right_labels y_label_right))).
Qed.

(** [figure], [subplots] and [axes] in a row: whatever the titles given,
    the figure [figure] returns has a title, so for any Axes of the grid
    [axes] takes the branch with the title rectangle: [tight_layout] is
    called once more, with [rect=[0, 0.03, 1, 0.95]], and the title
    stays. The grid has a positive number of rows and columns, and ratios
    that are absent, empty, or as many as the columns (rows) with a sum
    that is not 0; with width ratios that add up to 0 [subplots] raises
    [ZeroDivisionError] on the figure returned and makes no Axes. *)
Theorem figure_subplots_axes fuel figure_title window_title fig s rows cols
    sharex sharey width_ratios height_ratios :
  (0 < rows)%Z -> (0 < cols)%Z ->
  ratios_fit width_ratios cols -> ratios_fit height_ratios rows ->
  exists s1 f p2 arr,
    figure (S (S fuel)) figure_title window_title fig s = (s1, Ok f) /\
    subplots f rows cols sharex sharey width_ratios height_ratios (py_plot s1)
      = (p2, Ok arr) /\
    length (array_axes arr) = Z.to_nat rows * Z.to_nat cols /\
    (forall l, l <> [] -> Z.of_nat (length l) = cols ->
       foldr Z.add 0%Z l = 0%Z ->
       subplots f rows cols sharex sharey (Some l) height_ratios (py_plot s1)
         = (py_plot s1, Raise (UserError "ZeroDivisionError"))) /\
    forall host_ax x_label y_label_left y_label_right offset,
      host_ax ∈ array_axes arr ->
      exists p3 axs,
        axes host_ax x_label y_label_left y_label_right offset p2
          = (p3, Ok axs) /\
        fig_tight_layout (figure_objs p3 f) =
          fig_tight_layout (figure_objs (py_plot s1) f) ++ [Some title_rect] /\
        fig_suptitle (figure_objs p3 f)
          = Some (title_used figure_title fig s).
Proof.
  intros Hr Hc Hw Hh.
  destruct (figure_result fuel figure_title window_title fig s) as
    (s1 & f & Hfig & Hsup & _).
  destruct (subplots_ok f rows cols sharex sharey width_ratios height_ratios
              (py_plot s1) Hr Hc Hw Hh) as
    (p2 & arr & Hsub & Harr & _ & Hn2 & Hf2 & _ & Hnew).
  exists s1, f, p2, arr. split_and!; try done.
  { by rewrite Harr, length_seq. }
  { intros l Hl Hlen Hsum. by apply subplots_zero_ratios. }
  intros host_ax x_label y_label_left y_label_right offset Hin.
  assert (host_ax < next_axes p2) as Hhost.
  { rewrite Harr in Hin. apply elem_of_seq in Hin. lia. }
  destruct (axes_layout host_ax x_label y_label_left y_label_right offset p2
              Hhost) as (p3 & axs & Hrun & Hlay & _).
  rewrite (Hnew host_ax Hin) in Hlay. cbn [new_subplot ax_figure] in Hlay.
  rewrite Hf2, Hsup in Hlay.
  exists p3, axs. split; [done|]. rewrite Hlay. cbn [fig_tight_layout fig_suptitle].
  split; [|done]. f_equal. unfold layout_rect.
  rewrite bool_decide_eq_false_2 by apply title_used_nonempty. done.
Qed.

Lemma figure_subplots_axes_witness :
  exists s1 f p2 arr,
    figure 2 (Some "Speed") None None initial_pyplot = (s1, Ok f) /\
    subplots f 1 2 ALL NONE (Some [3; 1]%Z) None (py_plot s1) = (p2, Ok arr) /\
    length (array_axes arr) = 2 /\
    subplots f 1 2 ALL NONE (Some [1; -1]%Z) None (py_plot s1)
      = (py_plot s1, Raise (UserError "ZeroDivisionError")).
Proof.
  destruct (figure_subplots_axes 0 (Some "Speed") None None initial_pyplot
              1 2 ALL NONE (Some [3; 1]%Z) None)
    as (s1 & f & p2 & arr & Hfig & Hsub & Hlen & Hzero & _).
  - lia.
  - lia.
  - split; [reflexivity|done].
  - exact I.
  - exists s1, f, p2, arr.
    split_and!; [exact Hfig | exact Hsub | exact Hlen |].
    by apply Hzero.
Defined.

(** * [save_png] *)

Section SavePngFacts.
Context `{OsPath}.

Lemma on_pyplot_get_window_title fig s :
  on_pyplot (get_window_title fig) s =
    (s, match fi_window_title (py_info (dk_pyplot s) fig) with
        | Some t => Ok t
        | None => Raise AttributeError
        end).
Proof.
  unfold on_pyplot, get_window_title.
  destruct s as [py sz dpi dirs files out]. simpl.
  by destruct (fi_window_title (py_info py fig)).
Qed.

(** The path block, case by case. *)
Lemma save_png_path_none fig path s :
  path_given path = false -> save_png_path fig path s = (s, Ok path).
Proof.
  destruct path as [p|]; [|done]. simpl. intros Hp.
  apply negb_false_iff in Hp. by rewrite Hp.
Qed.

Lemma save_png_path_some fig p s :
  p <> "" ->
  let directory := (os_path_split p).1 in
  let file_name := (os_path_split p).2 in
  save_png_path fig (Some p) s =
    if bool_decide (directory = "")
    then (s, Raise (UserError "FileNotFoundError"))
    else if bool_decide (file_name = "")
    then match fi_window_title (py_info (dk_pyplot s) fig) with
         | Some t =>
             (with_dir directory s,
              Ok (Some (os_path_join directory (with_png t))))
         | None => (with_dir directory s, Raise AttributeError)
         end
    else (with_dir directory s,
          Ok (Some (os_path_join directory (with_png file_name)))).
Proof.
  intros Hp directory file_name. unfold save_png_path.
  rewrite bool_decide_eq_false_2 by done.
  unfold directory, file_name. destruct (os_path_split p) as [d f].
  cbn [fst snd]. unfold bind at 1. unfold os_makedirs.
  destruct (bool_decide (d = "")); [done|].
  unfold modify. fold (with_dir d s). unfold bind at 1.
  destruct (bool_decide (f = "")); [|done].
  rewrite on_pyplot_get_window_title. cbn [with_dir dk_pyplot].
  by destruct (fi_window_title (py_info (dk_pyplot s) fig)).
Qed.

Lemma save_png_path_frame fig path s s1 r :
  save_png_path fig path s = (s1, r) ->
  same_but_dirs s s1 /\
  (dk_dirs s1 = dk_dirs s \/
   exists p, path = Some p /\ (os_path_split p).1 <> "" /\
             dk_dirs s1 = dk_dirs s ++ [(os_path_split p).1]).
Proof.
  intros Hrun. destruct (path_given path) eqn:Hg.
  - destruct path as [p|]; [|done]. simpl in Hg. apply negb_true_iff in Hg.
    apply bool_decide_eq_false in Hg.
    rewrite (save_png_path_some fig p s Hg) in Hrun.
    case_bool_decide as Hd.
    { injection Hrun as <- <-. split; [done|by left]. }
    assert (same_but_dirs s (with_dir (os_path_split p).1 s)) as Hsame by done.
    assert (dk_dirs (with_dir (os_path_split p).1 s) =
            dk_dirs s ++ [(os_path_split p).1]) as Hdirs by done.
    case_bool_decide;
      [destruct (fi_window_title (py_info (dk_pyplot s) fig))|];
      injection Hrun as <- <-; (split; [done|right; by exists p]).
  - rewrite save_png_path_none in Hrun by done. injection Hrun as <- <-.
    split; [done|by left].
Qed.

(** [save_png] after its path block. *)
Lemma save_png_path_raises fig path width height unit print_info s s1 e :
  save_png_path fig path s = (s1, Raise e) ->
  save_png fig path width height unit print_info s = (s1, Raise e).
Proof. intros Hp. unfold save_png. unfold bind at 1. by rewrite Hp. Qed.

Lemma save_png_resize_raises fig path width height unit print_info s s1 path'
    s2 e :
  save_png_path fig path s = (s1, Ok path') ->
  save_png_resize fig width height unit (dk_dpi s fig) s1 = (s2, Raise e) ->
  save_png fig path width height unit print_info s = (s2, Raise e).
Proof.
  intros Hp Hr. unfold save_png. unfold bind at 1. rewrite Hp.
  destruct (save_png_path_frame fig path s s1 _ Hp) as [(_ & _ & Hdpi & _) _].
  unfold bind at 1. unfold gets. rewrite Hdpi. unfold bind at 1.
  by rewrite Hr.
Qed.

Lemma save_png_tail fig path width height unit print_info s s1 path' s2 :
  save_png_path fig path s = (s1, Ok path') ->
  save_png_resize fig width height unit (dk_dpi s fig) s1 = (s2, Ok tt) ->
  let img := mkImage fig (dk_size s2 fig) (dk_dpi s fig) in
  save_png fig path width height unit print_info s =
    (if path_given path' then saved path' print_info img s2 else s2,
     Ok (save_result path' img)).
Proof.
  intros Hp Hr img. unfold save_png. unfold bind at 1. rewrite Hp.
  destruct (save_png_path_frame fig path s s1 _ Hp) as [(_ & _ & Hdpi & _) _].
  unfold bind at 1. unfold gets. rewrite Hdpi. unfold bind at 1.
  rewrite Hr. unfold bind at 1. fold img.
  destruct path' as [p|]; [|done]. cbn [path_given save_result].
  destruct (bool_decide (p = "")) eqn:Hpe; [done|]. cbn [negb].
  unfold saved, written, printed. rewrite Hpe.
  unfold bind, savefig, print, modify, ret. cbn [fst snd].
  destruct print_info; cbn [dk_pyplot dk_size dk_dpi dk_dirs dk_files dk_stdout].
  - done.
  - by rewrite app_nil_r.
Qed.

Lemma resize_nothing fig width height unit dpi s :
  size_given width height = false ->
  save_png_resize fig width height unit dpi s = (s, Ok tt).
Proof. unfold size_given, save_png_resize. by intros ->. Qed.

Lemma resize_px fig width height dpi s :
  size_given width height = true ->
  save_png_resize fig width height "px" dpi s =
    if Qeq_bool dpi 0 then (s, Raise (UserError "ZeroDivisionError"))
    else (with_size fig ((or_else width (dk_size s fig).1 / dpi)%Q,
                         (or_else height (dk_size s fig).2 / dpi)%Q) s,
          Ok tt).
Proof.
  unfold size_given, save_png_resize. intros ->.
  unfold bind, gets. cbn [bool_decide decide_rel].
  rewrite bool_decide_eq_true_2 by done. by destruct (Qeq_bool dpi 0).
Qed.

Lemma resize_metric fig width height unit k dpi s :
  size_given width height = true ->
  inches_per unit = Some k ->
  save_png_resize fig width height unit dpi s =
    match width, height with
    | Some a, Some b =>
        (with_size fig (or_else (Some (a / k)%Q) (dk_size s fig).1,
                        or_else (Some (b / k)%Q) (dk_size s fig).2) s, Ok tt)
    | _, _ => (s, Raise (UserError "TypeError"))
    end.
Proof.
  unfold size_given, save_png_resize, inches_per. intros -> Hk.
  unfold bind at 1. unfold gets.
  destruct (decide (unit = "mm")) as [->|Hmm].
  - injection Hk as <-. by destruct width, height.
  - rewrite (bool_decide_eq_false_2 (unit = "mm")) in Hk |- * by done.
    destruct (decide (unit = "cm")) as [->|Hcm].
    + injection Hk as <-. by destruct width, height.
    + by rewrite (bool_decide_eq_false_2 (unit = "cm")) in Hk.
Qed.

Lemma resize_unknown fig width height unit dpi s :
  size_given width height = true ->
  known_unit unit = false ->
  save_png_resize fig width height unit dpi s = (s, Raise ValueError).
Proof.
  unfold size_given, save_png_resize, known_unit. intros -> Hu.
  apply bool_decide_eq_false in Hu.
  unfold bind at 1. unfold gets.
  rewrite bool_decide_eq_false_2.
  2: { intros ->. apply Hu. by constructor. }
  rewrite bool_decide_eq_false_2; [done|].
  intros Hin. apply Hu. by constructor.
Qed.

Lemma saved_facts path print_info img s2 :
  let s' := if path_given path then saved path print_info img s2 else s2 in
  dk_pyplot s' = dk_pyplot s2 /\ dk_size s' = dk_size s2 /\
  dk_dpi s' = dk_dpi s2 /\ dk_dirs s' = dk_dirs s2 /\
  dk_files s' = dk_files s2 ++ written path img /\
  dk_stdout s' = dk_stdout s2 ++ printed path print_info img.
Proof.
  unfold saved, written, printed, path_given.
  destruct path as [p|]; [destruct (bool_decide (p = ""))|]; simpl;
    split_and!; by rewrite ?app_nil_r.
Qed.

(** The size is looked at after the path: when [save_png] fails on the
    size, nothing is resized, saved or printed, but the directory of the
    path has been made. An unknown unit is an error only when a size is
    given; a metric unit needs both numbers. *)
Theorem save_png_size_errors fig path width height unit print_info s s1 path' :
  save_png_path fig path s = (s1, Ok path') ->
  same_but_dirs s s1 /\
  (forall p, path = Some p -> p <> "" ->
     (os_path_split p).1 <> "" /\
     dk_dirs s1 = dk_dirs s ++ [(os_path_split p).1]) /\
  (path_given path = false -> s1 = s) /\
  (size_given width height = true -> known_unit unit = false ->
   save_png fig path width height unit print_info s = (s1, Raise ValueError)) /\
  (size_given width height = true -> inches_per unit <> None ->
   width = None \/ height = None ->
   save_png fig path width height unit print_info s
     = (s1, Raise (UserError "TypeError"))) /\
  (size_given width height = true -> (dk_dpi s fig == 0)%Q ->
   save_png fig path width height "px" print_info s
     = (s1, Raise (UserError "ZeroDivisionError"))) /\
  (size_given width height = false ->
   exists s',
     save_png fig path width height unit print_info s
       = (s', Ok (save_result path' (mkImage fig (dk_size s fig)
                                             (dk_dpi s fig)))) /\
     dk_size s' = dk_size s).
Proof.
  intros Hp.
  destruct (save_png_path_frame fig path s s1 _ Hp) as
    [Hsame Hdirs].
  pose proof Hsame as (Hpy & Hsize & Hdpi1 & Hfiles & Hout).
  split_and!.
  - exact Hsame.
  - intros p -> Hne. rewrite (save_png_path_some fig p s Hne) in Hp.
    case_bool_decide as Hd; [done|]. split; [done|].
    case_bool_decide;
      [destruct (fi_window_title (py_info (dk_pyplot s) fig)); [|done]|];
      by injection Hp as <- _.
  - intros Hg. rewrite save_png_path_none in Hp by done. by injection Hp as <-.
  - intros Hg Hu.
    apply (save_png_resize_raises fig path width height unit print_info s s1
             path' s1 _ Hp).
    by apply resize_unknown.
  - intros Hg Hk Hmiss.
    apply (save_png_resize_raises fig path width height unit print_info s s1
             path' s1 _ Hp).
    destruct (inches_per unit) as [k|] eqn:Hku; [|done].
    rewrite (resize_metric _ _ _ _ k) by done.
    destruct Hmiss as [-> | ->]; [done|by destruct width].
  - intros Hg Hz.
    apply (save_png_resize_raises fig path width height "px" print_info s s1
             path' s1 _ Hp).
    rewrite resize_px by done. apply Qeq_bool_iff in Hz. by rewrite Hz.
  - intros Hg.
    pose proof (save_png_tail fig path width height unit print_info s s1 path'
                  s1 Hp (resize_nothing _ _ _ _ _ _ Hg)) as Hrun.
    cbn zeta in Hrun. rewrite Hsize in Hrun.
    eexists. split; [exact Hrun|].
    destruct (saved_facts path' print_info
                (mkImage fig (dk_size s fig) (dk_dpi s fig)) s1) as
      (_ & Hsz & _).
    by rewrite Hsz.
Qed.

Lemma save_png_plain fig path width height unit print_info s s1 path' :
  save_png_path fig path s = (s1, Ok path') ->
  size_given width height = false ->
  let img := mkImage fig (dk_size s fig) (dk_dpi s fig) in
  exists s',
    save_png fig path width height unit print_info s
      = (s', Ok (save_result path' img)) /\
    dk_size s' = dk_size s /\
    dk_dirs s' = dk_dirs s1 /\
    dk_files s' = dk_files s ++ written path' img /\
    dk_stdout s' = dk_stdout s ++ printed path' print_info img.
Proof.
  intros Hp Hg img.
  destruct (save_png_path_frame fig path s s1 _ Hp) as
    [(Hpy & Hsize & Hdpi1 & Hfiles & Hout) _].
  pose proof (save_png_tail fig path width height unit print_info s s1 path'
                s1 Hp (resize_nothing _ _ _ _ _ _ Hg)) as Hrun.
  cbn zeta in Hrun. rewrite Hsize in Hrun. fold img in Hrun.
  eexists. split; [exact Hrun|].
  destruct (saved_facts path' print_info img s1) as
    (_ & Hsz & _ & Hd & Hfl & Hst).
  rewrite Hsz, Hd, Hfl, Hst. by rewrite Hsize, Hfiles, Hout.
Qed.

(** Where [save_png] saves. A path without directory part fails in
    [os.makedirs] before anything else happens. Otherwise the directory is
    made and the file name gets the extension unless it has it. For a path
    that names a directory only, the file is named after the window title
    that [figure] stored; a figure that was not made by [figure] has no
    such title, and the call fails after the directory was made. *)
Theorem save_png_names_the_file fig p width height unit print_info s :
  p <> "" ->
  let directory := (os_path_split p).1 in
  let file_name := (os_path_split p).2 in
  (directory = "" ->
   save_png fig (Some p) width height unit print_info s
     = (s, Raise (UserError "FileNotFoundError"))) /\
  (directory <> "" -> file_name <> "" -> size_given width height = false ->
   let target := Some (os_path_join directory (with_png file_name)) in
   let img := mkImage fig (dk_size s fig) (dk_dpi s fig) in
   exists s',
     save_png fig (Some p) width height unit print_info s
       = (s', Ok (save_result target img)) /\
     dk_dirs s' = dk_dirs s ++ [directory] /\
     dk_files s' = dk_files s ++ written target img) /\
  (directory <> "" -> file_name = "" ->
   fi_window_title (py_info (dk_pyplot s) fig) = None ->
   save_png fig (Some p) width height unit print_info s
     = (with_dir directory s, Raise AttributeError)) /\
  (directory <> "" -> file_name = "" -> size_given width height = false ->
   forall fuel figure_title window_title fig0,
   let title :=
     window_title_used figure_title window_title fig0 (dk_pyplot s) in
   let target := Some (os_path_join directory (with_png title)) in
   exists py f s',
     figure (S (S fuel)) figure_title window_title fig0 (dk_pyplot s)
       = (py, Ok f) /\
     save_png f (Some p) width height unit print_info (with_pyplot py s)
       = (s', Ok (save_result target
                    (mkImage f (dk_size s f) (dk_dpi s f)))) /\
     dk_dirs s' = dk_dirs s ++ [directory] /\
     dk_files s' =
       dk_files s ++ written target (mkImage f (dk_size s f) (dk_dpi s f))).
Proof.
  intros Hp directory file_name. split_and!.
  - intros Hd. apply save_png_path_raises.
    rewrite save_png_path_some by done. fold directory.
    by rewrite bool_decide_eq_true_2.
  - intros Hd Hf Hg target img.
    destruct (save_png_plain fig (Some p) width height unit print_info s
                (with_dir directory s) target) as
      (s' & Hrun & _ & Hdirs & Hfiles & _); [|done|].
    { rewrite save_png_path_some by done. fold directory file_name.
      by rewrite !bool_decide_eq_false_2. }
    by exists s'.
  - intros Hd Hf Hnone. apply save_png_path_raises.
    rewrite save_png_path_some by done. fold directory file_name.
    rewrite bool_decide_eq_false_2, bool_decide_eq_true_2 by done.
    by rewrite Hnone.
  - intros Hd Hf Hg fuel figure_title window_title fig0 title target.
    destruct (figure_result fuel figure_title window_title fig0 (dk_pyplot s))
      as (py & f & Hrun & _ & _ & Hwt & _).
    destruct (save_png_plain f (Some p) width height unit print_info
                (with_pyplot py s) (with_dir directory (with_pyplot py s))
                target) as (s' & Hsave & _ & Hdirs & Hfiles & _); [|done|].
    { rewrite save_png_path_some by done. fold directory file_name.
      rewrite bool_decide_eq_false_2, bool_decide_eq_true_2 by done.
      cbn [with_pyplot dk_pyplot]. by rewrite Hwt. }
    by exists py, f, s'.
Qed.

End SavePngFacts.

Lemma save_png_size_errors_witness :
  save_png (H := sample_os) 0 (Some "out/plot.png") (Some 3%Q) None "pt" false
           sample_desk
    = (with_dir "out" sample_desk, Raise ValueError) /\
  dk_dirs (with_dir "out" sample_desk) = ["out"] /\
  dk_files (with_dir "out" sample_desk) = [].
Proof.
  destruct (save_png_size_errors (H := sample_os) 0 (Some "out/plot.png")
              (Some 3%Q) None "pt" false sample_desk
              (with_dir "out" sample_desk) (Some "out/plot.png"))
    as (_ & _ & _ & Hunit & _).
  - reflexivity.
  - split; [|done]. apply Hunit; reflexivity.
Defined.

Lemma save_png_names_the_file_witness :
  save_png (H := sample_os) 0 (Some "plot.png") None None "px" false
           sample_desk
    = (sample_desk, Raise (UserError "FileNotFoundError")).
Proof.
  destruct (save_png_names_the_file (H := sample_os) 0 "plot.png" None None
              "px" false sample_desk) as (Hbare & _).
  - done.
  - apply Hbare. reflexivity.
Defined.
